(** * youtube-chat-ai: the channel ingestion pipeline, the tool loop and the
      JSON tool executor, embedded from
      - server/index.js          (POST /api/youtube/channel),
      - services/gemini.js       (chatWithTools),
      - services/jsonTools.js    (executeJsonTool).

    Around them, from the same sources: the plot tool and the views that
    draw its charts (services/jsonTools.js, components/Chat.js,
    components/TimeSeriesChart.js), the download page that reads the
    event stream (components/YouTubeDownload.js), the play and statistics
    fallbacks of the chat and the file name of a saved image
    (components/Chat.js), image generation (server/index.js,
    services/gemini.js) and the users, sessions and messages of the API
    (server/index.js).

    JavaScript values are embedded as a tree type; every exception the code
    can raise is an explicit [Throw]; side effects (the event stream, the
    temporary directory, the model conversation) are threaded as state.

    Two limits of the embedding: a number is NaN, an integer of any size
    or a binary fraction (the infinities are left out; division and
    [Math.round] are those of binary64), and a string is a sequence of
    one-byte characters (so [\s], [toLowerCase] and lengths are those of
    ASCII text).  The engine's own readers
    ([JSON.parse], [Number] on a string, [new Date]) and the services the
    code awaits are parameters, gathered in a record per module. *)

From Stdlib Require Import ZArith Lia Bool List Ascii String.
From Stdlib Require Import Floats.SpecFloat.
From Stdlib Require Import Numbers.DecimalString.
From Stdlib Require Import Sorting.Sorted.
From stdpp Require Import base option list strings gmap.

Set Warnings "-register-all".

Local Open Scope Z_scope.
Local Open Scope string_scope.

(* ===================================================================== *)
(** ** JavaScript values *)
(* ===================================================================== *)

Module JS.

(** Numbers.  A number is [NaN], an integer, or a binary fraction that
    is not whole: [Frac k e] is [(2k + 1) / 2^e], an odd numerator over a
    power of two, which is the form of every number of binary64 that is
    not an integer (2.5 is [Frac 2 1], 0.75 is [Frac 1 2]).  An integer
    is exact whatever its size; the infinities are not represented. *)
Inductive num : Type :=
| NaN
| Int (z : Z)
| Frac (k : Z) (e : positive).

Inductive value : Type :=
| VUndef
| VNull
| VBool (b : bool)
| VNum (n : num)
| VStr (s : string)
| VArr (elems : list value)
| VObj (props : list (string * value)).

(** What evaluating a piece of code gives: a value or a thrown exception.
    The exception carries the [message] property the handler reads. *)
Inductive outcome (A : Type) : Type :=
| Ok (a : A)
| Throw (message : string).
Arguments Ok {A} a.
Arguments Throw {A} message.

Definition bind {A B} (x : outcome A) (k : A -> outcome B) : outcome B :=
  match x with
  | Ok a => k a
  | Throw m => Throw m
  end.

Notation "'let*' x ':=' c1 'in' c2" := (bind c1 (fun x => c2))
  (at level 10, x name, c1 at level 100, c2 at level 200).

Definition outcome_map {A B} (f : A -> B) (x : outcome A) : outcome B :=
  match x with
  | Ok a => Ok (f a)
  | Throw m => Throw m
  end.

#[export] Instance outcome_fmap : FMap outcome := @outcome_map.

(** A callback applied to the elements of an array in order, as [map]
    does; the first throw ends it. *)
Fixpoint mapM {A B} (f : A -> outcome B) (l : list A) : outcome (list B) :=
  match l with
  | [] => Ok []
  | a :: l' => let* b := f a in let* bs := mapM f l' in Ok (b :: bs)
  end.

(** The text of a TypeError is the engine's; only its being thrown matters. *)
Definition TypeError {A} : outcome A := Throw "TypeError".

(** [ToBoolean]. *)
Definition truthy (v : value) : bool :=
  match v with
  | VUndef | VNull => false
  | VBool b => b
  | VNum NaN => false
  | VNum (Int z) => negb (Z.eqb z 0)
  | VNum (Frac _ _) => true
  | VStr s => negb (String.eqb s "")
  | VArr _ | VObj _ => true
  end.

(** [v == null] (true of [null] and [undefined] only). *)
Definition nullish (v : value) : bool :=
  match v with
  | VUndef | VNull => true
  | _ => false
  end.

(** [a || b] on values. *)
Definition or_else (a b : value) : value := if truthy a then a else b.

Fixpoint assoc (k : string) (ps : list (string * value)) : option value :=
  match ps with
  | [] => None
  | (k', v) :: ps' => if String.eqb k k' then Some v else assoc k ps'
  end.

Definition nat_key (i : nat) : string :=
  NilZero.string_of_uint (Nat.to_uint i).

Definition char_at (s : string) (i : nat) : value :=
  match String.get i s with
  | Some c => VStr (String c EmptyString)
  | None => VUndef
  end.

(** [v.k] for a data property [k] of a value that is not nullish.  Objects
    hold their own properties; arrays and strings have [length]; the other
    primitives have no data property. *)
Definition get (v : value) (k : string) : value :=
  match v with
  | VObj ps => default VUndef (assoc k ps)
  | VArr l => if String.eqb k "length" then VNum (Int (Z.of_nat (List.length l))) else VUndef
  | VStr s => if String.eqb k "length" then VNum (Int (Z.of_nat (String.length s))) else VUndef
  | _ => VUndef
  end.

(** [v?.k]. *)
Definition oget (v : value) (k : string) : value :=
  if nullish v then VUndef else get v k.

(** [v.k] with the TypeError of reading a property of null or undefined. *)
Definition sget (v : value) (k : string) : outcome value :=
  if nullish v then TypeError else Ok (get v k).

(** [v?.[i]]. *)
Definition oidx (v : value) (i : nat) : value :=
  match v with
  | VArr l => default VUndef (l !! i)
  | VStr s => char_at s i
  | VObj ps => default VUndef (assoc (nat_key i) ps)
  | _ => VUndef
  end.

(** [v.slice(-1)] where [v] is not nullish: arrays and strings have the
    method, anything else raises (calling what is not a function). *)
Definition slice_last (v : value) : outcome value :=
  match v with
  | VArr l => Ok (VArr (match last l with Some x => [x] | None => [] end))
  | VStr s => Ok (VStr (match String.length s with
                        | O => ""
                        | S n => String.substring n 1 s
                        end))
  | _ => TypeError
  end.

(** [v.slice(0, n)] where [v] is not nullish. *)
Definition slice_to (n : nat) (v : value) : outcome value :=
  match v with
  | VArr l => Ok (VArr (firstn n l))
  | VStr s => Ok (VStr (String.substring 0 n s))
  | _ => TypeError
  end.

(** [v.filter(p)]: only arrays have the method. *)
Definition filter_arr (p : value -> bool) (v : value) : outcome (list value) :=
  match v with
  | VArr l => Ok (List.filter p l)
  | _ => TypeError
  end.

(** The elements [for (const x of v)] visits: arrays and strings are
    iterable, nothing else among these values is. *)
Fixpoint chars (s : string) : list value :=
  match s with
  | EmptyString => []
  | String c s' => VStr (String c EmptyString) :: chars s'
  end.

Definition iterate (v : value) : outcome (list value) :=
  match v with
  | VArr l => Ok l
  | VStr s => Ok (chars s)
  | _ => TypeError
  end.

(** *** Strings *)

Definition Z_to_string (z : Z) : string := NilZero.string_of_int (Z.to_int z).

Fixpoint join (sep : string) (l : list string) : string :=
  match l with
  | [] => ""
  | [s] => s
  | s :: l' => s ++ sep ++ join sep l'
  end.

(** *** Numbers in binary64, and their text

    Where the code divides, rounds or prints a fraction the arithmetic
    is that of binary64, round to nearest, ties to even. *)

(** [Math.floor] of the fraction [(2k + 1) / 2^e]. *)
Definition floor (k : Z) (e : positive) : Z := (2 * k + 1) / 2 ^ Zpos e.

(** [Math.trunc]: the whole part, towards zero. *)
Definition trunc (k : Z) (e : positive) : Z :=
  if (k <? 0)%Z then floor k e + 1 else floor k e.

(** The number [m / 2^e]: an integer when the power of two divides [m]. *)
Fixpoint dyadic (m : Z) (e : nat) : num :=
  match e with
  | O => Int m
  | S e' =>
      if Z.even m then dyadic (m / 2) e'
      else Frac ((m - 1) / 2) (Pos.of_succ_nat e')
  end.

Definition binary64 (n : num) : spec_float :=
  match n with
  | NaN => S754_nan
  | Int z => binary_normalize 53 1024 z 0 false
  | Frac k e => binary_normalize 53 1024 (2 * k + 1) (- Zpos e) false
  end.

(** The number a binary64 value is; an overflow has none. *)
Definition of_binary64 (x : spec_float) : num :=
  match x with
  | S754_zero _ => Int 0
  | S754_finite s m e =>
      let v := if s then Z.neg m else Z.pos m in
      if (0 <=? e)%Z then Int (v * 2 ^ e) else dyadic v (Z.to_nat (- e))
  | S754_infinity _ | S754_nan => NaN
  end.

(** The double nearest to [p / q], for positive [p] and [q]. *)
Definition nearest (p q : Z) : spec_float :=
  SFdiv 53 1024 (S754_finite false (Z.to_pos p) 0) (S754_finite false (Z.to_pos q) 0).

(** The double nearest to [s * 10^scale]. *)
Definition decimal (s scale : Z) : spec_float :=
  if (0 <=? scale)%Z then nearest (s * 10 ^ scale) 1 else nearest s (10 ^ (- scale)).

(** The position of the decimal point in [p / q]: the [n] with
    [10^(n-1) <= p / q < 10^n]. *)
Fixpoint point_up (fuel : nat) (p q n : Z) : Z :=
  match fuel with
  | O => n
  | S fuel' => if (p <? 10 * q)%Z then n else point_up fuel' p (10 * q) (n + 1)
  end.

Fixpoint point_down (fuel : nat) (p q n : Z) : Z :=
  match fuel with
  | O => n
  | S fuel' => if (q <=? 10 * p)%Z then n else point_down fuel' (10 * p) q (n - 1)
  end.

Definition point (p q : Z) : Z :=
  let fuel := Z.to_nat (Z.log2 p + Z.log2 q + 1) in
  if (q <=? p)%Z then point_up fuel p q 1 else point_down fuel p q 0.

(** The digits Number::toString prints for [p / q]: the shortest decimal
    that reads back as the same double, given as an integer [s] and a
    scale, its value being [s * 10^scale]; among the decimals of one
    length the nearest to [p / q], and the even one of two as near.  The
    search goes by the number [k] of digits, and 17 always suffice. *)
Fixpoint shortest (fuel : nat) (target : spec_float) (p q n k : Z) : Z * Z :=
  let scale := n - k in
  let a := if (0 <=? scale)%Z then p else p * 10 ^ (- scale) in
  let b := if (0 <=? scale)%Z then q * 10 ^ scale else q in
  let lo := a / b in
  let hi := lo + 1 in
  let lo_reads := ((0 <? lo)%Z && SFeqb (decimal lo scale) target)%bool in
  let hi_reads := SFeqb (decimal hi scale) target in
  let lo_nearer :=
    ((2 * a <? (2 * lo + 1) * b)%Z
     || ((2 * a =? (2 * lo + 1) * b)%Z && Z.even lo))%bool in
  if (lo_reads && (negb hi_reads || lo_nearer))%bool then (lo, scale)
  else if hi_reads then (hi, scale)
  else match fuel with
       | O => (lo, scale)
       | S fuel' => shortest fuel' target p q n (k + 1)
       end.

(** Zeros at the end of the digits go into the scale. *)
Fixpoint strip_zeros (fuel : nat) (s scale : Z) : Z * Z :=
  match fuel with
  | O => (s, scale)
  | S fuel' =>
      if (s mod 10 =? 0)%Z then strip_zeros fuel' (s / 10) (scale + 1) else (s, scale)
  end.

Fixpoint zeros (n : nat) : string :=
  match n with
  | O => EmptyString
  | S n' => String "0" (zeros n')
  end.

(** Number::toString on the digits and the position [n] of the point:
    plain digits up to 21 places, a point inside them, zeros after
    [0.] down to six places, and the exponent form beyond. *)
Definition place (digits : string) (n : Z) : string :=
  let k := Z.of_nat (String.length digits) in
  if ((k <=? n)%Z && (n <=? 21)%Z)%bool then digits ++ zeros (Z.to_nat (n - k))
  else if ((0 <? n)%Z && (n <=? 21)%Z)%bool
  then String.substring 0 (Z.to_nat n) digits ++ "."
         ++ String.substring (Z.to_nat n) (Z.to_nat (k - n)) digits
  else if ((-6 <? n)%Z && (n <=? 0)%Z)%bool
  then "0." ++ zeros (Z.to_nat (- n)) ++ digits
  else
    (if (k =? 1)%Z then digits
     else String.substring 0 1 digits ++ "."
            ++ String.substring 1 (Z.to_nat (k - 1)) digits)
    ++ "e" ++ (if (0 <=? n - 1)%Z then "+" else "-") ++ Z_to_string (Z.abs (n - 1)).

(** The text of the positive number [p / q]. *)
Definition print (p q : Z) : string :=
  let target := nearest p q in
  let '(s, scale) := shortest 17 target p q (point p q) 1 in
  let '(s, scale) := strip_zeros 20 s scale in
  let digits := Z_to_string s in
  place digits (scale + Z.of_nat (String.length digits)).

Definition print_fraction (k : Z) (e : positive) : string :=
  if (k <? 0)%Z then "-" ++ print (- (2 * k + 1)) (2 ^ Zpos e)
  else print (2 * k + 1) (2 ^ Zpos e).

(** [ToString]; an array prints as its elements joined by commas, with
    null and undefined elements printing as nothing. *)
Fixpoint ToString (v : value) : string :=
  match v with
  | VUndef => "undefined"
  | VNull => "null"
  | VBool true => "true"
  | VBool false => "false"
  | VNum NaN => "NaN"
  | VNum (Int z) => Z_to_string z
  | VNum (Frac k e) => print_fraction k e
  | VStr s => s
  | VArr l =>
      join "," (List.map (fun e => match e with
                                   | VUndef | VNull => ""
                                   | _ => ToString e
                                   end) l)
  | VObj _ => "[object Object]"
  end.

(** [l.join(sep)]. *)
Definition join_values (sep : string) (l : list value) : string :=
  join sep (List.map (fun e => match e with
                               | VUndef | VNull => ""
                               | _ => ToString e
                               end) l).

(** White space as [\s] and [trim] see it, in the ASCII range. *)
Definition is_space (c : ascii) : bool :=
  let n := nat_of_ascii c in
  (Nat.eqb n 32 || (Nat.leb 9 n && Nat.leb n 13))%bool.

Definition is_digit (c : ascii) : bool :=
  let n := nat_of_ascii c in (Nat.leb 48 n && Nat.leb n 57)%bool.

Definition digit_val (c : ascii) : Z := Z.of_nat (nat_of_ascii c) - 48.

Fixpoint drop_spaces (s : string) : string :=
  match s with
  | String c s' => if is_space c then drop_spaces s' else s
  | EmptyString => EmptyString
  end.

(** The longest run of digits at the front of [s], read in base 10 onto
    the accumulator; [None] when there is no digit. *)
Fixpoint digits (acc : option Z) (s : string) : option Z :=
  match s with
  | String c s' =>
      if is_digit c
      then digits (Some (10 * default 0 acc + digit_val c)) s'
      else acc
  | EmptyString => acc
  end.

(** [parseInt(v, 10)]: the argument is printed, leading white space and one
    sign are skipped, and the leading digits are read; no digit gives NaN. *)
Definition parseInt10 (v : value) : num :=
  match drop_spaces (ToString v) with
  | String "-" s' => match digits None s' with Some z => Int (- z) | None => NaN end
  | String "+" s' => match digits None s' with Some z => Int z | None => NaN end
  | s => match digits None s with Some z => Int z | None => NaN end
  end.

(** [isNaN] of a number. *)
Definition isNaN (n : num) : bool :=
  match n with NaN => true | Int _ | Frac _ _ => false end.

(** *** State and exceptions

    Code that writes to the response, the file system or a local object
    runs in a state [S]; a throw keeps the state reached so far. *)
Definition SE (S A : Type) : Type := S -> outcome A * S.

Definition ret {S A} (a : A) : SE S A := fun s => (Ok a, s).

Definition sbind {S A B} (m : SE S A) (k : A -> SE S B) : SE S B :=
  fun s => match m s with
           | (Ok a, s') => k a s'
           | (Throw e, s') => (Throw e, s')
           end.

Definition lift {S A} (o : outcome A) : SE S A := fun s => (o, s).

Definition modify {S} (f : S -> S) : SE S unit := fun s => (Ok tt, f s).

Definition gets {S A} (f : S -> A) : SE S A := fun s => (Ok (f s), s).

(** [try { m } catch (e) { h e.message }]. *)
Definition try_catch {S A} (m : SE S A) (h : string -> SE S A) : SE S A :=
  fun s => match m s with
           | (Ok a, s') => (Ok a, s')
           | (Throw e, s') => h e s'
           end.

Notation "'let!' x ':=' c1 'in' c2" := (sbind c1 (fun x => c2))
  (at level 10, x name, c1 at level 100, c2 at level 200).
Notation "c1 ;; c2" := (sbind c1 (fun _ => c2))
  (at level 100, c2 at level 200, right associativity).

(** [Number(v)], and the conversion arithmetic applies to an operand.
    Reading a number out of a string is the engine's numeric-literal
    reader, [StringToNumber], a parameter. *)
Definition ToNumber (StringToNumber : string -> num) (v : value) : num :=
  match v with
  | VUndef => NaN
  | VNull => Int 0
  | VBool b => Int (if b then 1 else 0)
  | VNum n => n
  | VStr s => StringToNumber s
  | VArr _ | VObj _ => StringToNumber (ToString v)
  end.

(** [a - b] on numbers. *)
Definition sub (a b : num) : num :=
  match a, b with
  | Int x, Int y => Int (x - y)
  | NaN, _ | _, NaN => NaN
  | _, _ => of_binary64 (SFsub 53 1024 (binary64 a) (binary64 b))
  end.

(** [a < b] on numbers; NaN is below nothing and nothing is below it.  A
    fraction is above the integers up to its floor and below the others. *)
Definition lt (a b : num) : bool :=
  match a, b with
  | Int x, Int y => (x <? y)%Z
  | Int x, Frac k e => (x <=? floor k e)%Z
  | Frac k e, Int y => (floor k e <? y)%Z
  | Frac k e, Frac k' e' =>
      ((2 * k + 1) * 2 ^ Zpos e' <? (2 * k' + 1) * 2 ^ Zpos e)%Z
  | _, _ => false
  end.

(** [a <= b]. *)
Definition le (a b : num) : bool :=
  match a, b with
  | NaN, _ | _, NaN => false
  | _, _ => negb (lt b a)
  end.

(** [Math.max(a, b)] and [Math.min(a, b)]. *)
Definition Math_max (a b : num) : num :=
  match a, b with
  | NaN, _ | _, NaN => NaN
  | _, _ => if lt a b then b else a
  end.

Definition Math_min (a b : num) : num :=
  match a, b with
  | NaN, _ | _, NaN => NaN
  | _, _ => if lt b a then b else a
  end.

(** [v === s] for a string literal [s]. *)
Definition is_str (v : value) (s : string) : bool :=
  match v with
  | VStr s' => String.eqb s' s
  | _ => false
  end.

(** [x || d] for a number [x] and a default [d]: NaN and zero are falsy. *)
Definition num_or (x : num) (d : Z) : num :=
  match x with
  | NaN => Int d
  | Int z => if Z.eqb z 0 then Int d else x
  | Frac _ _ => x
  end.

End JS.


(** *** More string operations of the standard library the code calls *)

Module Str.

(** The rest of [s] after the prefix [p], when [s] starts with [p]. *)
Fixpoint strip_prefix (p s : string) : option string :=
  match p, s with
  | EmptyString, _ => Some s
  | String a p', String b s' => if Ascii.eqb a b then strip_prefix p' s' else None
  | String _ _, EmptyString => None
  end.

Definition starts_with (p s : string) : bool := bool_decide (is_Some (strip_prefix p s)).

(** [s.endsWith(suf)]. *)
Definition ends_with (suf s : string) : bool :=
  let n := String.length s in
  let k := String.length suf in
  (Nat.leb k n && String.eqb (String.substring (n - k) k s) suf)%bool.

(** [s.replace(/\/+$/, '')]: the run of slashes at the end is removed. *)
Fixpoint strip_trailing_slashes (s : string) : string :=
  match s with
  | EmptyString => EmptyString
  | String c s' =>
      let r := strip_trailing_slashes s' in
      if (Ascii.eqb c "/" && String.eqb r "")%bool then EmptyString else String c r
  end.

(** [s.replace(/,/g, '')]. *)
Fixpoint remove_commas (s : string) : string :=
  match s with
  | EmptyString => EmptyString
  | String c s' => if Ascii.eqb c "," then remove_commas s' else String c (remove_commas s')
  end.

(** [s.replace(/\n/g, ' ')]. *)
Fixpoint newlines_to_spaces (s : string) : string :=
  match s with
  | EmptyString => EmptyString
  | String c s' =>
      String (if Ascii.eqb c "010" then " "%char else c) (newlines_to_spaces s')
  end.

(** [s.replace(/\s+/g, ' ')]; [in_run] says the previous character was
    white space already replaced. *)
Fixpoint collapse_spaces (in_run : bool) (s : string) : string :=
  match s with
  | EmptyString => EmptyString
  | String c s' =>
      if JS.is_space c
      then (if in_run then collapse_spaces true s'
            else String " " (collapse_spaces true s'))
      else String c (collapse_spaces false s')
  end.

Fixpoint drop_trailing_spaces (s : string) : string :=
  match s with
  | EmptyString => EmptyString
  | String c s' =>
      let r := drop_trailing_spaces s' in
      if (JS.is_space c && String.eqb r "")%bool then EmptyString else String c r
  end.

(** [s.trim()]. *)
Definition trim (s : string) : string := drop_trailing_spaces (JS.drop_spaces s).

(** [s.slice(0, n)]. *)
Definition take (n : nat) (s : string) : string := String.substring 0 n s.

(** Some suffix of [s] satisfies [p]: an unanchored pattern is tried at
    every position. *)
Fixpoint somewhere (p : string -> bool) (s : string) : bool :=
  (p s || match s with
          | EmptyString => false
          | String _ s' => somewhere p s'
          end)%bool.

(** [s.includes(t)], and [/t/.test(s)] for a literal [t]. *)
Definition includes (t s : string) : bool := somewhere (starts_with t) s.

End Str.

(* ===================================================================== *)
(** ** The ingestion endpoint: POST /api/youtube/channel (server/index.js) *)
(* ===================================================================== *)

Module Ingest.
Import JS.

(** What [fetch] resolves to: [response.ok], [response.status] and the
    outcome of [response.text()]. *)
Record page : Type := {
  page_ok : bool;
  page_status : Z;
  page_text : outcome string;
}.

(** The world outside the handler: the engine's readers and the external
    services it awaits.  Nothing is assumed of them. *)
Record env : Type := {
  (** [Number] on a string (the engine's numeric-literal reader). *)
  StringToNumber : string -> num;
  (** [JSON.parse]; [None] is a SyntaxError. *)
  JSON_parse : string -> option value;
  (** [fetch(url, {headers})]; a network failure rejects. *)
  fetch : string -> outcome page;
  (** [ytdl.getInfo(url)]. *)
  getInfo : string -> outcome value;
  (** [path.join(os.tmpdir(), name)]. *)
  tmp_path : string -> string;
  (** [execFile(cmd, args, {timeout}, cb)] run until the callback fires:
      what the command did to the files.  The callback resolves with the
      error, so the await never rejects. *)
  execFile : string -> list string -> Z -> gmap string string -> gmap string string;
}.

(** **** Messages of the errors the handler throws itself *)

Definition fetch_failed_message (status : Z) : string :=
  "Failed to fetch channel page: HTTP " ++ Z_to_string status.

Definition extraction_message : string :=
  "Could not extract ytInitialData. The channel may not exist or YouTube blocked the request.".

Definition parse_message : string := "Failed to parse ytInitialData JSON.".

Definition no_videos_message : string :=
  "No videos found. Make sure the URL points to a public YouTube channel (e.g. https://www.youtube.com/@channelname).".

(** *** Locating the embedded blob (lines 302-318)

    The two regular expressions, both with the [s] flag:
    - [/var ytInitialData\s*=\s*(\{.+?\});\s*<\/script>/]
    - [/ytInitialData\s*=\s*(\{.+?\});\s*(?:var |<\/script>)/]
    Every piece but the lazy [.+?] has one way to match at a position (a
    greedy [\s*] is followed by a character that is not white space), so a
    matcher that takes all the white space and then tries the lazy body at
    growing lengths is the backtracking search. *)

(** [\};\s*<\/script>] at the front of [s]. *)
Definition tail_script (s : string) : bool :=
  match Str.strip_prefix "};" s with
  | Some r => Str.starts_with "</script>" (drop_spaces r)
  | None => false
  end.

(** [\};\s*(?:var |<\/script>)] at the front of [s]. *)
Definition tail_var_or_script (s : string) : bool :=
  match Str.strip_prefix "};" s with
  | Some r =>
      (Str.starts_with "var " (drop_spaces r)
       || Str.starts_with "</script>" (drop_spaces r))%bool
  | None => false
  end.

(** The shortest [b] with [s = b ++ r] and [tail r]. *)
Fixpoint lazy_body (tail : string -> bool) (s : string) : option string :=
  if tail s then Some EmptyString
  else match s with
       | EmptyString => None
       | String c s' => String c <$> lazy_body tail s'
       end.

(** A match of [lit\s*=\s*(\{.+?\})tail] that starts at the front of [s];
    the result is capture group 1. *)
Definition match_here (lit : string) (tail : string -> bool) (s : string)
  : option string :=
  r1 ← Str.strip_prefix lit s;
  r2 ← Str.strip_prefix "=" (drop_spaces r1);
  r3 ← Str.strip_prefix "{" (drop_spaces r2);
  match r3 with
  | String c r4 => b ← lazy_body tail r4; Some ("{" ++ String c b ++ "}")
  | EmptyString => None
  end.

(** [s.match(re)]: the match at the leftmost position that has one. *)
Fixpoint search (lit : string) (tail : string -> bool) (s : string)
  : option string :=
  match match_here lit tail s with
  | Some cap => Some cap
  | None => match s with
            | EmptyString => None
            | String _ s' => search lit tail s'
            end
  end.

(** [html.match(re1) || html.match(re2)], then [match[1]]. *)
Definition ytInitialData_match (html : string) : option string :=
  match search "var ytInitialData" tail_script html with
  | Some cap => Some cap
  | None => search "ytInitialData" tail_var_or_script html
  end.

Definition extract (E : env) (html : string) : outcome value :=
  match ytInitialData_match html with
  | None => Throw extraction_message
  | Some cap =>
      match JSON_parse E cap with
      | Some ytData => Ok ytData
      | None => Throw parse_message
      end
  end.

(** *** Walking to the video renderers (lines 320-358) *)

(** [l.length] as a condition. *)
Definition nonempty {A} (l : list A) : bool :=
  match l with [] => false | _ :: _ => true end.

(** [c?.richItemRenderer?.content?.videoRenderer]. *)
Definition rich_video (c : value) : value :=
  oget (oget (oget c "richItemRenderer") "content") "videoRenderer".

(** [c.richItemRenderer.content.videoRenderer]. *)
Definition rich_video_strict (c : value) : outcome value :=
  let* r := sget c "richItemRenderer" in
  let* k := sget r "content" in
  sget k "videoRenderer".

(** [section?.itemSectionRenderer?.contents?.[0]?.gridRenderer?.items || []]. *)
Definition section_items (section : value) : value :=
  or_else
    (oget (oget (oidx (oget (oget section "itemSectionRenderer") "contents") 0)
                "gridRenderer") "items")
    (VArr []).

(** The inner [for (const section of ...)] with the variable
    [videoRenderers] it assigns; returning is its [break]. *)
Fixpoint scan_sections (sections : list value) (videoRenderers : list value)
  : outcome (list value) :=
  match sections with
  | [] => Ok videoRenderers
  | section :: rest =>
      let* picked := filter_arr (fun it => truthy (oget it "gridVideoRenderer"))
                                (section_items section) in
      let* videoRenderers := mapM (fun it => sget it "gridVideoRenderer") picked in
      if nonempty videoRenderers then Ok videoRenderers
      else scan_sections rest videoRenderers
  end.

(** The outer [for (const tab of tabs)].  [legacy] is the second half of
    the loop body, reached when the grid did not break out. *)
Fixpoint scan_tabs (tabs : list value) (videoRenderers : list value)
  : outcome (list value) :=
  match tabs with
  | [] => Ok videoRenderers
  | tab :: rest =>
      let tabR := oget tab "tabRenderer" in
      if negb (truthy tabR) then scan_tabs rest videoRenderers
      else
        let legacy := fun videoRenderers : list value =>
          let sectionList := oget (oget tabR "content") "sectionListRenderer" in
          if truthy sectionList then
            let* sections :=
              iterate (or_else (get sectionList "contents") (VArr [])) in
            let* videoRenderers := scan_sections sections videoRenderers in
            if nonempty videoRenderers then Ok videoRenderers
            else scan_tabs rest videoRenderers
          else scan_tabs rest videoRenderers in
        let richGrid := oget (oget tabR "content") "richGridRenderer" in
        if truthy (oget (oget richGrid "contents") "length") then
          let* picked := filter_arr (fun c => truthy (rich_video c))
                                    (get richGrid "contents") in
          let* videoRenderers := mapM rich_video_strict picked in
          if nonempty videoRenderers then Ok videoRenderers
          else legacy videoRenderers
        else legacy videoRenderers
  end.

Definition navigate (ytData : value) : outcome (list value) :=
  let tabs :=
    or_else (oget (oget (oget ytData "contents") "twoColumnBrowseResultsRenderer")
                  "tabs")
            (VArr []) in
  let* tabs := iterate tabs in
  let* videoRenderers := scan_tabs tabs [] in
  if nonempty videoRenderers then Ok videoRenderers
  else Throw no_videos_message.

(** *** The item limit (line 360) *)

(** [Number(v)]. *)
Definition Number (E : env) (v : value) : num := ToNumber (StringToNumber E) v.

(** [const { url, maxVideos = 10 } = req.body]: the default replaces an
    absent ([undefined]) property only. *)
Definition maxVideos_of (body : value) : value :=
  match get body "maxVideos" with
  | VUndef => VNum (Int 10)
  | v => v
  end.

(** [Math.min(videoRenderers.length, Math.max(1, Number(maxVideos) || 10))]. *)
Definition limit (E : env) (available : nat) (maxVideos : value) : num :=
  Math_min (Int (Z.of_nat available))
           (Math_max (Int 1) (num_or (Number E maxVideos) 10)).

(** The bound as the specification words it. *)
Definition clamp (v lo hi : num) : num := Math_max lo (Math_min v hi).

Definition spec_limit (available : nat) (requested : num) : num :=
  Math_min (Int (Z.of_nat available)) (clamp requested (Int 1) (Int 100)).

(** The requested maximum of a request whose [Number(maxVideos)] is [n]:
    [n] itself, or 10 when [n] is NaN or zero. *)
Definition requested_maximum (n requested : num) : Prop :=
  ((n = NaN \/ n = Int 0) /\ requested = Int 10)
  \/ (n <> NaN /\ n <> Int 0 /\ requested = n).

(** *** Progress percent (line 368)

    [Math.round(((i + 1) / limit) * 100)] is computed on binary64 numbers:
    the quotient and the product are each rounded to nearest-even before
    [Math.round] takes the nearest integer, ties going up. *)

Definition prec : Z := 53.
Definition emax : Z := 1024.

Definition float_of_Z (z : Z) : spec_float := binary_normalize prec emax z 0 false.

(** [Math.round]: the integer nearest to [m * 2^e], ties towards
    +infinity.  Infinities do not arise from a quotient of positive
    integers; like NaN they have no integer value. *)
Definition Math_round (x : spec_float) : num :=
  match x with
  | S754_zero _ => Int 0
  | S754_finite s m e =>
      let v := if s then Z.neg m else Z.pos m in
      if (0 <=? e)%Z then Int (v * 2 ^ e)
      else Int ((2 * v + 2 ^ (- e)) / (2 * 2 ^ (- e)))
  | S754_infinity _ | S754_nan => NaN
  end.

Definition percent (current : Z) (total : num) : num :=
  Math_round (SFmul prec emax
                (SFdiv prec emax (float_of_Z current) (binary64 total))
                (float_of_Z 100)).

(** *** The record built for each video (lines 379-393) *)

Record videoData : Type := {
  video_id : value;
  title : value;
  video_url : string;
  thumbnail : value;
  duration : value;
  published_time_text : value;
  view_count_text : value;
  description : value;
  release_date : value;
  view_count : value;
  like_count : value;
  comment_count : value;
  transcript : string;
}.

Definition set_title (v : value) (d : videoData) : videoData :=
  {| video_id := video_id d; title := v; video_url := video_url d;
     thumbnail := thumbnail d; duration := duration d;
     published_time_text := published_time_text d;
     view_count_text := view_count_text d; description := description d;
     release_date := release_date d; view_count := view_count d;
     like_count := like_count d; comment_count := comment_count d;
     transcript := transcript d |}.

Definition set_thumbnail (v : value) (d : videoData) : videoData :=
  {| video_id := video_id d; title := title d; video_url := video_url d;
     thumbnail := v; duration := duration d;
     published_time_text := published_time_text d;
     view_count_text := view_count_text d; description := description d;
     release_date := release_date d; view_count := view_count d;
     like_count := like_count d; comment_count := comment_count d;
     transcript := transcript d |}.

Definition set_description (v : value) (d : videoData) : videoData :=
  {| video_id := video_id d; title := title d; video_url := video_url d;
     thumbnail := thumbnail d; duration := duration d;
     published_time_text := published_time_text d;
     view_count_text := view_count_text d; description := v;
     release_date := release_date d; view_count := view_count d;
     like_count := like_count d; comment_count := comment_count d;
     transcript := transcript d |}.

Definition set_release_date (v : value) (d : videoData) : videoData :=
  {| video_id := video_id d; title := title d; video_url := video_url d;
     thumbnail := thumbnail d; duration := duration d;
     published_time_text := published_time_text d;
     view_count_text := view_count_text d; description := description d;
     release_date := v; view_count := view_count d;
     like_count := like_count d; comment_count := comment_count d;
     transcript := transcript d |}.

Definition set_view_count (v : value) (d : videoData) : videoData :=
  {| video_id := video_id d; title := title d; video_url := video_url d;
     thumbnail := thumbnail d; duration := duration d;
     published_time_text := published_time_text d;
     view_count_text := view_count_text d; description := description d;
     release_date := release_date d; view_count := v;
     like_count := like_count d; comment_count := comment_count d;
     transcript := transcript d |}.

Definition set_like_count (v : value) (d : videoData) : videoData :=
  {| video_id := video_id d; title := title d; video_url := video_url d;
     thumbnail := thumbnail d; duration := duration d;
     published_time_text := published_time_text d;
     view_count_text := view_count_text d; description := description d;
     release_date := release_date d; view_count := view_count d;
     like_count := v; comment_count := comment_count d;
     transcript := transcript d |}.

Definition set_comment_count (v : value) (d : videoData) : videoData :=
  {| video_id := video_id d; title := title d; video_url := video_url d;
     thumbnail := thumbnail d; duration := duration d;
     published_time_text := published_time_text d;
     view_count_text := view_count_text d; description := description d;
     release_date := release_date d; view_count := view_count d;
     like_count := like_count d; comment_count := v;
     transcript := transcript d |}.

Definition set_transcript (t : string) (d : videoData) : videoData :=
  {| video_id := video_id d; title := title d; video_url := video_url d;
     thumbnail := thumbnail d; duration := duration d;
     published_time_text := published_time_text d;
     view_count_text := view_count_text d; description := description d;
     release_date := release_date d; view_count := view_count d;
     like_count := like_count d; comment_count := comment_count d;
     transcript := t |}.

(** *** Enriching one item (lines 395-468)

    The [try] block mutates [videoData] field by field and deletes files;
    what it did before a throw stays done. *)

Record item_state : Type := {
  vd : videoData;
  fs : gmap string string;
}.

Definition assign (f : videoData -> videoData) : SE item_state unit :=
  modify (fun st => {| vd := f (vd st); fs := fs st |}).

Definition watch_url (videoId : value) : string :=
  "https://www.youtube.com/watch?v=" ++ ToString videoId.

(** [thumbnails?.slice(-1)[0]?.url]. *)
Definition last_thumbnail_url (thumbnails : value) : outcome value :=
  if nullish thumbnails then Ok VUndef
  else let* l := slice_last thumbnails in Ok (oget (oidx l 0) "url").

(** [countText.replace(/,/g, '')]: only strings have the method. *)
Definition without_commas (countText : value) : outcome string :=
  match countText with
  | VStr s => Ok (Str.remove_commas s)
  | _ => TypeError
  end.

(** Path 2 of the comment count: the [for (const panel of panels)] loop
    (lines 415-424); returning after the assignment is its [break]. *)
Fixpoint scan_panels (panels : list value) : SE item_state unit :=
  match panels with
  | [] => ret tt
  | panel :: rest =>
      let hdr :=
        oget (oget (oget panel "engagementPanelSectionListRenderer") "header")
             "engagementPanelTitleHeaderRenderer" in
      let countText :=
        oget (oidx (oget (oget hdr "contextualInfo") "runs") 0) "text" in
      if truthy countText then
        let! stripped := lift (without_commas countText) in
        let n := parseInt10 (VStr stripped) in
        if negb (isNaN n) then assign (set_comment_count (VNum n))
        else scan_panels rest
      else scan_panels rest
  end.

(** [v || []] used as the receiver of an array method. *)
Definition array_or_empty (v : value) : outcome (list value) :=
  match or_else v (VArr []) with
  | VArr l => Ok l
  | _ => TypeError
  end.

(** Lines 452-459: the caption text of a parsed json3 file. *)
Definition caption_text (json : value) : outcome string :=
  let* events := sget json "events" in
  let* events := array_or_empty events in
  let* segs :=
    mapM (fun e => let* segs := sget e "segs" in
                   let* segs := array_or_empty segs in
                   mapM (fun s => sget s "utf8") segs) events in
  let texts := List.filter truthy (List.concat segs) in
  Ok (Str.take 5000
        (Str.trim
           (Str.collapse_spaces false
              (Str.newlines_to_spaces (join_values " " texts))))).

Definition yt_dlp_args (tmpBase : string) (videoId : value) : list string :=
  [ "--skip-download"; "--write-auto-sub"; "--sub-lang"; "en";
    "--sub-format"; "json3"; "-o"; tmpBase; watch_url videoId ].

(** The transcript step (lines 427-465). *)
Definition transcript_block (E : env) (videoId : value) : SE item_state unit :=
  try_catch
    (let tmpBase := tmp_path E ("yt_sub_" ++ ToString videoId) in
     modify (fun st =>
               {| vd := vd st;
                  fs := execFile E "yt-dlp" (yt_dlp_args tmpBase videoId) 20000 (fs st) |}) ;;
     let subFile := tmpBase ++ ".en.json3" in
     let! found := gets (fun st => fs st !! subFile) in
     match found with
     | Some raw =>
         let! json := lift (match JSON_parse E raw with
                            | Some j => Ok j
                            | None => Throw "SyntaxError"
                            end) in
         let! text := lift (caption_text json) in
         (if negb (String.eqb text "") then assign (set_transcript text) else ret tt) ;;
         modify (fun st => {| vd := vd st; fs := delete subFile (fs st) |})
     | None => ret tt
     end)
    (fun _ => ret tt).

(** The whole [try { ... } catch (e) { console.warn(...) }] of one item. *)
Definition enrich_block (E : env) (videoId title thumbnailUrl : value)
  : SE item_state unit :=
  try_catch
    (let! info := lift (getInfo E (watch_url videoId)) in
     let! details := lift (sget info "videoDetails") in
     let! t := lift (sget details "title") in
     assign (set_title (or_else t title)) ;;
     let! d := lift (slice_to 1000 (or_else (get details "shortDescription") (VStr ""))) in
     assign (set_description d) ;;
     assign (set_release_date (or_else (get details "publishDate") (VStr ""))) ;;
     assign (set_view_count
               (if truthy (get details "viewCount")
                then VNum (parseInt10 (get details "viewCount"))
                else VNull)) ;;
     assign (set_like_count
               (if negb (nullish (get details "likes"))
                then VNum (parseInt10 (get details "likes"))
                else VNull)) ;;
     let! u := lift (last_thumbnail_url (get details "thumbnails")) in
     assign (set_thumbnail (or_else u thumbnailUrl)) ;;
     let ccRaw :=
       oget (oget (get info "player_response") "videoDetails") "commentCount" in
     (if negb (nullish ccRaw)
      then assign (set_comment_count (VNum (parseInt10 ccRaw)))
      else
        let! panels :=
          lift (iterate (or_else (oget (get info "response") "engagementPanels")
                                 (VArr []))) in
        scan_panels panels) ;;
     transcript_block E videoId)
    (fun _ => ret tt).

(** *** The event stream and the handler (lines 260-480) *)

Inductive event : Type :=
| Progress (current : Z) (total : num) (pct : num)
| Done (videos : list videoData)
| Error (message : string).

Record world : Type := {
  emitted : list event;
  files : gmap string string;
}.

(** [res.write] of one frame. *)
Definition send (e : event) : SE world unit :=
  modify (fun w => {| emitted := (emitted w ++ [e])%list; files := files w |}).

(** Running an item's block on the handler's files. *)
Definition with_item (d : videoData) (m : SE item_state unit) : SE world videoData :=
  fun w =>
    let '(r, st) := m {| vd := d; fs := files w |} in
    (match r with Ok _ => Ok (vd st) | Throw e => Throw e end,
     {| emitted := emitted w; files := fs st |}).

(** One turn of [for (let i = 0; i < limit; i++)]; the result is the
    [videos] array after it. *)
Definition item (E : env) (limit : num) (videoRenderers : list value)
  (videos : list videoData) (i : nat) : SE world (list videoData) :=
  let vr := default VUndef (videoRenderers !! i) in
  let videoId := oget vr "videoId" in
  if negb (truthy videoId) then ret videos
  else
    send (Progress (Z.of_nat i + 1) limit (percent (Z.of_nat i + 1) limit)) ;;
    let title :=
      or_else (or_else (oget (oidx (oget (oget vr "title") "runs") 0) "text")
                       (oget (oget vr "title") "simpleText"))
              (VStr "") in
    let! u := lift (last_thumbnail_url (oget (oget vr "thumbnail") "thumbnails")) in
    let thumbnailUrl := or_else u (VStr "") in
    let duration := or_else (oget (oget vr "lengthText") "simpleText") (VStr "") in
    let publishedTimeText :=
      or_else (oget (oget vr "publishedTimeText") "simpleText") (VStr "") in
    let viewCountText :=
      or_else (or_else (oget (oget vr "viewCountText") "simpleText")
                       (oget (oget vr "shortViewCountText") "simpleText"))
              (VStr "") in
    let videoData :=
      {| video_id := videoId; title := title; video_url := watch_url videoId;
         thumbnail := thumbnailUrl; duration := duration;
         published_time_text := publishedTimeText;
         view_count_text := viewCountText; description := VStr "";
         release_date := VStr ""; view_count := VNull; like_count := VNull;
         comment_count := VNull; transcript := "" |} in
    let! videoData := with_item videoData (enrich_block E videoId title thumbnailUrl) in
    ret (videos ++ [videoData])%list.

(** The turns of [for (let i = 0; i < limit; i++)]: the number of [i]
    from 0 on that are below [limit].  A fraction is above the integers
    up to its floor. *)
Definition turns (limit : num) : nat :=
  match limit with
  | NaN => O
  | Int z => Z.to_nat z
  | Frac k e => Z.to_nat (floor k e + 1)
  end.

Fixpoint items (E : env) (limit : num) (videoRenderers : list value)
  (indices : list nat) (videos : list videoData) : SE world (list videoData) :=
  match indices with
  | [] => ret videos
  | i :: rest =>
      let! videos := item E limit videoRenderers videos i in
      items E limit videoRenderers rest videos
  end.

(** Lines 282-285; [url] is truthy here, and only a string has [replace]. *)
Definition channel_url (url : value) : outcome string :=
  match url with
  | VStr s =>
      let channelBase := Str.strip_trailing_slashes s in
      Ok (if Str.ends_with "/videos" channelBase then channelBase
          else channelBase ++ "/videos")
  | _ => TypeError
  end.

(** The body of the outer [try]. *)
Definition run (E : env) (url maxVideos : value) : SE world unit :=
  let! channelUrl := lift (channel_url url) in
  let! pageResponse := lift (fetch E channelUrl) in
  if negb (page_ok pageResponse)
  then lift (Throw (fetch_failed_message (page_status pageResponse)))
  else
    let! html := lift (page_text pageResponse) in
    let! ytData := lift (extract E html) in
    let! videoRenderers := lift (navigate ytData) in
    let limit := limit E (List.length videoRenderers) maxVideos in
    let! videos := items E limit videoRenderers (seq 0 (turns limit)) [] in
    send (Done videos).

(** What the client gets.  [express.json()] makes [req.body] an object or
    an array, so the destructuring on line 261 does not throw. *)
Inductive response : Type :=
| BadRequest                     (* 400 {error: 'url required'} *)
| EventStream (w : world).

Definition handler (E : env) (body : value) (files0 : gmap string string)
  : response :=
  let url := get body "url" in
  if negb (truthy url) then BadRequest
  else
    let w0 := {| emitted := []; files := files0 |} in
    EventStream
      (snd (try_catch (run E url (maxVideos_of body))
                      (fun message => send (Error message)) w0)).

(** *** The specification's reading of the two steps above *)

(** **** The patterns, as regular expressions denote them *)

Fixpoint all_space (w : string) : bool :=
  match w with
  | EmptyString => true
  | String c w' => (is_space c && all_space w')%bool
  end.

(** [s] starts with a match of [\};\s*<\/script>]. *)
Definition re_tail_script (s : string) : Prop :=
  exists w post, all_space w = true /\ s = "};" ++ w ++ "</script>" ++ post.

(** [s] starts with a match of [\};\s*(?:var |<\/script>)]. *)
Definition re_tail_var_or_script (s : string) : Prop :=
  exists w post, all_space w = true /\
    (s = "};" ++ w ++ "var " ++ post \/ s = "};" ++ w ++ "</script>" ++ post).

(** [s] starts with a match of [lit\s*=\s*(\{.+?\})tail] whose group 1 is
    [cap]: some split of [s] into the literal, white space, the equals
    sign, white space, a brace, a body that is not empty, and the tail. *)
Definition re_match_at (lit : string) (tail : string -> Prop) (s cap : string)
  : Prop :=
  exists w1 w2 c body rest,
    all_space w1 = true /\ all_space w2 = true /\
    s = lit ++ w1 ++ "=" ++ w2 ++ "{" ++ String c body ++ rest /\
    tail rest /\
    cap = "{" ++ String c body ++ "}".

(** The pattern matches somewhere in [html]. *)
Definition re_matches (lit : string) (tail : string -> Prop) (html : string)
  : Prop :=
  exists pre s cap, html = pre ++ s /\ re_match_at lit tail s cap.

(** What [html.match(re)] reports: the match at the leftmost position
    that has one, with the shortest body there; [cap] is its group 1. *)
Definition re_first_match (lit : string) (tail : string -> Prop)
  (html cap : string) : Prop :=
  exists pre s,
    html = pre ++ s /\ re_match_at lit tail s cap
    /\ (forall pre' s' cap',
          html = pre' ++ s' -> re_match_at lit tail s' cap' ->
          (String.length pre <= String.length pre')%nat)
    /\ (forall cap',
          re_match_at lit tail s cap' ->
          (String.length cap <= String.length cap')%nat).

(** What [html.match(re1) || html.match(re2)] reports. *)
Definition re_ytInitialData (html cap : string) : Prop :=
  re_first_match "var ytInitialData" re_tail_script html cap
  \/ (~ re_matches "var ytInitialData" re_tail_script html
      /\ re_first_match "ytInitialData" re_tail_var_or_script html cap).

(** **** The navigator as an ordered list of probes

    Each probe yields the entries of one container in page order (or
    raises on a container of the wrong shape); the first probe with a
    non-empty list wins. *)











(** The only exception a probe raises is a TypeError. *)
Definition raises_only_TypeError {A} (p : outcome A) : Prop :=
  forall m, p = Throw m -> m = "TypeError".

(** A numeric field as the record promises it: an integer or null. *)
Definition int_or_null (v : value) : Prop :=
  v = VNull \/ exists z, v = VNum (Int z).

(** **** Shapes of the event stream *)

Definition is_terminal (e : event) : bool :=
  match e with
  | Done _ | Error _ => true
  | Progress _ _ _ => false
  end.

(** The [current] of each progress event, in order of emission. *)
Definition currents (l : list event) : list Z :=
  omap (fun e => match e with Progress c _ _ => Some c | _ => None end) l.

(** [Math.round] of the binary64 value of [(current / total) * 100]:
    the quotient is rounded to binary64, then the product, and then the
    nearest integer is taken. *)
Definition rounded_percent (current : Z) (total : num) : num :=
  Math_round (SFmul 53 1024
                (SFdiv 53 1024 (binary64 (Int current)) (binary64 total))
                (binary64 (Int 100))).

(** The progress event of the entry at 1-based position [c]. *)
Definition progress_at (limit : num) (c : Z) : event :=
  Progress c limit (rounded_percent c limit).

(** Strictly increasing, above [lo] and up to [hi]. *)
Fixpoint sorted_between (lo hi : Z) (cs : list Z) : Prop :=
  match cs with
  | [] => True
  | c :: cs' => lo < c <= hi /\ sorted_between c hi cs'
  end.

Fixpoint increasing (l : list Z) : Prop :=
  match l with
  | a :: (b :: _) as rest => a < b /\ increasing rest
  | _ => True
  end.

(** The entry at 0-based position [i] has a [videoId]. *)
Definition has_id (videoRenderers : list value) (i : nat) : bool :=
  truthy (oget (default VUndef (videoRenderers !! i)) "videoId").

(** Each element is the one before plus one. *)
Fixpoint steps_by_one (l : list Z) : Prop :=
  match l with
  | a :: (b :: _) as rest => b = a + 1 /\ steps_by_one rest
  | _ => True
  end.

(** A step that writes no frame. *)
Definition quiet {A} (m : SE world A) : Prop :=
  forall w, emitted (snd (m w)) = emitted w.

(** The stages before the item loop, as one outcome: the renderers found,
    or the message of the failure. *)
Definition locate (E : env) (url : value) : outcome (list value) :=
  let* channelUrl := channel_url url in
  let* pageResponse := fetch E channelUrl in
  if negb (page_ok pageResponse)
  then Throw (fetch_failed_message (page_status pageResponse))
  else
    let* html := page_text pageResponse in
    let* ytData := extract E html in
    navigate ytData.

(** The number of positions the loop visits: the integers from 0 on
    that are below [limit]. *)
Definition visited (limit : num) : nat :=
  match limit with
  | Frac k e => Z.to_nat ((2 * k + 1) / 2 ^ Zpos e + 1)
  | Int z => Z.to_nat z
  | NaN => O
  end.

(** The shape of the stream [w] holds at the end of a run for [body]:
    - a failure before the loop leaves one error event and nothing else;
    - otherwise the stream is progress events followed by one terminal
      event; the progress events all carry the limit as [total] and the
      rounded binary64 percent; their [current]s are 1-based positions
      [i + 1] of entries that have an id, with [i] below the limit,
      strictly increasing; and when every entry below the limit has an
      id they start at 1 and step by one. *)
Definition stream_shape (E : env) (body : value) (w : world) : Prop :=
  let url := get body "url" in
  (forall m, locate E url = Throw m -> emitted w = [Error m])
  /\ (forall videoRenderers,
        locate E url = Ok videoRenderers ->
        let limit := limit E (List.length videoRenderers) (maxVideos_of body) in
        exists cs t,
          emitted w = (List.map (progress_at limit) cs ++ [t])%list
          /\ is_terminal t = true
          /\ sorted_between 0 (Z.of_nat (visited limit)) cs
          /\ increasing cs
          /\ Forall (fun c => 1 <= c /\ lt (Int (c - 1)) limit = true) cs
          /\ Forall (fun c => has_id videoRenderers (Z.to_nat (c - 1)) = true) cs
          /\ ((forall i, (i < visited limit)%nat -> has_id videoRenderers i = true) ->
              steps_by_one cs /\ (forall c, head cs = Some c -> c = 1))).

End Ingest.

(** *** Names used in stating what the done event lists *)

Module Listing.
Import JS Ingest.

(** The [videoId] of the entry at 0-based position [i]. *)
Definition id_at (videoRenderers : list value) (i : nat) : value :=
  oget (default VUndef (videoRenderers !! i)) "videoId".

(** The ids of the entries that have one, in order. *)
Definition ids_of (videoRenderers : list value) : list value :=
  List.filter truthy (List.map (fun vr => oget vr "videoId") videoRenderers).

(** The fields of a record that are set when it is built and that the
    enrichment has no assignment for. *)
Definition fixed (d : videoData) : value * string * value * value * value :=
  (video_id d, video_url d, duration d, published_time_text d, view_count_text d).

(** A step of the enrichment leaves those fields as they are. *)
Definition keeps {A} (m : SE item_state A) : Prop :=
  forall st, fixed (vd (snd (m st))) = fixed (vd st).

(** The record is that of an entry: its URL is the watch URL of its id. *)
Definition of_entry (d : videoData) : Prop :=
  video_url d = "https://www.youtube.com/watch?v=" ++ ToString (video_id d).

End Listing.

(* ===================================================================== *)
(** ** The function-calling loop: chatWithTools (services/gemini.js) *)
(* ===================================================================== *)

Module Gemini.
Import JS.

(** A model response: the object the loop inspects, and what its [text()]
    method gives. *)
Record response : Type := {
  raw : value;
  text : outcome string;
}.

(** The chat session and the caller's tools, over a state [S] of their
    own.  The session is the one [model.startChat] returned for the
    history; both calls may reject. *)
Record env (S : Type) : Type := {
  sendMessage : value -> SE S response;
  executeFn : value -> value -> SE S value;
}.
Arguments sendMessage {S} _ _ _.
Arguments executeFn {S} _ _ _ _.

(** Lines 205-211: what is sent back to the model for a tool result. *)
Definition resultForGemini (toolResult : value) : value :=
  if truthy (oget toolResult "_imageType") then
    VObj [ ("success", VBool true); ("imageGenerated", VBool true);
           ("prompt", get toolResult "prompt");
           ("mimeType", get toolResult "mimeType") ]
  else if truthy (oget toolResult "_chartType") then
    VObj [ ("success", VBool true); ("chartGenerated", VBool true);
           ("chartType", get toolResult "_chartType");
           ("dataPoints", oget (get toolResult "data") "length") ]
  else if truthy (oget toolResult "_videoType") then
    VObj [ ("success", VBool true); ("videoFound", VBool true);
           ("title", get toolResult "title");
           ("url", get toolResult "url") ]
  else toolResult.

(** [[{ functionResponse: { name, response: { result } } }]]. *)
Definition function_response (name result : value) : value :=
  VArr [ VObj [ ("functionResponse",
                 VObj [ ("name", name);
                        ("response", VObj [ ("result", result) ]) ]) ] ].

(** [parts.find((p) => p.functionCall)]. *)
Fixpoint find_functionCall (parts : list value) : outcome (option value) :=
  match parts with
  | [] => Ok None
  | p :: rest =>
      let* fc := sget p "functionCall" in
      if truthy fc then Ok (Some p) else find_functionCall rest
  end.

(** [response.candidates?.[0]?.content?.parts || []], as the receiver of
    [find]. *)
Definition parts_of (r : response) : outcome (list value) :=
  match or_else (oget (oget (oidx (oget (raw r) "candidates") 0) "content") "parts")
                (VArr []) with
  | VArr l => Ok l
  | _ => TypeError
  end.

(** The three arrays the loop pushes to. *)
Record collected : Type := {
  charts : list value;
  toolCalls : list value;
  videoCards : list value;
}.

Definition tool_call_record (name args result : value) : value :=
  VObj [ ("name", name); ("args", args); ("result", result) ].

Definition collect (name args toolResult : value) (c : collected) : collected :=
  {| charts :=
       if (truthy (oget toolResult "_chartType")
           || truthy (oget toolResult "_imageType"))%bool
       then (charts c ++ [toolResult])%list else charts c;
     toolCalls := (toolCalls c ++ [tool_call_record name args toolResult])%list;
     videoCards :=
       if truthy (oget toolResult "_videoType")
       then (videoCards c ++ [toolResult])%list else videoCards c |}.

(** [for (let round = 0; round < 8; round++)], with [budget] rounds left. *)
Fixpoint rounds {S} (E : env S) (budget : nat) (r : response) (c : collected)
  : SE S (response * collected) :=
  match budget with
  | O => ret (r, c)
  | Datatypes.S budget' =>
      let! parts := lift (parts_of r) in
      let! funcCall := lift (find_functionCall parts) in
      match funcCall with
      | None => ret (r, c)
      | Some p =>
          let name := get (get p "functionCall") "name" in
          let args := get (get p "functionCall") "args" in
          let! toolResult := executeFn E name args in
          let c := collect name args toolResult c in
          let! r := sendMessage E (function_response name (resultForGemini toolResult)) in
          rounds E budget' r c
      end
  end.

(** What chatWithTools resolves to. *)
Record answer : Type := {
  answer_text : string;
  answer_charts : list value;
  answer_toolCalls : list value;
  answer_videoCards : list value;
}.

(** Lines 167-175: the first message. *)
Definition textContent (csvHeaders : value) (newMessage : string) : outcome string :=
  if truthy (oget csvHeaders "length") then
    match csvHeaders with
    | VArr l =>
        Ok ("[CSV columns: " ++ join_values ", " l
              ++ "]" ++ String "010" (String "010" newMessage))
    | _ => TypeError
    end
  else Ok newMessage.

Definition msgParts (imageParts : list value) (text : string) : outcome value :=
  let* images :=
    mapM (fun img =>
            let* m := sget img "mimeType" in
            let* d := sget img "data" in
            Ok (VObj [ ("inlineData", VObj [ ("mimeType", m); ("data", d) ]) ]))
         imageParts in
  Ok (VArr (images ++ [ VObj [ ("text", VStr text) ] ])%list).

Definition chatWithTools {S} (E : env S) (newMessage : string)
  (csvHeaders : value) (imageParts : list value) : SE S answer :=
  let! t := lift (textContent csvHeaders newMessage) in
  let! m := lift (msgParts imageParts t) in
  let! r := sendMessage E m in
  let! rc := rounds E 8 r {| charts := []; toolCalls := []; videoCards := [] |} in
  let! t := lift (text (fst rc)) in
  ret {| answer_text := t;
         answer_charts := charts (snd rc);
         answer_toolCalls := toolCalls (snd rc);
         answer_videoCards := videoCards (snd rc) |}.

(** *** Observing a conversation

    The same session and tools, with every call written to a log kept
    beside their state. *)

Inductive call : Type :=
| Sent (message : value) (r : outcome response)
| Executed (name args : value) (r : outcome value).

Definition logged {S} (E : env S) : env (S * list call) :=
  {| sendMessage := fun m st =>
       let '(r, s') := sendMessage E m (fst st) in
       (r, (s', (snd st ++ [Sent m r])%list));
     executeFn := fun name args st =>
       let '(r, s') := executeFn E name args (fst st) in
       (r, (s', (snd st ++ [Executed name args r])%list)) |}.

Definition is_executed (c : call) : bool :=
  match c with
  | Executed _ _ _ => true
  | Sent _ _ => false
  end.

(** The tool-call records a log accounts for: for each execution that
    returned, in order, the tool name, the arguments and the raw result. *)
Definition records (log : list call) : list value :=
  omap (fun c => match c with
                 | Executed name args (Ok v) =>
                     Some (VObj [ ("name", name); ("args", args); ("result", v) ])
                 | _ => None
                 end) log.

(** The response carries a function-call part. *)
Definition has_call (r : response) : Prop :=
  exists parts p, parts_of r = Ok parts /\ find_functionCall parts = Ok (Some p).

(** The model answers every message with a function call (and a
    response whose [text()] returns). *)
Definition always_calls {S} (E : env S) : Prop :=
  forall m s, exists r s' t,
    sendMessage E m s = (Ok r, s') /\ has_call r /\ text r = Ok t.

(** The tools resolve. *)
Definition tools_return {S} (E : env S) : Prop :=
  forall name args s, exists v s', executeFn E name args s = (Ok v, s').

(** *** The payload kinds of the specification *)

Definition image_payload (toolResult : value) : value :=
  VObj [ ("success", VBool true); ("imageGenerated", VBool true);
         ("prompt", get toolResult "prompt");
         ("mimeType", get toolResult "mimeType") ].

Definition chart_payload (chartType dataPoints : value) : value :=
  VObj [ ("success", VBool true); ("chartGenerated", VBool true);
         ("chartType", chartType); ("dataPoints", dataPoints) ].

Definition video_payload (toolResult : value) : value :=
  VObj [ ("success", VBool true); ("videoFound", VBool true);
         ("title", get toolResult "title"); ("url", get toolResult "url") ].

(** The marker [k] is set on [toolResult], as the code tests it. *)
Definition marked (k : string) (toolResult : value) : bool :=
  truthy (oget toolResult k).

(** [sanitized toolResult payload]: [payload] is what the model is to be
    told of [toolResult].  A marker counts when its value is truthy, and
    the markers are read in the order image, chart, video; a result none
    of whose markers counts goes as it is. *)
Inductive sanitized (toolResult : value) : value -> Prop :=
| image_result :
    marked "_imageType" toolResult = true ->
    sanitized toolResult (image_payload toolResult)
| chart_result :
    marked "_imageType" toolResult = false ->
    marked "_chartType" toolResult = true ->
    sanitized toolResult
      (chart_payload (get toolResult "_chartType")
                     (oget (get toolResult "data") "length"))
| video_result :
    marked "_imageType" toolResult = false ->
    marked "_chartType" toolResult = false ->
    marked "_videoType" toolResult = true ->
    sanitized toolResult (video_payload toolResult)
| plain_result :
    marked "_imageType" toolResult = false ->
    marked "_chartType" toolResult = false ->
    marked "_videoType" toolResult = false ->
    sanitized toolResult toolResult.

(** Every execution that returned [v] is followed in the log by the send
    of one function response, named after the tool, whose result is the
    sanitized form of [v]; only a rejected execution may end the log. *)
Fixpoint sanitized_replies (added : list call) : Prop :=
  match added with
  | [] => True
  | [Executed _ _ (Throw _)] => True
  | Executed name _ (Ok v) :: Sent m _ :: rest =>
      (exists payload,
          sanitized v payload
          /\ m = VArr [ VObj [ ("functionResponse",
                               VObj [ ("name", name);
                                      ("response",
                                       VObj [ ("result", payload) ]) ]) ] ])
      /\ sanitized_replies rest
  | _ => False
  end.

End Gemini.

(* ===================================================================== *)
(** ** The JSON tool executor: executeJsonTool (services/jsonTools.js) *)
(* ===================================================================== *)

Module JsonTools.
Import JS.

(** The engine's readers, and the two branches that compute statistics and
    chart series on binary64 numbers ([parseFloat], [Math.sqrt],
    [toFixed]); those two are not unfolded here. *)
Record env : Type := {
  StringToNumber : string -> num;
  (** [new Date(v)] read as a number: its time value, or NaN. *)
  Date_value : value -> num;
  (** [case 'compute_stats_json'] applied to [args] and [data]. *)
  compute_stats_json : value -> value -> outcome value;
  (** [case 'plot_metric_vs_time'] applied to [args] and [data]. *)
  plot_metric_vs_time : value -> value -> outcome value;
}.

Definition error_object (message : string) : value :=
  VObj [ ("error", VStr message) ].

(** **** String methods and the regular expressions of [play_video] *)

Definition lower_char (c : ascii) : ascii :=
  let n := nat_of_ascii c in
  if (Nat.leb 65 n && Nat.leb n 90)%bool then ascii_of_nat (n + 32) else c.

(** [s.toLowerCase()] on ASCII letters. *)
Fixpoint lower (s : string) : string :=
  match s with
  | EmptyString => EmptyString
  | String c s' => String (lower_char c) (lower s')
  end.

(** [v.toLowerCase()]: only strings have the method. *)
Definition toLowerCase (v : value) : outcome string :=
  match v with
  | VStr s => Ok (lower s)
  | _ => TypeError
  end.

(** The dot of a pattern without the [s] flag matches no line terminator. *)
Definition is_line_terminator (c : ascii) : bool :=
  (Ascii.eqb c "010" || Ascii.eqb c "013")%bool.

(** [/a.?b/.test(s)]. *)
Definition gap_here (a b s : string) : bool :=
  match Str.strip_prefix a s with
  | Some r =>
      (Str.starts_with b r
       || match r with
          | String c r' => negb (is_line_terminator c) && Str.starts_with b r'
          | EmptyString => false
          end)%bool
  | None => false
  end.

Definition gap (a b s : string) : bool := Str.somewhere (gap_here a b) s.

(** **** [[...data].sort(compare)[0]] *)

Definition positive (n : num) : bool :=
  match n with
  | Int z => (0 <? z)%Z
  | Frac k _ => (0 <=? k)%Z
  | NaN => false
  end.

(** A stable insertion: [x] goes before the first element that must
    follow it.  A NaN comparison counts as zero. *)
Fixpoint insert (compare : value -> value -> num) (x : value)
  (sorted : list value) : list value :=
  match sorted with
  | [] => [x]
  | y :: rest =>
      if positive (compare y x) then x :: sorted
      else y :: insert compare x rest
  end.

Definition sort_with (compare : value -> value -> num) (l : list value)
  : list value :=
  fold_left (fun acc x => insert compare x acc) l [].

Definition is_undefined (v : value) : bool :=
  match v with VUndef => true | _ => false end.

(** [[...data].sort(compare)] for a comparison that reads a property of
    both operands.  Undefined elements go last without being compared;
    with two or more others every one of them is compared at least once,
    so a [null] among them raises.  Where [compare] is not a consistent
    order the standard leaves the result to the engine; this is the order
    a stable insertion gives. *)
Definition sorted_copy (compare : value -> value -> num) (data : value)
  : outcome (list value) :=
  let* l := iterate data in
  let defined := List.filter (fun v => negb (is_undefined v)) l in
  if ((2 <=? List.length defined)%nat && existsb nullish defined)%bool
  then TypeError
  else Ok (sort_with compare defined ++ List.filter is_undefined l)%list.

(** [(b.f || 0) - (a.f || 0)]. *)
Definition by_count_desc (E : env) (f : string) (a b : value) : num :=
  sub (ToNumber (StringToNumber E) (or_else (get b f) (VNum (Int 0))))
      (ToNumber (StringToNumber E) (or_else (get a f) (VNum (Int 0)))).

Definition by_count_asc (E : env) (f : string) (a b : value) : num :=
  by_count_desc E f b a.

(** [new Date(b.release_date) - new Date(a.release_date)]. *)
Definition by_date_desc (E : env) (a b : value) : num :=
  sub (Date_value E (get b "release_date")) (Date_value E (get a "release_date")).

Definition by_date_asc (E : env) (a b : value) : num := by_date_desc E b a.

Definition first_sorted (compare : value -> value -> num) (data : value)
  : outcome value :=
  let* l := sorted_copy compare data in
  Ok (default VUndef (head l)).

(** [data[n]] for a number [n] that is not negative: an index is a whole
    number; the text of any other number is the name of a property, which
    an object may have, and an array or a string has not. *)
Definition at_number (data : value) (n : num) : value :=
  match n with
  | Int z => oidx data (Z.to_nat z)
  | NaN => get data "NaN"
  | Frac _ _ =>
      match data with
      | VObj ps => default VUndef (assoc (ToString (VNum n)) ps)
      | _ => VUndef
      end
  end.

(** [Math.max(0, n)]. *)
Definition max0 (n : num) : num :=
  match n with
  | Int z => Int (Z.max 0 z)
  | Frac k _ => if (k <? 0)%Z then Int 0 else n
  | NaN => NaN
  end.

(** The callback of [data.find]:
    [v.title?.toLowerCase().includes(query.toLowerCase())]. *)
Definition title_matches (query v : value) : outcome bool :=
  let* t := sget v "title" in
  if nullish t then Ok false
  else
    let* t := toLowerCase t in
    let* q := toLowerCase query in
    Ok (Str.includes q t).

(** [data.find(callback)]: only arrays have the method. *)
Fixpoint find_first (p : value -> outcome bool) (l : list value) : outcome value :=
  match l with
  | [] => Ok VUndef
  | v :: rest =>
      let* hit := p v in
      if hit then Ok v else find_first p rest
  end.

Definition find (p : value -> outcome bool) (data : value) : outcome value :=
  match data with
  | VArr l => find_first p l
  | _ => TypeError
  end.

(** Lines 283-311: the video [play_video] settles on. *)
Definition select_video (E : env) (query ordinal criteria data : value)
  : outcome value :=
  if truthy criteria then
    let* c := toLowerCase criteria in
    if (gap "most" "view" c || gap "most" "play" c
        || gap "most" "watch" c || gap "most" "popular" c)%bool
    then first_sorted (by_count_desc E "view_count") data
    else if gap "most" "lik" c
    then first_sorted (by_count_desc E "like_count") data
    else if gap "most" "comment" c
    then first_sorted (by_count_desc E "comment_count") data
    else if (gap "least" "view" c || gap "least" "play" c)%bool
    then first_sorted (by_count_asc E "view_count") data
    else if gap "least" "lik" c
    then first_sorted (by_count_asc E "like_count") data
    else if gap "least" "comment" c
    then first_sorted (by_count_asc E "comment_count") data
    else if (Str.includes "latest" c || Str.includes "newest" c
             || Str.includes "recent" c)%bool
    then first_sorted (by_date_desc E) data
    else if (Str.includes "oldest" c || Str.includes "earliest" c)%bool
    then first_sorted (by_date_asc E) data
    else Ok (oidx data 0)
  else if negb (nullish ordinal) then
    Ok (or_else
          (at_number data
             (max0 (sub (ToNumber (StringToNumber E) ordinal) (Int 1))))
          (oidx data 0))
  else if truthy query then
    let* found := find (title_matches query) data in
    Ok (or_else found (oidx data 0))
  else Ok (oidx data 0).

(** Lines 315-324. *)
Definition video_card (video : value) : value :=
  VObj [ ("_videoType", VStr "youtube");
         ("videoId", get video "video_id");
         ("title", or_else (get video "title") (VStr ""));
         ("thumbnail", or_else (get video "thumbnail") (VStr ""));
         ("url", or_else (get video "video_url")
                         (VStr ("https://www.youtube.com/watch?v="
                                  ++ ToString (get video "video_id"))));
         ("duration", or_else (get video "duration") (VStr ""));
         ("view_count", or_else (get video "view_count") VNull);
         ("like_count", or_else (get video "like_count") VNull) ].

Definition play_video (E : env) (args data : value) : outcome value :=
  let* query := sget args "query" in
  let ordinal := get args "ordinal" in
  let criteria := get args "criteria" in
  let* video := select_video E query ordinal criteria data in
  if negb (truthy video)
  then Ok (error_object "No video found matching criteria.")
  else Ok (video_card video).

Definition executeJsonTool (E : env) (toolName args data : value)
  : outcome value :=
  if negb (truthy (oget data "length"))
  then Ok (error_object "No JSON data loaded.")
  else if is_str toolName "compute_stats_json" then compute_stats_json E args data
  else if is_str toolName "plot_metric_vs_time" then plot_metric_vs_time E args data
  else if is_str toolName "play_video" then play_video E args data
  else Ok (error_object ("Unknown JSON tool: " ++ ToString toolName)).

(** *** Names used in stating the executor's guards *)

(** The tool name is one of the three the [switch] has a case for. *)
Definition known_tool (toolName : value) : bool :=
  (is_str toolName "compute_stats_json" || is_str toolName "plot_metric_vs_time"
   || is_str toolName "play_video")%bool.

(** The lower-cased criteria [c] matches one of the eight patterns. *)
Definition recognized (c : string) : bool :=
  (gap "most" "view" c || gap "most" "play" c || gap "most" "watch" c
   || gap "most" "popular" c || gap "most" "lik" c || gap "most" "comment" c
   || gap "least" "view" c || gap "least" "play" c || gap "least" "lik" c
   || gap "least" "comment" c
   || Str.includes "latest" c || Str.includes "newest" c || Str.includes "recent" c
   || Str.includes "oldest" c || Str.includes "earliest" c)%bool.

(** The card that shows [video]: the tag, then the video's id, title,
    thumbnail and URL, then its duration and two counts.  A title, a
    thumbnail or a duration that is falsy is the empty text; a URL that
    is falsy is the watch URL of the id; a count that is falsy is null. *)
Definition card_of (video : value) : value :=
  VObj [ ("_videoType", VStr "youtube");
         ("videoId", get video "video_id");
         ("title", or_else (get video "title") (VStr ""));
         ("thumbnail", or_else (get video "thumbnail") (VStr ""));
         ("url", or_else (get video "video_url")
                         (VStr ("https://www.youtube.com/watch?v="
                                  ++ ToString (get video "video_id"))));
         ("duration", or_else (get video "duration") (VStr ""));
         ("view_count", or_else (get video "view_count") VNull);
         ("like_count", or_else (get video "like_count") VNull) ].


End JsonTools.

(* ===================================================================== *)
(** ** More of the engine: computed keys, slices, throwing callbacks *)
(* ===================================================================== *)

Module Lang.
Import JS.

(** The array index a property key denotes: the key is the decimal
    numeral of a natural number, written without sign or leading zero. *)
Definition array_index (k : string) : option nat :=
  match digits None k with
  | Some z => if String.eqb (nat_key (Z.to_nat z)) k then Some (Z.to_nat z) else None
  | None => None
  end.

(** [v[k]] for a computed key [k] and a value [v] that is not nullish:
    the key is printed, and names an own property, an element or
    [length]. *)
Definition get_at (v k : value) : value :=
  let key := ToString k in
  match v with
  | VObj ps => default VUndef (assoc key ps)
  | VArr l =>
      if String.eqb key "length" then VNum (Int (Z.of_nat (List.length l)))
      else match array_index key with
           | Some i => default VUndef (l !! i)
           | None => VUndef
           end
  | VStr s =>
      if String.eqb key "length" then VNum (Int (Z.of_nat (String.length s)))
      else match array_index key with
           | Some i => char_at s i
           | None => VUndef
           end
  | _ => VUndef
  end.

(** [v[k]] with the TypeError of indexing null or undefined. *)
Definition sget_at (v k : value) : outcome value :=
  if nullish v then TypeError else Ok (get_at v k).

(** [l.filter(p)] for a callback that may throw: the elements are visited
    in order and the first throw ends the call. *)
Fixpoint filterM {A} (p : A -> outcome bool) (l : list A) : outcome (list A) :=
  match l with
  | [] => Ok []
  | a :: l' =>
      let* keep := p a in
      let* rest := filterM p l' in
      Ok (if keep then a :: rest else rest)
  end.

(** [v.filter(p)]: only arrays have the method. *)
Definition filter (p : value -> outcome bool) (v : value) : outcome (list value) :=
  match v with
  | VArr l => filterM p l
  | _ => TypeError
  end.

(** [l.slice(0, end)]: NaN counts as zero, a fraction as its whole part,
    and a negative [end] is taken from the end of the array. *)
Definition slice_upto {A} (end_ : num) (l : list A) : list A :=
  match end_ with
  | NaN => []
  | Int z =>
      if (z <? 0)%Z
      then firstn (Z.to_nat (Z.max (Z.of_nat (List.length l) + z) 0)) l
      else firstn (Z.to_nat z) l
  | Frac k e =>
      if (trunc k e <? 0)%Z
      then firstn (Z.to_nat (Z.max (Z.of_nat (List.length l) + trunc k e) 0)) l
      else firstn (Z.to_nat (trunc k e)) l
  end.

(** A text between double quotes. *)
Definition quoted (s : string) : string := String "034" (s ++ String "034" "").

(** *** [parseInt] without a radix *)

Definition hex_val (c : ascii) : option Z :=
  let n := nat_of_ascii c in
  if is_digit c then Some (digit_val c)
  else if (Nat.leb 97 n && Nat.leb n 102)%bool then Some (Z.of_nat n - 87)
  else if (Nat.leb 65 n && Nat.leb n 70)%bool then Some (Z.of_nat n - 55)
  else None.

Fixpoint hex_digits (acc : option Z) (s : string) : option Z :=
  match s with
  | String c s' =>
      match hex_val c with
      | Some d => hex_digits (Some (16 * default 0 acc + d)) s'
      | None => acc
      end
  | EmptyString => acc
  end.

Definition number_read (digits_read : option Z) : num :=
  match digits_read with
  | Some z => Int z
  | None => NaN
  end.

(** The digits after the sign: in base 16 after [0x] or [0X], in base 10
    otherwise. *)
Definition unsigned (s : string) : num :=
  match Str.strip_prefix "0x" s, Str.strip_prefix "0X" s with
  | Some r, _ | None, Some r => number_read (hex_digits None r)
  | None, None => number_read (digits None s)
  end.

Definition negate (n : num) : num :=
  match n with
  | Int z => Int (- z)
  | Frac k e => Frac (- k - 1) e
  | NaN => NaN
  end.

(** [parseInt(v)]. *)
Definition parseInt (v : value) : num :=
  match drop_spaces (ToString v) with
  | String "-" s' => negate (unsigned s')
  | String "+" s' => unsigned s'
  | s => unsigned s
  end.

(** *** Lines *)

Definition push (c : ascii) (parts : list string) : list string :=
  match parts with
  | l :: ls => String c l :: ls
  | [] => [ String c "" ]
  end.

(** [s.split('\n')]: the texts between the line feeds, at least one. *)
Fixpoint split_newline (s : string) : list string :=
  match s with
  | EmptyString => [ "" ]
  | String c s' =>
      if Ascii.eqb c "010" then "" :: split_newline s'
      else push c (split_newline s')
  end.

(** *** JSON *)

(** What [JSON.parse(JSON.stringify(v))] is for a value that can be
    serialised: NaN and an undefined element become null, and a property
    that is undefined is left out. *)
Fixpoint json_image (v : value) : value :=
  match v with
  | VUndef => VNull
  | VNum NaN => VNull
  | VArr l => VArr (List.map json_image l)
  | VObj ps =>
      VObj (omap (fun kv : string * value =>
                    let (k, x) := kv in
                    match x with
                    | VUndef => None
                    | _ => Some (k, json_image x)
                    end) ps)
  | _ => v
  end.

End Lang.

(* ===================================================================== *)
(** ** The chart series: [case 'plot_metric_vs_time'] (services/jsonTools.js)

    The scatter, ranking and time-series branches work on the counts and
    dates of the loaded videos and are unfolded here.  The histogram
    branch divides the value range into bins of fractional width; it stays
    a parameter. *)
(* ===================================================================== *)

Module Plot.
Import JS JsonTools Lang.

(** The one-character ellipsis the labels end with, as its bytes. *)
Definition ellipsis : string := "…".

Definition Number (E : env) (v : value) : num := ToNumber (StringToNumber E) v.

(** [limit ? videos.slice(0, limit) : videos]. *)
Definition first_limit (E : env) (limit : value) (videos : list value) : list value :=
  if truthy limit then slice_upto (Number E limit) videos else videos.

(** **** Scatter (lines 192-208) *)

(** [(v) => v[metric] != null && v[yField] != null]. *)
Definition has_both (metric yField v : value) : outcome bool :=
  let* x := sget_at v metric in
  if nullish x then Ok false else Ok (negb (nullish (get_at v yField))).

Definition scatter_point (E : env) (metric yField v : value) : value :=
  VObj [ ("x", VNum (Number E (get_at v metric)));
         ("y", VNum (Number E (get_at v yField)));
         ("label", or_else (get v "title") (VStr "")) ].

Definition scatter (E : env) (metric y_metric limit data : value) : outcome value :=
  let yField :=
    or_else y_metric
      (VStr (if is_str metric "view_count" then "like_count" else "view_count")) in
  let* validVideos := filter (has_both metric yField) data in
  match validVideos with
  | [] =>
      Ok (error_object ("No videos with both " ++ quoted (ToString metric)
                          ++ " and " ++ quoted (ToString yField) ++ "."))
  | _ =>
      let sliced := first_limit E limit validVideos in
      Ok (VObj [ ("_chartType", VStr "scatter");
                 ("data", VArr (List.map (scatter_point E metric yField) sliced));
                 ("metric", metric);
                 ("yMetric", yField) ])
  end.

(** **** Ranking (lines 235-249) *)

(** [(v) => v[metric] != null]. *)
Definition has_metric (metric v : value) : outcome bool :=
  let* x := sget_at v metric in Ok (negb (nullish x)).

(** [Number(b[metric]) - Number(a[metric])]. *)
Definition by_metric_desc (E : env) (metric a b : value) : num :=
  sub (Number E (get_at b metric)) (Number E (get_at a metric)).

(** [(v.title || '').slice(0, 38) + ((v.title || '').length > 38 ? '…' : '')]:
    a string is cut, an array is cut and then printed, and nothing else
    that is truthy has [slice]. *)
Definition label (title : value) : outcome string :=
  match or_else title (VStr "") with
  | VStr s =>
      Ok (Str.take 38 s ++ (if (38 <? String.length s)%nat then ellipsis else ""))
  | VArr l =>
      Ok (ToString (VArr (firstn 38 l))
            ++ (if (38 <? List.length l)%nat then ellipsis else ""))
  | _ => TypeError
  end.

Definition bar (E : env) (metric v : value) : outcome value :=
  let* text := label (get v "title") in
  Ok (VObj [ ("label", VStr text);
             ("value", VNum (Number E (get_at v metric)));
             ("fullTitle", or_else (get v "title") (VStr "")) ]).

Definition ranking (E : env) (metric limit data : value) : outcome value :=
  let* validVideos := filter (has_metric metric) data in
  match validVideos with
  | [] => Ok (error_object ("No videos with " ++ quoted (ToString metric) ++ " data."))
  | _ =>
      let* sorted := sorted_copy (by_metric_desc E metric) (VArr validVideos) in
      let sliced := slice_upto (Number E (or_else limit (VNum (Int 15)))) sorted in
      let* bars := mapM (bar E metric) sliced in
      Ok (VObj [ ("_chartType", VStr "ranking");
                 ("data", VArr bars);
                 ("metric", metric) ])
  end.

(** **** The two time series (lines 252-276) *)

(** [(v) => v[metric] != null && v.release_date]. *)
Definition has_dated (metric v : value) : outcome bool :=
  let* x := sget_at v metric in
  if nullish x then Ok false else Ok (truthy (get v "release_date")).

Definition dated_point (E : env) (metric v : value) : value :=
  VObj [ ("date", get v "release_date");
         ("value", VNum (Number E (get_at v metric)));
         ("title", or_else (get v "title") (VStr "")) ].

(** The line and the bar series are built by the same statements; they
    differ in the chart type and in the text of the error. *)
Definition timeseries (E : env) (chartType message : string)
  (metric limit data : value) : outcome value :=
  let* dated := filter (has_dated metric) data in
  let* validVideos := sorted_copy (by_date_asc E) (VArr dated) in
  match first_limit E limit validVideos with
  | [] => Ok (error_object message)
  | sliced =>
      Ok (VObj [ ("_chartType", VStr chartType);
                 ("data", VArr (List.map (dated_point E metric) sliced));
                 ("metric", metric) ])
  end.

Definition no_dated_message (metric : value) : string :=
  "No videos with both " ++ quoted (ToString metric) ++ " and "
    ++ quoted "release_date" ++ ".".

(** **** The case as a whole (lines 187-277) *)

Definition plot_metric_vs_time (E : env)
  (histogram : value -> value -> outcome value) (args data : value)
  : outcome value :=
  let* metric := sget args "metric" in
  let chart_type := get args "chart_type" in
  let y_metric := get args "y_metric" in
  let limit := get args "limit" in
  let chartType := or_else chart_type (VStr "timeseries_bar") in
  if is_str chartType "scatter" then scatter E metric y_metric limit data
  else if is_str chartType "histogram" then histogram args data
  else if is_str chartType "ranking" then ranking E metric limit data
  else if is_str chartType "timeseries_line"
  then timeseries E "timeseries_line" (no_dated_message metric) metric limit data
  else timeseries E "timeseries"
         (no_dated_message metric ++ " Try a different metric.") metric limit data.

(** The executor with this case in the place of the parameter. *)
Definition with_plot (E : env) (histogram : value -> value -> outcome value) : env :=
  {| StringToNumber := StringToNumber E;
     Date_value := Date_value E;
     compute_stats_json := compute_stats_json E;
     JsonTools.plot_metric_vs_time := plot_metric_vs_time E histogram |}.

(** *** Names used in stating its properties *)

(** The metric of a video read as an integer (zero where it is not one). *)
Definition metric_value (E : env) (metric v : value) : Z :=
  match Number E (get_at v metric) with
  | Int z => z
  | NaN | Frac _ _ => 0
  end.

(** The videos that carry the metric. *)
Definition with_metric (metric : value) (l : list value) : list value :=
  List.filter (fun v => negb (nullish (get_at v metric))) l.

(** Every video that carries the metric has an integer for it. *)
Definition numeric (E : env) (metric : value) (l : list value) : Prop :=
  Forall (fun v => exists z, Number E (get_at v metric) = Int z) (with_metric metric l).

(** The number of bars asked for: 15 when [limit] is absent or zero. *)
Definition asked (limit : value) (k : nat) : Prop :=
  (truthy limit = false /\ k = 15%nat)
  \/ (limit = VNum (Int (Z.of_nat k)) /\ (0 < k)%nat).

(** The result is an error object. *)
Definition is_error (r : value) : Prop :=
  exists message, r = VObj [ ("error", VStr message) ].

(** The chart type the case works with: [chart_type || 'timeseries_bar']. *)
Definition requested (args : value) : value :=
  or_else (get args "chart_type") (VStr "timeseries_bar").

(** The request is served by one of the two time-series branches. *)
Definition wants_series (args : value) : bool :=
  negb (is_str (requested args) "scatter" || is_str (requested args) "histogram"
        || is_str (requested args) "ranking").

(** The videos that carry the metric and a release date. *)
Definition dated (metric : value) (l : list value) : list value :=
  List.filter (fun v => negb (nullish (get_at v metric))
                        && truthy (get v "release_date"))%bool l.

(** The time value of a date (zero where it is not an integer). *)
Definition time_of (E : env) (date : value) : Z :=
  match Date_value E date with
  | Int z => z
  | NaN | Frac _ _ => 0
  end.

(** Every dated video has a date the engine can read. *)
Definition readable_dates (E : env) (metric : value) (l : list value) : Prop :=
  Forall (fun v => exists z, Date_value E (get v "release_date") = Int z)
         (dated metric l).

(** A chart object: its type, its points, and the names of the metrics. *)
Definition chart_of (chartType : string) (points : list value)
  (metrics : list (string * value)) : value :=
  VObj (("_chartType", VStr chartType) :: ("data", VArr points) :: metrics).


End Plot.

(* ===================================================================== *)
(** ** What the chat view draws for a chart (components/Chat.js lines
       801-854, components/TimeSeriesChart.js lines 348-373) *)
(* ===================================================================== *)

Module View.
Import JS.

(** The sub-renderers of TimeSeriesChart. *)
Inductive plot : Type :=
| TimeseriesLineChart | RankingChart | ScatterPlot | HistogramChart
| TimeseriesBarChart.

(** [renderChart]. *)
Definition renderChart (chartType : value) : plot :=
  if is_str chartType "timeseries_line" then TimeseriesLineChart
  else if is_str chartType "ranking" then RankingChart
  else if is_str chartType "scatter" then ScatterPlot
  else if is_str chartType "histogram" then HistogramChart
  else TimeseriesBarChart.

(** The component: nothing without data points, and [chartType] defaults
    to ['timeseries'] when it is not passed. *)
Definition TimeSeriesChart (data chartType : value) : option plot :=
  if negb (truthy (oget data "length")) then None
  else Some (renderChart (match chartType with
                          | VUndef => VStr "timeseries"
                          | t => t
                          end)).

(** What the message view returns for one element of [m.charts]. *)
Inductive drawn : Type :=
| Engagement
| Series (p : option plot)
| GeneratedImage
| Nothing.

Definition rendered_types : list string :=
  [ "timeseries"; "timeseries_line"; "ranking"; "scatter"; "histogram" ].

(** [list.includes(v)] for a list of string literals. *)
Definition includes (list : list string) (v : value) : bool :=
  existsb (is_str v) list.

Definition draw (chart : value) : outcome drawn :=
  let* chartType := sget chart "_chartType" in
  if is_str chartType "engagement" then Ok Engagement
  else if includes rendered_types chartType
  then Ok (Series (TimeSeriesChart (get chart "data") chartType))
  else if is_str (get chart "_imageType") "generated" then Ok GeneratedImage
  else Ok Nothing.

End View.

(* ===================================================================== *)
(** ** Regular expressions, as the engine matches them

    The patterns of components/Chat.js are written as syntax trees and
    matched by backtracking: alternatives are tried left to right, [?] and
    [+] take as much as they can first, and a pattern is tried at every
    position from the left.  [+] is applied to character sets only, and
    the body of every [?] consumes a character, so no iteration is empty. *)
(* ===================================================================== *)

Module Regex.
Import JS.

Inductive charset : Type :=
| Dot                      (* [.]: any character but a line terminator *)
| Space                    (* [\s] *)
| OneOf (cs : string).     (* [[cs]] *)

Fixpoint mem (c : ascii) (cs : string) : bool :=
  match cs with
  | EmptyString => false
  | String x cs' => (Ascii.eqb c x || mem c cs')%bool
  end.

Definition in_set (cs : charset) (c : ascii) : bool :=
  match cs with
  | Dot => negb (JsonTools.is_line_terminator c)
  | Space => is_space c
  | OneOf l => mem c l
  end.

Inductive re : Type :=
| Eps
| Chr (c : ascii)
| Cls (cs : charset)
| Plus (cs : charset)      (* [cs+] *)
| Boundary                 (* [\b] *)
| EndOfInput               (* [$] *)
| Seq (r1 r2 : re)
| Alt (r1 r2 : re)         (* [r1|r2] *)
| Opt (r : re)             (* [(?:r)?] *)
| Group (r : re).          (* [(r)], the one capturing group *)

(** A literal text. *)
Fixpoint lit (s : string) : re :=
  match s with
  | EmptyString => Eps
  | String c EmptyString => Chr c
  | String c s' => Seq (Chr c) (lit s')
  end.

Fixpoint seq (l : list re) : re :=
  match l with
  | [] => Eps
  | [ r ] => r
  | r :: l' => Seq r (seq l')
  end.

(** [r1|r2|...]; the list is not empty. *)
Fixpoint alt (l : list re) : re :=
  match l with
  | [] => Eps
  | [ r ] => r
  | r :: l' => Alt r (alt l')
  end.

(** A character of [\w]. *)
Definition is_word (c : ascii) : bool :=
  let n := nat_of_ascii c in
  (is_digit c || (Nat.leb 65 n && Nat.leb n 90) || (Nat.leb 97 n && Nat.leb n 122)
   || Nat.eqb n 95)%bool.

Definition word_before (prev : option ascii) : bool :=
  match prev with
  | Some c => is_word c
  | None => false
  end.

Definition word_at (s : string) : bool :=
  match s with
  | String c _ => is_word c
  | EmptyString => false
  end.

(** Two characters are the same, under the [i] flag up to case. *)
Definition same (i : bool) (a b : ascii) : bool :=
  if i then Ascii.eqb (JsonTools.lower_char a) (JsonTools.lower_char b)
  else Ascii.eqb a b.

Section Matcher.

Context {A : Type}.
Variable i : bool.

(** What remains to be matched: it is given the character before the
    position reached, the text from there on, and the capture. *)
Definition continuation : Type := option ascii -> string -> option string -> option A.

(** [cs+]: the longest run first, then shorter ones. *)
Fixpoint run (cs : charset) (prev : option ascii) (s : string)
  (cap : option string) (k : continuation) : option A :=
  match s with
  | String c s' =>
      if in_set cs c then
        match run cs (Some c) s' cap k with
        | Some a => Some a
        | None => k (Some c) s' cap
        end
      else None
  | EmptyString => None
  end.

Fixpoint matches (r : re) (prev : option ascii) (s : string)
  (cap : option string) (k : continuation) : option A :=
  match r with
  | Eps => k prev s cap
  | Chr c =>
      match s with
      | String x s' => if same i c x then k (Some x) s' cap else None
      | EmptyString => None
      end
  | Cls cs =>
      match s with
      | String x s' => if in_set cs x then k (Some x) s' cap else None
      | EmptyString => None
      end
  | Plus cs => run cs prev s cap k
  | Boundary => if xorb (word_before prev) (word_at s) then k prev s cap else None
  | EndOfInput =>
      match s with
      | EmptyString => k prev s cap
      | String _ _ => None
      end
  | Seq r1 r2 => matches r1 prev s cap (fun p s' c => matches r2 p s' c k)
  | Alt r1 r2 =>
      match matches r1 prev s cap k with
      | Some a => Some a
      | None => matches r2 prev s cap k
      end
  | Opt r' =>
      match matches r' prev s cap k with
      | Some a => Some a
      | None => k prev s cap
      end
  | Group r' =>
      matches r' prev s cap
        (fun p s' _ => k p s' (Some (Str.take (String.length s - String.length s') s)))
  end.

End Matcher.

(** The leftmost match in [s], which follows [prev]: the text after the
    match, and the capture. *)
Fixpoint exec_from (i : bool) (r : re) (prev : option ascii) (s : string)
  : option (string * option string) :=
  match matches i r prev s None (fun _ s' cap => Some (s', cap)) with
  | Some m => Some m
  | None =>
      match s with
      | String c s' => exec_from i r (Some c) s'
      | EmptyString => None
      end
  end.

(** [r.exec(s)]. *)
Definition exec (i : bool) (r : re) (s : string) : option (string * option string) :=
  exec_from i r None s.

(** [r.test(s)]. *)
Definition test (i : bool) (r : re) (s : string) : bool :=
  match exec i r s with
  | Some _ => true
  | None => false
  end.

(** [s.replace(r, '')]: the leftmost match is taken out. *)
Fixpoint remove_from (i : bool) (r : re) (prev : option ascii) (s : string) : string :=
  match matches i r prev s None (fun _ s' _ => Some s') with
  | Some s' => s'
  | None =>
      match s with
      | String c s' => String c (remove_from i r (Some c) s')
      | EmptyString => EmptyString
      end
  end.

Definition remove (i : bool) (r : re) (s : string) : string := remove_from i r None s.


(** A text that is not empty and whose characters are all in [cs]. *)
Fixpoint all_in (cs : charset) (s : string) : bool :=
  match s with
  | EmptyString => false
  | String c EmptyString => in_set cs c
  | String c s' => (in_set cs c && all_in cs s')%bool
  end.

End Regex.

(* ===================================================================== *)
(** ** The chat's own tool calls (components/Chat.js lines 20-45, 535-577) *)
(* ===================================================================== *)

Module Chat.
Import JS JsonTools Regex.

(** **** detectPlayVideoArgs (lines 22-36) *)

(** [/\bword\b|\b#?digit\b/]. *)
Definition ordinal_pattern (word digit : string) : re :=
  Alt (seq [ Boundary; lit word; Boundary ])
      (seq [ Boundary; Opt (Chr "#"); lit digit; Boundary ]).

(** The pattern of line 34. *)
Definition query_pattern : re :=
  seq [ alt [ lit "play"; lit "show me"; lit "open"; lit "find"; lit "watch" ];
        Plus Space;
        Opt (seq [ lit "me"; Plus Space ]);
        Opt (seq [ lit "the"; Plus Space ]);
        Opt (seq [ lit "video";
                   Opt (seq [ Plus Space;
                              alt [ lit "about"; lit "on"; lit "of"; lit "for";
                                    lit "called"; lit "titled"; lit "named" ] ]);
                   Plus Space ]);
        Group (Plus Dot) ].

(** [/[?!.]+$/]. *)
Definition closing_marks : re := Seq (Plus (OneOf "?!.")) EndOfInput.

(** [m[1].trim().replace(/[?!.]+$/, '')]. *)
Definition cleaned (captured : string) : string :=
  remove false closing_marks (Str.trim captured).

Definition only (k : string) (v : value) : value := VObj [ (k, v) ].

Definition detectPlayVideoArgs (text : string) : outcome value :=
  let t := lower text in
  if (gap "most" "view" t || gap "most" "watch" t || gap "most" "popular" t
      || gap "most" "play" t)%bool
  then Ok (only "criteria" (VStr "most viewed"))
  else if gap "most" "lik" t then Ok (only "criteria" (VStr "most liked"))
  else if gap "most" "comment" t then Ok (only "criteria" (VStr "most commented"))
  else if (Str.includes "latest" t || Str.includes "newest" t
           || gap "most" "recent" t)%bool
  then Ok (only "criteria" (VStr "latest"))
  else if (Str.includes "oldest" t || Str.includes "earliest" t)%bool
  then Ok (only "criteria" (VStr "oldest"))
  else if gap "least" "view" t then Ok (only "criteria" (VStr "least viewed"))
  else if gap "least" "lik" t then Ok (only "criteria" (VStr "least liked"))
  else if test true (ordinal_pattern "first" "1") t
  then Ok (only "ordinal" (VNum (Int 1)))
  else if test true (ordinal_pattern "second" "2") t
  then Ok (only "ordinal" (VNum (Int 2)))
  else if test true (ordinal_pattern "third" "3") t
  then Ok (only "ordinal" (VNum (Int 3)))
  else
    match exec true query_pattern text with
    | Some (_, Some captured) => Ok (only "query" (VStr (cleaned captured)))
    | Some (_, None) => TypeError
    | None => Ok (VObj [])
    end.

(** **** detectStatsField (lines 40-45) *)

Definition detectStatsField (text : string) : string :=
  let t := lower text in
  if (test true (Seq Boundary (lit "lik")) t && negb (Str.includes "dislik" t))%bool
  then "like_count"
  else if test true (Seq Boundary (lit "comment")) t then "comment_count"
  else "view_count".

(** **** The tool callback handed to chatWithTools (lines 535-543) *)

(** The names of [JSON_TOOL_DECLARATIONS] (services/jsonTools.js, lines
    5, 25, 69 and 99), and of the declarations offered to the model. *)
Definition JSON_TOOL_NAMES : list string :=
  [ "compute_stats_json"; "plot_metric_vs_time"; "play_video"; "generateImage" ].

Definition JSON_DATA_TOOL_NAMES : list string :=
  List.filter (fun name => negb (String.eqb name "generateImage")) JSON_TOOL_NAMES.

(** Where a call of the model goes. *)
Inductive route : Type :=
| ToGenerateImage
| ToExecuteJsonTool
| ToExecuteTool.

Definition dispatch (toolName : value) : route :=
  if is_str toolName "generateImage" then ToGenerateImage
  else if View.includes JSON_TOOL_NAMES toolName then ToExecuteJsonTool
  else ToExecuteTool.

(** **** The fallbacks after the tool loop (lines 552-577) *)

(** [/\b(play|show me|open|watch|find)\b/i]. *)
Definition play_words : re :=
  seq [ Boundary;
        Group (alt [ lit "play"; lit "show me"; lit "open"; lit "watch"; lit "find" ]);
        Boundary ].





(** *** Names used in stating the properties *)


(** The comparison each criteria of the detector stands for. *)
Definition criteria_order (E : env) : list (string * (value -> value -> num)) :=
  [ ("most viewed", by_count_desc E "view_count");
    ("most liked", by_count_desc E "like_count");
    ("most commented", by_count_desc E "comment_count");
    ("latest", by_date_desc E);
    ("oldest", by_date_asc E);
    ("least viewed", by_count_asc E "view_count");
    ("least liked", by_count_asc E "like_count") ].


(** The last character of a text. *)
Fixpoint last_char (s : string) : option ascii :=
  match s with
  | EmptyString => None
  | String c EmptyString => Some c
  | String _ s' => last_char s'
  end.

End Chat.

(* ===================================================================== *)
(** ** The file name of a saved image: downloadGeneratedImage
       (components/Chat.js lines 653-667) *)
(* ===================================================================== *)

Module Save.
Import JS JsonTools Regex.

(** [s.split('/')]: the texts between the slashes, at least one. *)
Fixpoint split_slash (s : string) : list string :=
  match s with
  | EmptyString => [ EmptyString ]
  | String c s' =>
      if Ascii.eqb c "/" then EmptyString :: split_slash s'
      else Lang.push c (split_slash s')
  end.

(** [chart.mimeType?.split('/')[1] || 'png']; only a string has [split]. *)
Definition ext (chart : value) : outcome string :=
  match get chart "mimeType" with
  | VUndef | VNull => Ok "png"
  | VStr s =>
      match split_slash s with
      | _ :: piece :: _ => Ok (if String.eqb piece EmptyString then "png" else piece)
      | _ => Ok "png"
      end
  | _ => TypeError
  end.

(** A character of [[a-z0-9]]. *)
Definition plain (c : ascii) : bool :=
  let n := nat_of_ascii c in
  (is_digit c || (Nat.leb 97 n && Nat.leb n 122))%bool.

(** [s.replace(/[^a-z0-9]+/g, '-')]: every longest run of other
    characters becomes one hyphen.  [inside] tells that the character
    before belongs to such a run, whose hyphen is written already. *)
Fixpoint hyphens (inside : bool) (s : string) : string :=
  match s with
  | EmptyString => EmptyString
  | String c s' =>
      if plain c then String c (hyphens false s')
      else if inside then hyphens true s'
      else String "-" (hyphens true s')
  end.

(** [/-$/]. *)
Definition closing_hyphen : re := Seq (Chr "-") EndOfInput.

(** Lines 655-659. *)
Definition slug (chart : value) : outcome string :=
  let* l := toLowerCase (or_else (get chart "prompt") (VStr "generated-image")) in
  Ok (remove false closing_hyphen (Str.take 40 (hyphens false l))).

(** [a.download], line 662. *)
Definition download (chart : value) : outcome string :=
  let* e := ext chart in
  let* s := slug chart in
  Ok (s ++ "." ++ e).

(** *** Names used in stating what a slug looks like *)

(** A letter, a digit or a hyphen. *)
Definition slug_char (c : ascii) : bool := (plain c || Ascii.eqb c "-")%bool.

Fixpoint all_chars (p : ascii -> bool) (s : string) : bool :=
  match s with
  | EmptyString => true
  | String c s' => (p c && all_chars p s')%bool
  end.

(** The text begins with a hyphen. *)
Definition begins (s : string) : bool :=
  match s with
  | String c _ => Ascii.eqb c "-"
  | EmptyString => false
  end.

(** No hyphen follows a hyphen. *)
Fixpoint spaced (s : string) : bool :=
  match s with
  | EmptyString => true
  | String c s' => (negb (Ascii.eqb c "-" && begins s') && spaced s')%bool
  end.

End Save.

(* ===================================================================== *)
(** ** Image generation: POST /api/generate-image (server/index.js lines
       223-256) and its caller generateImage (services/gemini.js lines
       30-46) *)
(* ===================================================================== *)

Module Image.
Import JS.

(** The image model the endpoint awaits. *)
Record env : Type := {
  generateContent : value -> outcome value;
}.

(** A response: its status and its JSON body. *)
Record reply : Type := {
  status : Z;
  json : value;
}.

Definition error_reply (status : Z) (message : value) : reply :=
  {| status := status; json := VObj [ ("error", message) ] |}.

(** **** The endpoint *)

(** [const { prompt, anchorImages = [] } = req.body]. *)
Definition anchorImages_of (body : value) : value :=
  match get body "anchorImages" with
  | VUndef => VArr []
  | v => v
  end.

(** [(img) => ({ inlineData: { mimeType: img.mimeType || 'image/png', data: img.data } })]. *)
Definition inline_part (img : value) : outcome value :=
  let* mimeType := sget img "mimeType" in
  Ok (VObj [ ("inlineData",
              VObj [ ("mimeType", or_else mimeType (VStr "image/png"));
                     ("data", get img "data") ]) ]).

(** [v.map(f)]: only arrays have the method. *)
Definition map_arr (f : value -> outcome value) (v : value) : outcome (list value) :=
  match v with
  | VArr l => mapM f l
  | _ => TypeError
  end.

(** [(p) => p.inlineData?.mimeType?.startsWith('image/')]. *)
Definition is_image_part (p : value) : outcome bool :=
  let* inlineData := sget p "inlineData" in
  match oget inlineData "mimeType" with
  | VUndef | VNull => Ok false
  | VStr mimeType => Ok (Str.starts_with "image/" mimeType)
  | _ => TypeError
  end.

(** [(p) => p.text]. *)
Definition has_text (p : value) : outcome bool :=
  let* text := sget p "text" in Ok (truthy text).

Definition no_image_message : string :=
  "No image was generated. Try a different prompt.".

(** The body of the [try] (lines 228-251). *)
Definition respond (E : env) (prompt anchorImages : value) : outcome reply :=
  let* anchors := map_arr inline_part anchorImages in
  let contents := VArr (anchors ++ [ VObj [ ("text", prompt) ] ])%list in
  let* result := generateContent E contents in
  let* candidates := sget result "candidates" in
  let parts := or_else (oget (oget (oidx candidates 0) "content") "parts") (VArr []) in
  let* imagePart := JsonTools.find is_image_part parts in
  if negb (truthy imagePart) then
    let* textPart := JsonTools.find has_text parts in
    Ok (error_reply 500 (or_else (oget textPart "text") (VStr no_image_message)))
  else
    Ok {| status := 200;
          json := VObj [ ("mimeType", get (get imagePart "inlineData") "mimeType");
                         ("data", get (get imagePart "inlineData") "data") ] |}.

Definition handler (E : env) (body : value) : reply :=
  let prompt := get body "prompt" in
  let anchorImages := anchorImages_of body in
  if negb (truthy prompt) then error_reply 400 (VStr "prompt is required")
  else
    match respond E prompt anchorImages with
    | Ok r => r
    | Throw message => error_reply 500 (VStr message)
    end.

(** **** The caller *)

(** [fetch] of the endpoint followed by [res.json()]: whether the status
    is one of success, and the body read. *)
Definition generateImage (fetch : value -> outcome (bool * value))
  (prompt anchorImageParts : value) : outcome value :=
  let* res := fetch (VObj [ ("prompt", prompt); ("anchorImages", anchorImageParts) ]) in
  if negb (fst res) then
    let* error := sget (snd res) "error" in
    Throw (ToString (or_else error (VStr "Image generation failed")))
  else
    let* mimeType := sget (snd res) "mimeType" in
    Ok (VObj [ ("_imageType", VStr "generated");
               ("mimeType", mimeType);
               ("data", get (snd res) "data");
               ("prompt", prompt) ]).

(** What stands between the caller and the handler. *)
Record route : Type := {
  (** The request on its way to the server.  A network failure rejects
      [fetch]; an answer that comes from in between is not JSON, so that
      [res.json()] throws on it.  Either way the caller gets the
      exception and the server is not reached. *)
  carried : value -> outcome unit;
  (** [JSON.stringify], whose text is the request body. *)
  JSON_stringify : value -> string;
}.

(** The endpoint behind [fetch], followed by [res.json()].  The request
    body and the response body travel as JSON text.  The body parser,
    [express.json({ limit: '10mb' })] (line 9), answers a body above its
    limit with status 413 and a page that is not JSON, before the
    handler runs; [res.json()] throws on that page. *)
Definition served (R : route) (E : env) (body : value) : outcome (bool * value) :=
  let* _ := carried R body in
  if (10 * 1024 * 1024 <? Z.of_nat (String.length (JSON_stringify R body)))%Z
  then Throw "SyntaxError"
  else
    let r := handler E (Lang.json_image body) in
    Ok (((200 <=? status r)%Z && (status r <? 300)%Z)%bool, Lang.json_image (json r)).

(** *** Names used in stating what the caller gets *)

(** The request body is above the limit of the body parser. *)
Definition too_large (R : route) (body : value) : bool :=
  (10485760 <? Z.of_nat (String.length (JSON_stringify R body)))%Z.

End Image.

(* ===================================================================== *)
(** ** Users, sessions and messages (server/index.js lines 46-216)

    The database is the state of the handlers: the users collection is the
    list of its documents in insertion order, and the sessions collection
    maps the text of an [_id] to the document.  A request body is a JSON
    value, so a document holds no [undefined] and is stored as it is.  The
    driver's calls are taken to resolve; what is left to throw is the
    handler's own code, [new ObjectId] and bcrypt. *)
(* ===================================================================== *)

Module Api.
Import JS.

Record db : Type := {
  users : list value;
  sessions : gmap string value;
}.

Record env : Type := {
  (** [new ObjectId(v)], as the text of the id; it throws on what is not
      an id. *)
  ObjectId : value -> outcome string;
  (** The [insertedId] of the next document inserted, as text. *)
  insertedId : db -> string;
  (** [bcrypt.hash(password, 10)] and [bcrypt.compare(password, hash)]. *)
  hash : value -> outcome string;
  compare : value -> value -> outcome bool;
}.

Definition ok_reply : Image.reply :=
  {| Image.status := 200; Image.json := VObj [ ("ok", VBool true) ] |}.

Definition refuse (status : Z) (message : string) : Image.reply :=
  Image.error_reply status (VStr message).

(** [try { ... } catch (err) { res.status(500).json({ error: err.message }) }]. *)
Definition handle (m : SE db Image.reply) (d : db) : Image.reply * db :=
  match m d with
  | (Ok r, d') => (r, d')
  | (Throw message, d') => (refuse 500 message, d')
  end.

(** **** The driver *)

(** [collection('users').findOne({ username: name })]: the first such
    document, or null. *)
Definition findOne_user (name : string) : SE db value :=
  gets (fun d => default VNull
                   (List.find (fun u => is_str (get u "username") name) (users d))).

Definition insertOne_user (doc : value) : SE db unit :=
  modify (fun d => {| users := (users d ++ [ doc ])%list; sessions := sessions d |}).

(** [collection('sessions').findOne({ _id })]. *)
Definition findOne_session (id : string) : SE db value :=
  gets (fun d => default VNull (sessions d !! id)).

Definition insertOne_session (E : env) (doc : value) : SE db string :=
  fun d => (Ok (insertedId E d),
            {| users := users d; sessions := <[insertedId E d := doc]> (sessions d) |}).

Definition deleteOne_session (id : string) : SE db unit :=
  modify (fun d => {| users := users d; sessions := delete id (sessions d) |}).

Fixpoint set_prop (k : string) (v : value) (ps : list (string * value))
  : list (string * value) :=
  match ps with
  | [] => [ (k, v) ]
  | (k', v') :: ps' =>
      if String.eqb k k' then (k, v) :: ps' else (k', v') :: set_prop k v ps'
  end.

(** [{ $push: { messages: msg } }] on a document: the array grows by one,
    an absent field becomes an array of one, and any other field value is
    refused by the database. *)
Definition pushed (doc msg : value) : outcome value :=
  match doc with
  | VObj ps =>
      match assoc "messages" ps with
      | Some (VArr ms) => Ok (VObj (set_prop "messages" (VArr (ms ++ [ msg ])%list) ps))
      | None => Ok (VObj (set_prop "messages" (VArr [ msg ]) ps))
      | Some _ => Throw "The field 'messages' must be an array"
      end
  | _ => Throw "not a document"
  end.

(** [updateOne({ _id }, { $push: { messages: msg } })]: nothing happens
    when no document has the id. *)
Definition push_message (id : string) (msg : value) : SE db unit :=
  fun d =>
    match sessions d !! id with
    | None => (Ok tt, d)
    | Some doc =>
        match pushed doc msg with
        | Ok doc' => (Ok tt, {| users := users d; sessions := <[id := doc']> (sessions d) |})
        | Throw message => (Throw message, d)
        end
    end.

(** **** POST /api/users (lines 48-69) *)

(** [String(v).trim()], and [.toLowerCase()] after it. *)
Definition trimmed (v : value) : string := Str.trim (ToString v).

Definition normalized (v : value) : string := JsonTools.lower (trimmed v).

Definition user_document (name hashed now : string) (body : value) : value :=
  let email := get body "email" in
  let firstName := get body "firstName" in
  let lastName := get body "lastName" in
  VObj [ ("username", VStr name);
         ("password", VStr hashed);
         ("email", if truthy email then VStr (normalized email) else VNull);
         ("firstName", if truthy firstName then VStr (trimmed firstName) else VStr "");
         ("lastName", if truthy lastName then VStr (trimmed lastName) else VStr "");
         ("createdAt", VStr now) ].

Definition register (E : env) (now : string) (body : value) : SE db Image.reply :=
  let username := get body "username" in
  let password := get body "password" in
  if (negb (truthy username) || negb (truthy password))%bool
  then ret (refuse 400 "Username and password required")
  else
    let name := normalized username in
    let! existing := findOne_user name in
    if truthy existing then ret (refuse 400 "Username already exists")
    else
      let! hashed := lift (hash E password) in
      insertOne_user (user_document name hashed now body) ;;
      ret ok_reply.

(** **** POST /api/users/login (lines 71-90) *)

(** [username.trim().toLowerCase()]: only a string has [trim]. *)
Definition login_name (username : value) : outcome string :=
  match username with
  | VStr s => Ok (JsonTools.lower (Str.trim s))
  | _ => TypeError
  end.

Definition login (E : env) (body : value) : SE db Image.reply :=
  let username := get body "username" in
  let password := get body "password" in
  if (negb (truthy username) || negb (truthy password))%bool
  then ret (refuse 400 "Username and password required")
  else
    let! name := lift (login_name username) in
    let! user := findOne_user name in
    if negb (truthy user) then ret (refuse 401 "User not found")
    else
      let! ok := lift (compare E password (get user "password")) in
      if negb ok then ret (refuse 401 "Invalid password")
      else
        ret {| Image.status := 200;
               Image.json :=
                 VObj [ ("ok", VBool true);
                        ("username", VStr name);
                        ("firstName", or_else (get user "firstName") (VStr ""));
                        ("lastName", or_else (get user "lastName") (VStr "")) ] |}.

(** **** POST /api/sessions and DELETE /api/sessions/:id (lines 117-142) *)

Definition create_session (E : env) (now : string) (body : value) : SE db Image.reply :=
  let username := get body "username" in
  let agent := get body "agent" in
  if negb (truthy username) then ret (refuse 400 "username required")
  else
    let title := get body "title" in
    let! id := insertOne_session E
                 (VObj [ ("username", username);
                         ("agent", or_else agent VNull);
                         ("title", or_else title VNull);
                         ("createdAt", VStr now);
                         ("messages", VArr []) ]) in
    ret {| Image.status := 200; Image.json := VObj [ ("id", VStr id) ] |}.

Definition delete_session (E : env) (id : string) : SE db Image.reply :=
  let! oid := lift (ObjectId E (VStr id)) in
  deleteOne_session oid ;;
  ret ok_reply.

(** **** POST /api/messages (lines 159-183) *)

(** [...(x && { k: v })]: the property is there when [x] is truthy. *)
Definition spread_when (x : value) (k : string) (v : value) : list (string * value) :=
  if truthy x then [ (k, v) ] else [].

(** [Array.isArray(v) ? v : [v]]. *)
Definition as_array (v : value) : value :=
  match v with
  | VArr _ => v
  | _ => VArr [ v ]
  end.

Definition message_document (now : string) (body : value) : value :=
  let imageData := get body "imageData" in
  let charts := get body "charts" in
  let toolCalls := get body "toolCalls" in
  let videoCard := get body "videoCard" in
  VObj ([ ("role", get body "role");
          ("content", get body "content");
          ("timestamp", VStr now) ]
          ++ spread_when imageData "imageData" (as_array imageData)
          ++ spread_when (oget charts "length") "charts" charts
          ++ spread_when (oget toolCalls "length") "toolCalls" toolCalls
          ++ spread_when videoCard "videoCard" videoCard)%list.

Definition is_undefined (v : value) : bool :=
  match v with
  | VUndef => true
  | _ => false
  end.

Definition post_message (E : env) (now : string) (body : value) : SE db Image.reply :=
  let session_id := get body "session_id" in
  if (negb (truthy session_id) || negb (truthy (get body "role"))
      || is_undefined (get body "content"))%bool
  then ret (refuse 400 "session_id, role, content required")
  else
    let msg := message_document now body in
    let! id := lift (ObjectId E session_id) in
    push_message id msg ;;
    ret ok_reply.

(** **** GET /api/messages (lines 185-216) *)

(** [(img) => ({ data: img.data, mimeType: img.mimeType })]. *)
Definition image_of (img : value) : outcome value :=
  let* data := sget img "data" in
  Ok (VObj [ ("data", data); ("mimeType", get img "mimeType") ]).

(** The callback of [raw.map], for the message [m] at index [i] of the
    session [id]. *)
Definition listed (id : string) (i : nat) (m : value) : outcome value :=
  let* imageData := sget m "imageData" in
  let arr := if truthy imageData then as_array imageData else VArr [] in
  let* images :=
    if truthy (get arr "length")
    then let* l := Image.map_arr image_of arr in Ok (VArr l)
    else Ok VUndef in
  Ok (VObj [ ("id", VStr (id ++ "-" ++ nat_key i));
             ("role", get m "role");
             ("content", get m "content");
             ("timestamp", get m "timestamp");
             ("images", images);
             ("charts", if truthy (oget (get m "charts") "length")
                        then get m "charts" else VUndef);
             ("toolCalls", if truthy (oget (get m "toolCalls") "length")
                           then get m "toolCalls" else VUndef);
             ("videoCard", or_else (get m "videoCard") VUndef) ]).

(** [raw.map((m, i) => ...)], from index [i] on. *)
Fixpoint listed_from (id : string) (i : nat) (raw : list value) : outcome (list value) :=
  match raw with
  | [] => Ok []
  | m :: raw' =>
      let* x := listed id i m in
      let* xs := listed_from id (S i) raw' in
      Ok (x :: xs)
  end.

Definition get_messages (E : env) (session_id : value) : SE db Image.reply :=
  if negb (truthy session_id) then ret (refuse 400 "session_id required")
  else
    let! id := lift (ObjectId E session_id) in
    let! doc := findOne_session id in
    match or_else (oget doc "messages") (VArr []) with
    | VArr raw =>
        let! msgs := lift (listed_from id 0 raw) in
        ret {| Image.status := 200; Image.json := VArr msgs |}
    | _ => lift TypeError
    end.

(** *** Names used in stating the properties *)

(** bcrypt accepts the password a hash was made from. *)
Definition sound_hash (E : env) : Prop :=
  forall password hashed,
    hash E password = Ok hashed -> compare E password (VStr hashed) = Ok true.

(** The session [id] holds the messages [raw]. *)
Definition holds (d : db) (id : string) (raw : list value) : Prop :=
  exists doc, sessions d !! id = Some doc /\ get doc "messages" = VArr raw.

End Api.

(* ===================================================================== *)
(** ** The download form and its stream reader (the YouTubeDownload
       component) *)
(* ===================================================================== *)

Module Download.
Import JS.

(** The reader of the browser, which may reject a text. *)
Record env : Type := {
  JSON_parse : string -> option value;
}.

(** **** The form (lines 5-24, 104-106) *)

(** The handler of the number input:
    [Math.min(100, Math.max(1, parseInt(e.target.value) || 10))]. *)
Definition onChange (typed : string) : num :=
  Math_min (Int 100) (Math_max (Int 1) (num_or (Lang.parseInt (VStr typed)) 10)).

(** [maxVideos] after the user's edits of the input, from [useState(10)]. *)
Definition maxVideos_after (edits : list string) : num :=
  fold_left (fun _ typed => onChange typed) edits (Int 10).

Record form : Type := {
  url : string;
  maxVideos : num;
  downloading : bool;
}.

(** The body [handleDownload] posts, if it posts: it returns at once when
    the trimmed URL is empty or a download is running. *)
Definition body (f : form) : option value :=
  if (negb (truthy (VStr (Str.trim (url f)))) || downloading f)%bool then None
  else Some (VObj [ ("url", VStr (Str.trim (url f)));
                    ("maxVideos", VNum (maxVideos f)) ]).

(** **** The reader (lines 31-58) *)

(** What the component shows: [progress], [videos] and [error]. *)
Record view : Type := {
  progress : value;
  videos : value;
  error : value;
}.

(** The state [handleDownload] starts from (lines 15-17). *)
Definition cleared : view :=
  {| progress := VNull; videos := VNull; error := VStr "" |}.

Definition setProgress (p : value) : SE view unit :=
  modify (fun v => {| progress := p; videos := videos v; error := error v |}).

Definition setVideos (x : value) : SE view unit :=
  modify (fun v => {| progress := progress v; videos := x; error := error v |}).

Definition setError (m : value) : SE view unit :=
  modify (fun v => {| progress := progress v; videos := videos v; error := m |}).

Definition progress_of (current total percent : value) : value :=
  VObj [ ("current", current); ("total", total); ("percent", percent) ].

(** Lines 45-52. *)
Definition on_event (event : value) : SE view unit :=
  let! type := lift (sget event "type") in
  if is_str type "progress" then
    setProgress (progress_of (get event "current") (get event "total")
                             (get event "percent"))
  else if is_str type "done" then
    setVideos (get event "videos") ;;
    let! n := lift (sget (get event "videos") "length") in
    setProgress (progress_of n n (VNum (Int 100)))
  else if is_str type "error" then setError (get event "message")
  else ret tt.

(** Lines 42-56: a line that starts with [data: ] is parsed and handled;
    whatever that throws is dropped. *)
Definition on_line (C : env) (line : string) : SE view unit :=
  match Str.strip_prefix "data: " line with
  | Some json =>
      try_catch
        (let! event := lift (match JSON_parse C json with
                             | Some v => Ok v
                             | None => Throw "SyntaxError"
                             end) in
         on_event event)
        (fun _ => ret tt)
  | None => ret tt
  end.

Record reader : Type := {
  buffer : string;
  shown : view;
}.

(** One turn of the loop (lines 38-57) for a chunk of text. *)
Definition on_chunk (C : env) (r : reader) (chunk : string) : reader :=
  let lines := Lang.split_newline (buffer r ++ chunk) in
  {| buffer := List.last lines "";
     shown := fold_left (fun v line => snd (on_line C line v))
                        (removelast lines) (shown r) |}.

(** The loop over the chunks of a stream that ends. *)
Definition read (C : env) (chunks : list string) : reader :=
  fold_left (on_chunk C) chunks {| buffer := ""; shown := cleared |}.

(** **** What the server writes (server/index.js lines 274-276, 368,
         379-393, 469, 473) *)

Definition record_of (d : Ingest.videoData) : value :=
  VObj [ ("video_id", Ingest.video_id d);
         ("title", Ingest.title d);
         ("video_url", VStr (Ingest.video_url d));
         ("thumbnail", Ingest.thumbnail d);
         ("duration", Ingest.duration d);
         ("published_time_text", Ingest.published_time_text d);
         ("view_count_text", Ingest.view_count_text d);
         ("description", Ingest.description d);
         ("release_date", Ingest.release_date d);
         ("view_count", Ingest.view_count d);
         ("like_count", Ingest.like_count d);
         ("comment_count", Ingest.comment_count d);
         ("transcript", VStr (Ingest.transcript d)) ].

(** The object handed to [send]. *)
Definition payload (e : Ingest.event) : value :=
  match e with
  | Ingest.Progress current total pct =>
      VObj [ ("type", VStr "progress"); ("current", VNum (Int current));
             ("total", VNum total); ("percent", VNum pct) ]
  | Ingest.Done videos =>
      VObj [ ("type", VStr "done"); ("videos", VArr (List.map record_of videos)) ]
  | Ingest.Error message =>
      VObj [ ("type", VStr "error"); ("message", VStr message) ]
  end.

Definition newline : string := String "010" "".

(** [`data: ${JSON.stringify(data)}\n\n`], for the serialiser
    [stringify] of the server's engine. *)
Definition frame (stringify : value -> string) (e : Ingest.event) : string :=
  "data: " ++ stringify (payload e) ++ newline ++ newline.

(** Everything written to the response, in order. *)
Definition stream (stringify : value -> string) (events : list Ingest.event) : string :=
  String.concat "" (List.map (frame stringify) events).

(** *** Names used in stating the properties *)

Fixpoint no_newline (s : string) : bool :=
  match s with
  | EmptyString => true
  | String c s' => (negb (Ascii.eqb c "010") && no_newline s')%bool
  end.

(** The serialiser writes each of the events on one line, and the
    browser's reader reads that line back. *)
Definition carried (C : env) (stringify : value -> string)
  (events : list Ingest.event) : Prop :=
  Forall (fun e => no_newline (stringify (payload e)) = true
                   /\ JSON_parse C (stringify (payload e))
                      = Some (Lang.json_image (payload e))) events.

(** The view at the end of a stream, by its terminal event. *)
Definition final_view (t : Ingest.event) (v : view) : Prop :=
  match t with
  | Ingest.Done vs =>
      let n := VNum (Int (Z.of_nat (List.length vs))) in
      let sent := fun d =>
        VObj [ ("video_id", Ingest.video_id d);
               ("title", Ingest.title d);
               ("video_url", VStr (Ingest.video_url d));
               ("thumbnail", Ingest.thumbnail d);
               ("duration", Ingest.duration d);
               ("published_time_text", Ingest.published_time_text d);
               ("view_count_text", Ingest.view_count_text d);
               ("description", Ingest.description d);
               ("release_date", Ingest.release_date d);
               ("view_count", Ingest.view_count d);
               ("like_count", Ingest.like_count d);
               ("comment_count", Ingest.comment_count d);
               ("transcript", VStr (Ingest.transcript d)) ] in
      videos v = Lang.json_image (VArr (List.map sent vs))
      /\ progress v = VObj [ ("current", n); ("total", n);
                             ("percent", VNum (Int 100)) ]
      /\ error v = VStr ""
  | Ingest.Error message =>
      error v = VStr message /\ videos v = VNull
  | Ingest.Progress _ _ _ => False
  end.

End Download.

(* ===================================================================== *)
(** ** Concrete worlds, for evaluating the code *)
(* ===================================================================== *)

Module Sample.
Import JS.

Definition quoted (s : string) : string := String "034" (s ++ String "034" "").

(** The JSON text of a value whose strings need no escaping. *)
Fixpoint render (v : value) : string :=
  match v with
  | VUndef | VNull | VNum NaN => "null"
  | VBool true => "true"
  | VBool false => "false"
  | VNum (Int z) => Z_to_string z
  | VNum (Frac k e) => print_fraction k e
  | VStr s => quoted s
  | VArr l => "[" ++ join "," (List.map render l) ++ "]"
  | VObj ps =>
      "{" ++ join "," (List.map (fun kv : string * value => let (k, x) := kv in
                                           quoted k ++ ":" ++ render x) ps)
          ++ "}"
  end.

Definition obj1 (k : string) (v : value) : value := VObj [ (k, v) ].

(** A grid item wrapping a video renderer. *)
Definition rich (videoRenderer : value) : value :=
  obj1 "richItemRenderer" (obj1 "content" (obj1 "videoRenderer" videoRenderer)).

(** A channel blob with one tab holding a grid of [items]. *)
Definition grid_blob (items : list value) : value :=
  obj1 "contents"
    (obj1 "twoColumnBrowseResultsRenderer"
       (obj1 "tabs"
          (VArr [ obj1 "tabRenderer"
                    (obj1 "content"
                       (obj1 "richGridRenderer" (obj1 "contents" (VArr items)))) ]))).

(** Three grid entries; the second has a title and no [videoId]. *)
Definition three_entries : value :=
  grid_blob [ rich (obj1 "videoId" (VStr "a"));
              rich (obj1 "title" (obj1 "simpleText" (VStr "untitled")));
              rich (obj1 "videoId" (VStr "c")) ].

Definition page_of (blob : value) : string :=
  "<html><script>var ytInitialData = " ++ render blob ++ ";</script></html>".

(** A world serving [blob] at every URL, where the per-video lookup is
    down and the subtitle command writes nothing. *)
Definition serving (blob : value) : Ingest.env :=
  {| Ingest.StringToNumber := fun _ => NaN;
     Ingest.JSON_parse := fun s => if String.eqb s (render blob) then Some blob else None;
     Ingest.fetch := fun _ => Ok {| Ingest.page_ok := true;
                                    Ingest.page_status := 200;
                                    Ingest.page_text := Ok (page_of blob) |};
     Ingest.getInfo := fun _ => Throw "getInfo failed";
     Ingest.tmp_path := fun name => "/tmp/" ++ name;
     Ingest.execFile := fun _ _ _ fs => fs |}.

Definition request (url : string) (maxVideos : value) : value :=
  VObj [ ("url", VStr url); ("maxVideos", maxVideos) ].

(** A record as line 379 builds it for the video [id], nothing else known. *)
Definition blank (id : string) : Ingest.videoData :=
  {| Ingest.video_id := VStr id; Ingest.title := VStr "";
     Ingest.video_url := "https://www.youtube.com/watch?v=" ++ id;
     Ingest.thumbnail := VStr ""; Ingest.duration := VStr "";
     Ingest.published_time_text := VStr ""; Ingest.view_count_text := VStr "";
     Ingest.description := VStr ""; Ingest.release_date := VStr "";
     Ingest.view_count := VNull; Ingest.like_count := VNull;
     Ingest.comment_count := VNull; Ingest.transcript := "" |}.

(** A world whose per-video lookup answers [info] and whose subtitle
    command writes the text [raw] to the file yt-dlp derives from its
    [-o] argument; [parsed] is what [JSON.parse] makes of [raw]. *)
Definition looking_up (info : value) (raw : option string) (parsed : option value)
  : Ingest.env :=
  {| Ingest.StringToNumber := fun _ => NaN;
     Ingest.JSON_parse := fun s => if String.eqb s (default "" raw) then parsed else None;
     Ingest.fetch := fun _ => Throw "not used";
     Ingest.getInfo := fun _ => Ok info;
     Ingest.tmp_path := fun name => "/tmp/" ++ name;
     Ingest.execFile := fun _ args _ fs =>
       match raw, args with
       | Some text, [_; _; _; _; _; _; _; base; _] => <[base ++ ".en.json3" := text]> fs
       | _, _ => fs
       end |}.

(** Details whose view count is not numeric and whose like count is NaN,
    with a formatted comment count on the player response. *)
Definition info_unparseable : value :=
  VObj [ ("videoDetails",
          VObj [ ("title", VStr "T"); ("viewCount", VStr "N/A");
                 ("likes", VNum NaN) ]);
         ("player_response",
          obj1 "videoDetails" (obj1 "commentCount" (VStr "1,234"))) ].

(** Details with numeric counts, and the comment count on an engagement
    panel header. *)
Definition info_panels : value :=
  VObj [ ("videoDetails",
          VObj [ ("title", VStr "T"); ("viewCount", VStr "1500");
                 ("likes", VNum (Int 0)) ]);
         ("response",
          obj1 "engagementPanels"
            (VArr [ obj1 "engagementPanelSectionListRenderer" (obj1 "header" VNull);
                    obj1 "engagementPanelSectionListRenderer"
                      (obj1 "header"
                         (obj1 "engagementPanelTitleHeaderRenderer"
                            (obj1 "contextualInfo"
                               (obj1 "runs" (VArr [ obj1 "text" (VStr "1,234") ]))))) ])) ].

Definition info_plain : value := obj1 "videoDetails" (obj1 "title" (VStr "T")).

(** A json3 file with two events. *)
Definition captions : value :=
  obj1 "events"
    (VArr [ obj1 "segs" (VArr [ obj1 "utf8" (VStr "Hello");
                                obj1 "utf8" (VStr (String "010" "")) ]);
            obj1 "segs" (VArr [ obj1 "utf8" (VStr "  world ") ]) ]).

Definition start (id : string) (fs : gmap string string) : Ingest.item_state :=
  {| Ingest.vd := blank id; Ingest.fs := fs |}.

(** Five grid entries, all with an id. *)
Definition five_entries : value :=
  grid_blob (List.map (fun id => rich (obj1 "videoId" (VStr id)))
                      [ "a"; "b"; "c"; "d"; "e" ]).

(** The stream of a request for three videos of the three-entry page. *)
Definition demo_request : value := request "https://www.youtube.com/@demo" (VNum (Int 3)).

Definition demo_world : Ingest.world :=
  match Ingest.handler (serving three_entries) demo_request ∅ with
  | Ingest.EventStream w => w
  | Ingest.BadRequest => {| Ingest.emitted := []; Ingest.files := ∅ |}
  end.

(** A model that asks for [play_video] whatever it is told, and a tool
    that finds the same video every time.  The state counts the messages
    sent. *)
Definition calling_response (n : nat) : Gemini.response :=
  {| Gemini.raw :=
       obj1 "candidates"
         (VArr [ obj1 "content"
                   (obj1 "parts"
                      (VArr [ obj1 "functionCall"
                                (VObj [ ("name", VStr "play_video");
                                        ("args", obj1 "ordinal" (VNum (Int 1))) ]) ])) ]);
     Gemini.text := Ok ("reply " ++ Z_to_string (Z.of_nat n)) |}.

Definition card : value :=
  VObj [ ("_videoType", VStr "youtube"); ("title", VStr "T");
         ("url", VStr "https://www.youtube.com/watch?v=a") ].

Definition insistent : Gemini.env nat :=
  {| Gemini.sendMessage := fun _ n => (Ok (calling_response (S n)), S n);
     Gemini.executeFn := fun _ _ n => (Ok card, n) |}.

(** Two loaded videos, and engine readers that find no number or date in
    a string. *)
Definition video (id title : string) (views : Z) : value :=
  VObj [ ("video_id", VStr id); ("title", VStr title);
         ("view_count", VNum (Int views)) ].

Definition two_videos : list value :=
  [ video "a" "Black holes" 10; video "b" "Climate" 25 ].

Definition tools : JsonTools.env :=
  {| JsonTools.StringToNumber := fun _ => NaN;
     JsonTools.Date_value := fun _ => NaN;
     JsonTools.compute_stats_json := fun _ _ => Ok VNull;
     JsonTools.plot_metric_vs_time := fun _ _ => Ok VNull |}.

End Sample.

(** Further worlds, for the chart series. *)
Module Fixtures.
Import JS.

(** A histogram branch for requests that do not reach it. *)
Definition no_histogram (args data : value) : outcome value := Ok VNull.

(** Engine readers that read the leading digits of a text: the number it
    starts with, and for a date its year. *)
Definition by_year : JsonTools.env :=
  {| JsonTools.StringToNumber := fun s => parseInt10 (VStr s);
     JsonTools.Date_value := fun v => match v with
                                      | VStr s => parseInt10 (VStr s)
                                      | _ => NaN
                                      end;
     JsonTools.compute_stats_json := fun _ _ => Ok VNull;
     JsonTools.plot_metric_vs_time := fun _ _ => Ok VNull |}.

Definition release (id title : string) (views : Z) (date : string) : value :=
  VObj [ ("video_id", VStr id); ("title", VStr title);
         ("view_count", VNum (Int views)); ("release_date", VStr date) ].

(** Three videos; the last has neither a count nor a date. *)
Definition library : list value :=
  [ release "a" "Black holes" 10 "2021-03-01";
    release "b" "Climate" 25 "2019-07-15";
    VObj [ ("video_id", VStr "c"); ("title", VStr "Untracked") ] ].

Definition ranking_args : value :=
  VObj [ ("metric", VStr "view_count"); ("chart_type", VStr "ranking") ].

Definition ranking_bar (title : string) (views : Z) : value :=
  VObj [ ("label", VStr title); ("value", VNum (Int views));
         ("fullTitle", VStr title) ].

Definition ranking_chart : value :=
  Plot.chart_of "ranking"
    [ ranking_bar "Climate" 25; ranking_bar "Black holes" 10 ]
    [ ("metric", VStr "view_count") ].

(** A request that names no chart type. *)
Definition series_args : value := VObj [ ("metric", VStr "view_count") ].

Definition series_point (date : string) (views : Z) (title : string) : value :=
  VObj [ ("date", VStr date); ("value", VNum (Int views)); ("title", VStr title) ].

Definition series_chart : value :=
  Plot.chart_of "timeseries"
    [ series_point "2019-07-15" 25 "Climate";
      series_point "2021-03-01" 10 "Black holes" ]
    [ ("metric", VStr "view_count") ].

(** The form after 500 was typed over 5, with blanks around the URL. *)
Definition demo_form : Download.form :=
  {| Download.url := " https://www.youtube.com/@demo ";
     Download.maxVideos := Download.maxVideos_after [ "5"; "500" ];
     Download.downloading := false |}.

Definition demo_body : value :=
  VObj [ ("url", VStr "https://www.youtube.com/@demo");
         ("maxVideos", VNum (Int 100)) ].

(** A browser reader that reads back what the serialiser wrote for one
    of the [events], and rejects every other text. *)
Definition reading_back (stringify : value -> string) (events : list Ingest.event)
  : Download.env :=
  {| Download.JSON_parse := fun text =>
       match List.find (fun e => String.eqb (stringify (Download.payload e)) text)
                       events with
       | Some e => Some (Lang.json_image (Download.payload e))
       | None => None
       end |}.

(** The response to the demo request, and the same text cut in two in
    the middle of the first data line. *)
Definition demo_stream : string :=
  Download.stream Sample.render (Ingest.emitted Sample.demo_world).

Definition demo_chunks : list string :=
  [ String.substring 0 40 demo_stream;
    String.substring 40 (String.length demo_stream - 40) demo_stream ].

(** An image model that answers with a caption and a picture, and one
    that answers with words only. *)
Definition candidate (parts : list value) : value :=
  Sample.obj1 "candidates"
    (VArr [ Sample.obj1 "content" (Sample.obj1 "parts" (VArr parts)) ]).

Definition painter : Image.env :=
  {| Image.generateContent := fun _ =>
       Ok (candidate
             [ Sample.obj1 "text" (VStr "Here it is");
               Sample.obj1 "inlineData"
                 (VObj [ ("mimeType", VStr "image/png"); ("data", VStr "iVBOR") ]) ]) |}.

Definition talker : Image.env :=
  {| Image.generateContent := fun _ =>
       Ok (candidate [ Sample.obj1 "text" (VStr "I cannot draw that.") ]) |}.

(** A network that delivers, and one that is down. *)
Definition road : Image.route :=
  {| Image.carried := fun _ => Ok tt; Image.JSON_stringify := Sample.render |}.

Definition no_road : Image.route :=
  {| Image.carried := fun _ => Throw "Failed to fetch";
     Image.JSON_stringify := Sample.render |}.

(** A server whose ids are texts of 24 characters, whose next id is
    always the same, and whose toy bcrypt prefixes the password. *)
Definition session_id : string := "0123456789abcdef01234567".

Definition toy_server : Api.env :=
  {| Api.ObjectId := fun v =>
       match v with
       | VStr s => if Nat.eqb (String.length s) 24 then Ok s else Throw "BSONError"
       | _ => Throw "BSONError"
       end;
     Api.insertedId := fun _ => session_id;
     Api.hash := fun password => Ok ("$2a$10$" ++ ToString password);
     Api.compare := fun password hashed =>
       Ok (is_str hashed ("$2a$10$" ++ ToString password)) |}.

Definition empty_db : Api.db := {| Api.users := []; Api.sessions := ∅ |}.

(** The database after a session was created. *)
Definition one_session : Api.db :=
  snd (Api.handle (Api.create_session toy_server "2026-01-01T00:00:00.000Z"
                     (VObj [ ("username", VStr "ada") ])) empty_db).

Definition hello : value :=
  VObj [ ("session_id", VStr session_id); ("role", VStr "user");
         ("content", VStr "hello"); ("charts", VArr []) ].

Definition with_null_image : value :=
  VObj [ ("session_id", VStr session_id); ("role", VStr "user");
         ("content", VStr "look"); ("imageData", VArr [ VNull ]) ].

Definition registration : value :=
  VObj [ ("username", VStr "  Ada "); ("password", VStr "secret");
         ("firstName", VStr " Ada "); ("lastName", VStr "Lovelace") ].

Definition registered : Api.db :=
  snd (Api.handle (Api.register toy_server "2026-01-01T00:00:00.000Z" registration)
         empty_db).

(** The entries of [Sample.three_entries] as the ingestion finds them, and
    the records of its done event when the per-video lookup is down. *)
Definition demo_renderers : list value :=
  [ Sample.obj1 "videoId" (VStr "a");
    Sample.obj1 "title" (Sample.obj1 "simpleText" (VStr "untitled"));
    Sample.obj1 "videoId" (VStr "c") ].

Definition demo_done : list Ingest.videoData := [ Sample.blank "a"; Sample.blank "c" ].

(** A generated image as the chat keeps it. *)
Definition painted : value :=
  VObj [ ("_imageType", VStr "generated"); ("mimeType", VStr "image/png");
         ("data", VStr "iVBORw0KGgo="); ("prompt", VStr "A cat, on a mat!") ].

(** A tool result whose chart marker is the empty string, and a
    conversation in which every tool call returns it. *)
Definition untyped_chart : value :=
  VObj [ ("_chartType", VStr String.EmptyString);
         ("data", VArr [ VNum (Int 1); VNum (Int 2) ]) ].

Definition untyped_charts : Gemini.env nat :=
  {| Gemini.sendMessage := fun _ n => (Ok (Sample.calling_response (S n)), S n);
     Gemini.executeFn := fun _ _ n => (Ok untyped_chart, n) |}.

End Fixtures.

(* ===================================================================== *)
(** ** The engine on samples *)
(* ===================================================================== *)

Module EngineFacts.
Import JS Lang.

(** The characters of a string, by index and by iteration, and the
    elements a computed key names. *)
Example elements_of_strings_and_arrays :
  oidx (VStr "ab") 1 = VStr "b"
  /\ oidx (VStr "ab") 2 = VUndef
  /\ iterate (VStr "ab") = Ok [ VStr "a"; VStr "b" ]
  /\ get_at (VStr "ab") (VNum (Int 1)) = VStr "b"
  /\ get_at (VArr [ VStr "x"; VStr "y" ]) (VStr "1") = VStr "y"
  /\ get_at (VArr [ VStr "x"; VStr "y" ]) (VStr "01") = VUndef
  /\ get_at (VArr [ VStr "x"; VStr "y" ]) (VNum (Frac 0 1)) = VUndef
  /\ get_at (VArr [ VStr "x"; VStr "y" ]) (VStr "length") = VNum (Int 2).
Proof. vm_compute. repeat split; reflexivity. Qed.

Example slice_last_samples :
  slice_last (VArr [ VNum (Int 1); VNum (Int 2) ]) = Ok (VArr [ VNum (Int 2) ])
  /\ slice_last (VArr []) = Ok (VArr [])
  /\ slice_last (VStr "ab") = Ok (VStr "b")
  /\ slice_last (VNum (Int 1)) = TypeError.
Proof. vm_compute. repeat split; reflexivity. Qed.

(** Fractions print as the shortest decimal that reads back: one half,
    one tenth and one third as binary64 has them, and the exponent form
    below one millionth. *)
Example fractions_in_print :
  ToString (VNum (Frac 2 1)) = "2.5"
  /\ ToString (VNum (Frac (-2) 1)) = "-1.5"
  /\ ToString (VNum (Frac (-2) 2)) = "-0.75"
  /\ ToString (VNum (Frac 0 10)) = "0.0009765625"
  /\ ToString (VNum (Frac 0 20)) = "9.5367431640625e-7"
  /\ ToString (VNum (Frac 0 24)) = "5.960464477539063e-8"
  /\ ToString (VNum (Frac 1801439850948198 55)) = "0.1"
  /\ ToString (VNum (Frac 3002399751580330 54)) = "0.3333333333333333"
  /\ ToString (VNum (Frac 2361183241434822 72)) = "0.000001"
  /\ ToString (VNum (Frac 493827156 3)) = "123456789.125"
  /\ ToString (VNum (Frac 4503599627370495 29)) = "16777215.999999998".
Proof. vm_compute. repeat split; reflexivity. Qed.

(** Differences, as the comparators of the sorts take them. *)
Example differences :
  sub (Int 7) (Int 9) = Int (-2)
  /\ sub (Frac 2 1) (Int 1) = Frac 1 1
  /\ sub (Frac 2 1) (Frac 0 1) = Int 2
  /\ sub (Int 1) (Frac 0 2) = Frac 1 2
  /\ sub (Frac 0 2) (Int 1) = Frac (-2) 2
  /\ sub NaN (Int 1) = NaN.
Proof. vm_compute. repeat split; reflexivity. Qed.

(** [slice(0, end)] takes the whole part of [end], towards zero. *)
Example slices :
  let l := [ 1; 2; 3 ]%nat in
  slice_upto (Int 2) l = [ 1; 2 ]%nat
  /\ slice_upto (Int (-1)) l = [ 1; 2 ]%nat
  /\ slice_upto (Frac 2 1) l = [ 1; 2 ]%nat
  /\ slice_upto (Frac (-2) 1) l = [ 1; 2 ]%nat
  /\ slice_upto (Frac 0 1) l = []
  /\ slice_upto (Frac (-1) 1) l = []
  /\ slice_upto NaN l = []
  /\ slice_upto (Int 7) l = l.
Proof. vm_compute. repeat split; reflexivity. Qed.

(** [parseInt] without a radix reads a sign, then base 16 after [0x] and
    base 10 otherwise, and stops at the first character that is no
    digit. *)
Example parseInt_samples :
  parseInt (VStr "0x1f") = Int 31
  /\ parseInt (VStr "0XA") = Int 10
  /\ parseInt (VStr "-0x10") = Int (-16)
  /\ parseInt (VStr " -5") = Int (-5)
  /\ parseInt (VStr "+7px") = Int 7
  /\ parseInt (VStr "0x") = NaN
  /\ parseInt (VStr "") = NaN
  /\ parseInt (VNum (Frac 2 1)) = Int 2.
Proof. vm_compute. repeat split; reflexivity. Qed.

End EngineFacts.

(* ===================================================================== *)
(** ** Properties of the ingestion endpoint *)
(* ===================================================================== *)

Module IngestFacts.
Import JS Ingest.

(* String concatenation with a literal on the left computes under [simpl]. *)
Local Arguments String.append !_ _ / : simpl nomatch.

(** *** Numbers *)

Lemma Math_max_Int a b : Math_max (Int a) (Int b) = Int (Z.max a b).
Proof.
  unfold Math_max, lt. destruct (Z.ltb_spec a b); f_equal; lia.
Qed.

Lemma Math_min_Int a b : Math_min (Int a) (Int b) = Int (Z.min a b).
Proof.
  unfold Math_min, lt. destruct (Z.ltb_spec b a); f_equal; lia.
Qed.

(** The loop test [i < limit] holds of the first [turns limit] indices
    and of no other. *)
Lemma turns_below limit (i : nat) :
  lt (Int (Z.of_nat i)) limit = true <-> (i < turns limit)%nat.
Proof.
  destruct limit as [|z|k e]; simpl.
  - split; [discriminate|lia].
  - rewrite Z.ltb_lt. lia.
  - rewrite Z.leb_le. lia.
Qed.

Lemma visited_turns limit : visited limit = turns limit.
Proof. destruct limit; reflexivity. Qed.

Lemma num_or_defined n d : num_or n d <> NaN.
Proof. destruct n as [|z|k e]; simpl; try discriminate. destruct (z =? 0)%Z; discriminate. Qed.

(** The percent of the handler is the rounded percent of the
    specification. *)
Lemma percent_rounded current total : percent current total = rounded_percent current total.
Proof. reflexivity. Qed.

(** *** The item limit *)

(** The limit is a whole number from 1 to the number of entries, or the
    fraction that was requested, which then lies between the two. *)
Lemma limit_cases E (available : nat) maxVideos :
  (exists z, limit E available maxVideos = Int z
             /\ z <= Z.of_nat available /\ ((1 <= available)%nat -> 1 <= z))
  \/ (exists k e, limit E available maxVideos = Frac k e
                  /\ num_or (Number E maxVideos) 10 = Frac k e
                  /\ 1 <= floor k e < Z.of_nat available).
Proof.
  unfold limit.
  pose proof (num_or_defined (Number E maxVideos) 10) as Hdef.
  destruct (num_or (Number E maxVideos) 10) as [|z|k e]; [contradiction| |].
  - left. rewrite Math_max_Int, Math_min_Int. eexists. split; [reflexivity|lia].
  - unfold Math_max, Math_min, lt.
    destruct (Z.leb_spec 1 (floor k e)).
    + destruct (Z.ltb_spec (floor k e) (Z.of_nat available)).
      * right. exists k, e. split; [reflexivity|]. split; [reflexivity|lia].
      * left. eexists. split; [reflexivity|lia].
    + left. destruct (Z.ltb_spec 1 (Z.of_nat available));
        eexists; (split; [reflexivity|lia]).
Qed.

Lemma limit_bounds E (available : nat) maxVideos :
  (1 <= available)%nat ->
  le (Int 1) (limit E available maxVideos) = true
  /\ le (limit E available maxVideos) (Int (Z.of_nat available)) = true.
Proof.
  intros Ha.
  destruct (limit_cases E available maxVideos)
    as [(z & -> & Hz & H1)|(k & e & -> & _ & Hk)];
    unfold le, lt; rewrite !negb_true_iff, ?Z.ltb_ge, ?Z.leb_gt.
  - specialize (H1 Ha). lia.
  - lia.
Qed.

(** The loop runs no further than the entries go. *)
Lemma turns_limit E (available : nat) maxVideos :
  (turns (limit E available maxVideos) <= available)%nat.
Proof.
  destruct (limit_cases E available maxVideos)
    as [(z & -> & Hz & _)|(k & e & -> & _ & Hk)]; simpl; lia.
Qed.

(** An absent [maxVideos] is requested as 10. *)
Lemma maxVideos_absent body :
  get body "maxVideos" = VUndef -> maxVideos_of body = VNum (Int 10).
Proof. unfold maxVideos_of. intros ->. reflexivity. Qed.

(** What is not a number, and zero, are requested as 10. *)
Lemma limit_falsy E (available : nat) maxVideos :
  Number E maxVideos = NaN \/ Number E maxVideos = Int 0 ->
  limit E available maxVideos = Int (Z.min (Z.of_nat available) 10).
Proof.
  unfold limit. intros [-> | ->]; simpl num_or;
    rewrite Math_max_Int, Math_min_Int; reflexivity.
Qed.

(** The server applies no upper bound of its own. *)
Example limit_150 :
  limit (Sample.serving Sample.three_entries) 200 (VNum (Int 150)) = Int 150.
Proof. reflexivity. Qed.

(** A request for a number that is not whole keeps it: two and a half of
    five. *)
Example limit_of_a_fraction :
  limit (Sample.serving Sample.three_entries) 5 (VNum (Frac 2 1)) = Frac 2 1
  /\ spec_limit 5 (Frac 2 1) = Frac 2 1
  /\ ToString (VNum (Frac 2 1)) = "2.5".
Proof. vm_compute. repeat split; reflexivity. Qed.

(** C1, as stated, fails: a request for zero videos is served up to ten,
    where [clamp 0 1 100] is one. *)
Lemma limit_of_zero_request :
  limit (Sample.serving Sample.three_entries) 5 (VNum (Int 0)) = Int 5
  /\ spec_limit 5 (Int 0) = Int 1.
Proof. split; reflexivity. Qed.

(** C1, amended: with the requested maximum read as [Number(maxVideos)],
    replaced by 10 when that is NaN or zero (an absent [maxVideos] is 10
    already), the effective limit of a request for at most 100 is
    [min(available, clamp(requested, 1, 100))]. *)
Theorem limit_is_clamped_request E (available : nat) (maxVideos : value) (requested : num) :
  requested_maximum (Number E maxVideos) requested ->
  le requested (Int 100) = true ->
  limit E available maxVideos = spec_limit available requested.
Proof.
  intros Hreq Hle. unfold limit, spec_limit, clamp.
  assert (Hor : num_or (Number E maxVideos) 10 = requested).
  { destruct Hreq as [[[->| ->] ->]|(Hnan & Hzero & ->)]; [reflexivity|reflexivity|].
    destruct (Number E maxVideos) as [|z|k e]; [contradiction| |reflexivity].
    simpl. destruct (Z.eqb_spec z 0); [subst; contradiction|reflexivity]. }
  rewrite Hor. f_equal. f_equal.
  destruct requested as [|z|k e]; [discriminate| |];
    unfold Math_min, le, lt in *; rewrite negb_true_iff in Hle; rewrite Hle; reflexivity.
Qed.

Lemma limit_is_clamped_request_witness :
  limit (Sample.serving Sample.three_entries) 5 (VNum (Int 3)) = spec_limit 5 (Int 3).
Proof.
  apply (limit_is_clamped_request (Sample.serving Sample.three_entries) 5 (VNum (Int 3))
           (Int 3)).
  - right. split; [discriminate|]. split; [discriminate|reflexivity].
  - reflexivity.
Defined.

(** *** The navigator *)















Lemma nonempty_false {A} (l : list A) : nonempty l = false -> l = [].
Proof. destruct l; simpl; congruence. Qed.
















(** A page with both layouts in one tab: the grid's entries are returned,
    in their order, and the legacy list is not read. *)
Example grid_wins_over_legacy :
  navigate
    (Sample.obj1 "contents"
       (Sample.obj1 "twoColumnBrowseResultsRenderer"
          (Sample.obj1 "tabs"
             (VArr [ Sample.obj1 "tabRenderer"
                       (Sample.obj1 "content"
                          (VObj [ ("sectionListRenderer",
                                   Sample.obj1 "contents"
                                     (VArr [ Sample.obj1 "itemSectionRenderer"
                                               (Sample.obj1 "contents"
                                                  (VArr [ Sample.obj1 "gridRenderer"
                                                            (Sample.obj1 "items"
                                                               (VArr [ Sample.obj1 "gridVideoRenderer"
                                                                         (Sample.obj1 "videoId" (VStr "old")) ])) ])) ]));
                                  ("richGridRenderer",
                                   Sample.obj1 "contents"
                                     (VArr [ Sample.rich (Sample.obj1 "videoId" (VStr "new1"));
                                             Sample.rich (Sample.obj1 "videoId" (VStr "new2")) ])) ])) ]))))
  = Ok [ Sample.obj1 "videoId" (VStr "new1"); Sample.obj1 "videoId" (VStr "new2") ].
Proof. reflexivity. Qed.

(** *** Locating the embedded blob *)

Lemma length_app (a b : string) :
  String.length (a ++ b) = (String.length a + String.length b)%nat.
Proof. induction a as [|x a IH]; simpl; [reflexivity|]. f_equal. exact IH. Qed.

Lemma strip_prefix_spec p s r : Str.strip_prefix p s = Some r <-> s = p ++ r.
Proof.
  revert s. induction p as [|a p IH]; intros s; simpl.
  - split; [intros H; inversion H; reflexivity|intros ->; reflexivity].
  - destruct s as [|b s].
    + split; discriminate.
    + destruct (Ascii.eqb_spec a b) as [->|Hne].
      * rewrite IH. split; [intros ->; reflexivity|intros H; inversion H; reflexivity].
      * split; [discriminate|]. intros H. inversion H. congruence.
Qed.

Lemma starts_with_spec p s : Str.starts_with p s = true <-> exists r, s = p ++ r.
Proof.
  unfold Str.starts_with. rewrite bool_decide_eq_true. split.
  - intros [r Hr]. exists r. apply strip_prefix_spec. exact Hr.
  - intros [r Hr]. exists r. apply strip_prefix_spec. exact Hr.
Qed.

Lemma drop_spaces_app w s : all_space w = true -> drop_spaces (w ++ s) = drop_spaces s.
Proof.
  induction w as [|c w IH]; simpl; [reflexivity|].
  intros H. apply andb_prop in H as [Hc Hw]. rewrite Hc. apply IH. exact Hw.
Qed.

Lemma drop_spaces_split s : exists w, all_space w = true /\ s = w ++ drop_spaces s.
Proof.
  induction s as [|c s (w & Hw & Hs)]; simpl.
  - exists "". split; reflexivity.
  - destruct (is_space c) eqn:Hc.
    + exists (String c w). simpl. rewrite Hc, Hw. split; [reflexivity|].
      rewrite <- Hs. reflexivity.
    + exists "". split; reflexivity.
Qed.

Lemma tail_script_spec s : tail_script s = true <-> re_tail_script s.
Proof.
  unfold tail_script, re_tail_script. split.
  - destruct (Str.strip_prefix "};" s) as [r|] eqn:Hr; [|discriminate].
    apply strip_prefix_spec in Hr. intros H. apply starts_with_spec in H as [post Hpost].
    destruct (drop_spaces_split r) as (w & Hw & Hsplit).
    exists w, post. split; [exact Hw|]. rewrite Hr, Hsplit at 1. rewrite Hpost. reflexivity.
  - intros (w & post & Hw & ->).
    replace (Str.strip_prefix "};" ("};" ++ w ++ "</script>" ++ post))
      with (Some (w ++ "</script>" ++ post)) by (symmetry; apply strip_prefix_spec; reflexivity).
    rewrite drop_spaces_app by exact Hw. reflexivity.
Qed.

Lemma tail_var_or_script_spec s :
  tail_var_or_script s = true <-> re_tail_var_or_script s.
Proof.
  unfold tail_var_or_script, re_tail_var_or_script. split.
  - destruct (Str.strip_prefix "};" s) as [r|] eqn:Hr; [|discriminate].
    apply strip_prefix_spec in Hr. intros H.
    destruct (drop_spaces_split r) as (w & Hw & Hsplit).
    apply orb_prop in H as [H|H]; apply starts_with_spec in H as [post Hpost];
      exists w, post; (split; [exact Hw|]); [left|right];
      rewrite Hr, Hsplit at 1; rewrite Hpost; reflexivity.
  - intros (w & post & Hw & [-> | ->]).
    + replace (Str.strip_prefix "};" ("};" ++ w ++ "var " ++ post))
        with (Some (w ++ "var " ++ post)) by (symmetry; apply strip_prefix_spec; reflexivity).
      rewrite drop_spaces_app by exact Hw. reflexivity.
    + replace (Str.strip_prefix "};" ("};" ++ w ++ "</script>" ++ post))
        with (Some (w ++ "</script>" ++ post)) by (symmetry; apply strip_prefix_spec; reflexivity).
      rewrite drop_spaces_app by exact Hw. reflexivity.
Qed.

Lemma app_inv_length (a x b y : string) :
  a ++ x = b ++ y -> String.length a = String.length b -> a = b /\ x = y.
Proof.
  revert b. induction a as [|c a IH]; intros [|d b]; simpl; try discriminate.
  - intros H _. split; [reflexivity|exact H].
  - intros H Hlen. inversion H; subst.
    destruct (IH b) as [-> ->]; [assumption|lia|]. split; reflexivity.
Qed.

Section Matcher.

Variable lit : string.
Variable tail : string -> bool.
Variable tailP : string -> Prop.
Hypothesis tail_spec : forall s, tail s = true <-> tailP s.

Lemma lazy_body_sound s b :
  lazy_body tail s = Some b -> exists r, s = b ++ r /\ tail r = true.
Proof.
  revert b. induction s as [|c s IH]; intros b; simpl.
  - destruct (tail "") eqn:Ht; [|discriminate].
    intros H. inversion H; subst. exists "". split; [reflexivity|exact Ht].
  - destruct (tail (String c s)) eqn:Ht.
    + intros H. inversion H; subst. exists (String c s). split; [reflexivity|exact Ht].
    + destruct (lazy_body tail s) as [b'|]; [|discriminate].
      intros H. inversion H; subst.
      destruct (IH b' eq_refl) as (r & -> & Hr). exists r. split; [reflexivity|exact Hr].
Qed.

Lemma lazy_body_shortest s b b' r' :
  lazy_body tail s = Some b -> s = b' ++ r' -> tail r' = true ->
  (String.length b <= String.length b')%nat.
Proof.
  revert b b'. induction s as [|c s IH]; intros b b'; simpl.
  - destruct (tail ""); [|discriminate]. intros H. inversion H; subst. simpl. lia.
  - destruct (tail (String c s)) eqn:Ht.
    + intros H. inversion H; subst. simpl. lia.
    + destruct (lazy_body tail s) as [b0|] eqn:Hb; [|discriminate].
      intros H Hs Hr. inversion H; subst.
      destruct b' as [|c' b'].
      * simpl in Hs. subst r'. congruence.
      * simpl in Hs. inversion Hs; subst. simpl.
        specialize (IH b0 b' eq_refl eq_refl Hr). lia.
Qed.

Lemma lazy_body_complete b r :
  tail r = true -> exists b0, lazy_body tail (b ++ r) = Some b0.
Proof.
  intros Hr. induction b as [|c b (b0 & IH)]; simpl.
  - destruct r; simpl; rewrite Hr; eauto.
  - destruct (tail (String c (b ++ r))); [eauto|]. rewrite IH. simpl. eauto.
Qed.

Lemma match_here_steps s :
  match_here lit tail s
  = match Str.strip_prefix lit s with
    | Some r1 =>
        match Str.strip_prefix "=" (drop_spaces r1) with
        | Some r2 =>
            match Str.strip_prefix "{" (drop_spaces r2) with
            | Some (String c r4) =>
                match lazy_body tail r4 with
                | Some b => Some ("{" ++ String c b ++ "}")
                | None => None
                end
            | _ => None
            end
        | None => None
        end
    | None => None
    end.
Proof.
  unfold match_here.
  destruct (Str.strip_prefix lit s) as [r1|]; [|reflexivity].
  change (Some r1 ≫= ?f) with (f r1). cbv beta.
  destruct (Str.strip_prefix "=" (drop_spaces r1)) as [r2|]; [|reflexivity].
  change (Some r2 ≫= ?f) with (f r2). cbv beta.
  destruct (Str.strip_prefix "{" (drop_spaces r2)) as [[|c r4]|]; reflexivity.
Qed.

Lemma match_here_sound s cap :
  match_here lit tail s = Some cap -> re_match_at lit tailP s cap.
Proof.
  rewrite match_here_steps. intros H.
  destruct (Str.strip_prefix lit s) as [r1|] eqn:H1; [|discriminate].
  destruct (Str.strip_prefix "=" (drop_spaces r1)) as [r2|] eqn:H2; [|discriminate].
  destruct (Str.strip_prefix "{" (drop_spaces r2)) as [r3|] eqn:H3; [|discriminate].
  destruct r3 as [|c r4]; [discriminate|].
  destruct (lazy_body tail r4) as [b|] eqn:Hb; [|discriminate].
  inversion H; subst cap. clear H.
  apply strip_prefix_spec in H1, H2, H3.
  destruct (drop_spaces_split r1) as (w1 & Hw1 & Hs1).
  destruct (drop_spaces_split r2) as (w2 & Hw2 & Hs2).
  destruct (lazy_body_sound _ _ Hb) as (rest & -> & Hrest).
  exists w1, w2, c, b, rest. repeat split; try assumption.
  - rewrite H1, Hs1, H2, Hs2, H3. reflexivity.
  - apply tail_spec. exact Hrest.
Qed.

Lemma match_here_complete s cap' :
  re_match_at lit tailP s cap' ->
  exists cap, match_here lit tail s = Some cap
              /\ (String.length cap <= String.length cap')%nat
              /\ (String.length cap = String.length cap' -> cap = cap').
Proof.
  intros (w1 & w2 & c & body & rest & Hw1 & Hw2 & -> & Hrest & ->).
  apply tail_spec in Hrest.
  destruct (lazy_body_complete body rest Hrest) as (b0 & Hb0).
  exists ("{" ++ String c b0 ++ "}"). split.
  - rewrite match_here_steps.
    replace (Str.strip_prefix lit (lit ++ w1 ++ "=" ++ w2 ++ "{" ++ String c body ++ rest))
      with (Some (w1 ++ "=" ++ w2 ++ "{" ++ String c body ++ rest))
      by (symmetry; apply strip_prefix_spec; reflexivity).
    rewrite drop_spaces_app by exact Hw1.
    change (drop_spaces ("=" ++ w2 ++ "{" ++ String c body ++ rest))
      with ("=" ++ w2 ++ "{" ++ String c body ++ rest).
    replace (Str.strip_prefix "=" ("=" ++ w2 ++ "{" ++ String c body ++ rest))
      with (Some (w2 ++ "{" ++ String c body ++ rest))
      by (symmetry; apply strip_prefix_spec; reflexivity).
    rewrite drop_spaces_app by exact Hw2.
    change (drop_spaces ("{" ++ String c body ++ rest))
      with ("{" ++ String c body ++ rest).
    replace (Str.strip_prefix "{" ("{" ++ String c body ++ rest))
      with (Some (String c body ++ rest))
      by (symmetry; apply strip_prefix_spec; reflexivity).
    change (String c body ++ rest) with (String c (body ++ rest)).
    cbv iota. rewrite Hb0. reflexivity.
  - pose proof (lazy_body_shortest _ _ body rest Hb0 eq_refl Hrest) as Hle.
    destruct (lazy_body_sound _ _ Hb0) as (r0 & Hsplit & _).
    split; [simpl; rewrite !length_app; simpl; lia|].
    simpl. rewrite !length_app. simpl. intros Hlen.
    destruct (app_inv_length body rest b0 r0 Hsplit) as [-> _]; [lia|reflexivity].
Qed.

Lemma search_sound html cap :
  search lit tail html = Some cap ->
  exists pre s,
    html = pre ++ s /\ match_here lit tail s = Some cap
    /\ (forall pre' s', html = pre' ++ s' ->
                        (String.length pre' < String.length pre)%nat ->
                        match_here lit tail s' = None).
Proof.
  induction html as [|c html IH]; simpl.
  - destruct (match_here lit tail "") as [cap0|] eqn:Hm; [|discriminate].
    intros H. inversion H; subst. exists "", "". repeat split; [exact Hm|].
    intros pre' s' _ Hlt. simpl in Hlt. lia.
  - destruct (match_here lit tail (String c html)) as [cap0|] eqn:Hm.
    + intros H. inversion H; subst. exists "", (String c html).
      repeat split; [exact Hm|]. intros pre' s' _ Hlt. simpl in Hlt. lia.
    + intros H. destruct (IH H) as (pre & s & -> & Hs & Hleft).
      exists (String c pre), s. repeat split; [exact Hs|].
      intros pre' s' Heq Hlt. destruct pre' as [|c' pre'].
      * simpl in Heq. subst s'. exact Hm.
      * simpl in Heq. inversion Heq; subst. apply (Hleft pre' s'); [assumption|].
        simpl in Hlt. lia.
Qed.

Lemma search_none html :
  search lit tail html = None ->
  forall pre s, html = pre ++ s -> match_here lit tail s = None.
Proof.
  induction html as [|c html IH]; simpl.
  - destruct (match_here lit tail "") eqn:Hm; [discriminate|].
    intros _ pre s Heq. destruct pre; [|discriminate]. simpl in Heq. subst s. exact Hm.
  - destruct (match_here lit tail (String c html)) eqn:Hm; [discriminate|].
    intros H pre s Heq. destruct pre as [|c' pre].
    + simpl in Heq. subst s. exact Hm.
    + simpl in Heq. inversion Heq; subst. apply (IH H pre s). reflexivity.
Qed.

(** The search is the regular expression's first match. *)
Lemma search_first_match html cap :
  search lit tail html = Some cap -> re_first_match lit tailP html cap.
Proof.
  intros H. destruct (search_sound _ _ H) as (pre & s & -> & Hs & Hleft).
  exists pre, s. split; [reflexivity|]. split; [apply match_here_sound; exact Hs|].
  split.
  - intros pre' s' cap' Heq Hm.
    destruct (Nat.le_gt_cases (String.length pre) (String.length pre')) as [Hle|Hgt];
      [exact Hle|].
    destruct (match_here_complete _ _ Hm) as (cap0 & Hcap0 & _).
    rewrite (Hleft pre' s' Heq Hgt) in Hcap0. discriminate.
  - intros cap' Hm. destruct (match_here_complete _ _ Hm) as (cap0 & Hcap0 & Hle & _).
    rewrite Hs in Hcap0. inversion Hcap0; subst. exact Hle.
Qed.

Lemma search_none_iff html :
  search lit tail html = None <-> ~ re_matches lit tailP html.
Proof.
  split.
  - intros H (pre & s & cap & Heq & Hm).
    destruct (match_here_complete _ _ Hm) as (cap0 & Hcap0 & _).
    rewrite (search_none _ H pre s Heq) in Hcap0. discriminate.
  - intros Hno. destruct (search lit tail html) as [cap|] eqn:H; [|reflexivity].
    exfalso. apply Hno. destruct (search_sound _ _ H) as (pre & s & Heq & Hs & _).
    exists pre, s, cap. split; [exact Heq|]. apply match_here_sound. exact Hs.
Qed.

(** Conversely the first match is unique, and the search finds it. *)
Lemma first_match_search html cap :
  re_first_match lit tailP html cap -> search lit tail html = Some cap.
Proof.
  intros (pre & s & Heq & Hm & Hleft & Hshort).
  destruct (search lit tail html) as [cap0|] eqn:Hsearch.
  2: { exfalso. apply search_none_iff in Hsearch. apply Hsearch. exists pre, s, cap. auto. }
  destruct (search_sound _ _ Hsearch) as (pre0 & s0 & Heq0 & Hs0 & Hleft0).
  pose proof (match_here_sound _ _ Hs0) as Hm0.
  pose proof (Hleft pre0 s0 cap0 Heq0 Hm0) as Hle.
  destruct (match_here_complete _ _ Hm) as (cap1 & Hcap1 & Hle1 & Hsame).
  assert (Hlen : String.length pre0 = String.length pre).
  { destruct (Nat.lt_ge_cases (String.length pre) (String.length pre0)) as [Hlt|Hge];
      [|lia].
    rewrite (Hleft0 pre s Heq Hlt) in Hcap1. discriminate. }
  rewrite Heq in Heq0.
  destruct (app_inv_length pre0 s0 pre s (eq_sym Heq0) Hlen) as [-> ->].
  rewrite Hs0 in Hcap1. inversion Hcap1; subst cap1.
  pose proof (Hshort cap0 Hm0) as Hge. f_equal. apply Hsame. lia.
Qed.

End Matcher.

Lemma search_var_iff html cap :
  search "var ytInitialData" tail_script html = Some cap
  <-> re_first_match "var ytInitialData" re_tail_script html cap.
Proof.
  split; [apply search_first_match|apply first_match_search]; apply tail_script_spec.
Qed.

Lemma search_plain_iff html cap :
  search "ytInitialData" tail_var_or_script html = Some cap
  <-> re_first_match "ytInitialData" re_tail_var_or_script html cap.
Proof.
  split; [apply search_first_match|apply first_match_search];
    apply tail_var_or_script_spec.
Qed.

Lemma ytInitialData_match_iff html cap :
  ytInitialData_match html = Some cap <-> re_ytInitialData html cap.
Proof.
  unfold ytInitialData_match, re_ytInitialData.
  destruct (search "var ytInitialData" tail_script html) as [cap1|] eqn:H1.
  - split.
    + intros H. inversion H; subst. left. apply search_var_iff. exact H1.
    + intros [H|[Hno _]].
      * apply search_var_iff in H. congruence.
      * exfalso. apply (search_none_iff _ _ _ tail_script_spec html) in Hno. congruence.
  - rewrite search_plain_iff. split.
    + intros H. right. split; [|exact H].
      apply (search_none_iff _ _ _ tail_script_spec). exact H1.
    + intros [H|[_ H]]; [|exact H]. apply search_var_iff in H. congruence.
Qed.

Lemma ytInitialData_match_none html :
  ytInitialData_match html = None
  <-> ~ re_matches "var ytInitialData" re_tail_script html
      /\ ~ re_matches "ytInitialData" re_tail_var_or_script html.
Proof.
  unfold ytInitialData_match.
  rewrite <- (search_none_iff _ _ _ tail_script_spec).
  rewrite <- (search_none_iff _ _ _ tail_var_or_script_spec).
  destruct (search "var ytInitialData" tail_script html); split.
  - discriminate.
  - intros [H _]. discriminate.
  - intros H. split; [reflexivity|exact H].
  - intros [_ H]. exact H.
Qed.

(** C6.  The extractor returns the blob exactly when [html] has a first
    match of the script-terminated pattern, or none of it and a first
    match of the var-or-script-terminated one, and group 1 of that match
    parses; with no match of either pattern it raises the extraction
    message, which names both causes; with a match that does not parse it
    raises the parse message and tries nothing else. *)
Theorem extract_first_match_or_error E html :
  (forall ytData,
      extract E html = Ok ytData <->
      exists cap, re_ytInitialData html cap /\ JSON_parse E cap = Some ytData)
  /\ (extract E html = Throw extraction_message <->
      ~ re_matches "var ytInitialData" re_tail_script html
      /\ ~ re_matches "ytInitialData" re_tail_var_or_script html)
  /\ (extract E html = Throw "Failed to parse ytInitialData JSON." <->
      exists cap, re_ytInitialData html cap /\ JSON_parse E cap = None)
  /\ Str.includes "may not exist" extraction_message = true
  /\ Str.includes "blocked the request" extraction_message = true
  /\ extraction_message <> "Failed to parse ytInitialData JSON.".
Proof.
  assert (Hmsg : Str.includes "may not exist" extraction_message = true
                 /\ Str.includes "blocked the request" extraction_message = true
                 /\ extraction_message <> "Failed to parse ytInitialData JSON.").
  { split; [vm_compute; reflexivity|]. split; [vm_compute; reflexivity|].
    vm_compute. discriminate. }
  unfold extract.
  destruct (ytInitialData_match html) as [cap|] eqn:Hmatch.
  - pose proof (proj1 (ytInitialData_match_iff html cap) Hmatch) as Hre.
    assert (Huniq : forall cap', re_ytInitialData html cap' -> cap' = cap).
    { intros cap' H'. apply ytInitialData_match_iff in H'. congruence. }
    assert (Hsome : ~ (~ re_matches "var ytInitialData" re_tail_script html
                       /\ ~ re_matches "ytInitialData" re_tail_var_or_script html)).
    { intros Hno. apply ytInitialData_match_none in Hno. congruence. }
    split; [|split; [|split; [|exact Hmsg]]].
    + intros ytData. split.
      * destruct (JSON_parse E cap) eqn:Hp; intros H; inversion H; subst. eauto.
      * intros (cap' & H' & Hp). rewrite (Huniq _ H') in Hp. rewrite Hp. reflexivity.
    + split; [|intros H; contradiction].
      destruct (JSON_parse E cap); intros H; inversion H.
    + split.
      * destruct (JSON_parse E cap) eqn:Hp; intros H; inversion H. eauto.
      * intros (cap' & H' & Hp). rewrite (Huniq _ H') in Hp. rewrite Hp. reflexivity.
  - pose proof (proj1 (ytInitialData_match_none html) Hmatch) as Hno.
    assert (Hnone : forall cap', ~ re_ytInitialData html cap').
    { intros cap' H'. apply ytInitialData_match_iff in H'. congruence. }
    split; [|split; [|split; [|exact Hmsg]]].
    + intros ytData. split; [discriminate|].
      intros (cap' & H' & _). exfalso. exact (Hnone _ H').
    + split; [intros _; exact Hno|reflexivity].
    + split.
      * intros H. inversion H.
      * intros (cap' & H' & _). exfalso. exact (Hnone _ H').
Qed.

(** Both forms of the page, and a page with other JSON before the blob. *)
Example match_script_form :
  ytInitialData_match "<script>var ytInitialData = {[1,2]};</script>" = Some "{[1,2]}".
Proof. reflexivity. Qed.

Example match_var_form :
  ytInitialData_match "window.ytInitialData = {[1,2]}; var ytPlayer = {[3]};</script>"
  = Some "{[1,2]}".
Proof. reflexivity. Qed.

Example match_only_the_blob :
  ytInitialData_match
    "<script>var other = {[0]};</script><script>var ytInitialData={[1]};  </script>{[2]}"
  = Some "{[1]}".
Proof. reflexivity. Qed.

Example match_absent :
  ytInitialData_match "<html><body>Before you continue</body></html>" = None.
Proof. reflexivity. Qed.

(** *** The event stream *)

Lemma percent_of_three :
  percent 1 (Int 3) = Int 33 /\ percent 2 (Int 3) = Int 67
  /\ percent 3 (Int 3) = Int 100.
Proof. repeat split; vm_compute; reflexivity. Qed.

(** The product is rounded before [Math.round] sees it: 23/40 of 100 is
    57.49999999999999 in binary64, not 57.5. *)
Lemma percent_23_of_40 : percent 23 (Int 40) = Int 57.
Proof. vm_compute. reflexivity. Qed.

(** Of a total of two and a half, the third is 120 percent. *)
Lemma percent_of_a_fraction :
  percent 1 (Frac 2 1) = Int 40 /\ percent 2 (Frac 2 1) = Int 80
  /\ percent 3 (Frac 2 1) = Int 120.
Proof. repeat split; vm_compute; reflexivity. Qed.

Lemma quiet_ret {A} (a : A) : quiet (ret a).
Proof. intros w. reflexivity. Qed.

Lemma quiet_lift {A} (o : outcome A) : quiet (lift o).
Proof. intros w. reflexivity. Qed.

Lemma quiet_sbind {A B} (m : SE world A) (k : A -> SE world B) :
  quiet m -> (forall a, quiet (k a)) -> quiet (sbind m k).
Proof.
  intros Hm Hk w. unfold sbind. specialize (Hm w).
  destruct (m w) as [[a|e] w1]; simpl in Hm |- *; [|exact Hm].
  rewrite (Hk a w1). exact Hm.
Qed.

Lemma quiet_with_item d m : quiet (with_item d m).
Proof. intros w. unfold with_item. destruct (m _) as [r st]. reflexivity. Qed.

Lemma send_then_quiet {A} e (rest : SE world A) w :
  quiet rest ->
  emitted (snd (sbind (send e) (fun _ => rest) w)) = (emitted w ++ [e])%list.
Proof. intros Hq. unfold sbind, send, modify. rewrite Hq. reflexivity. Qed.

(** One turn of the loop emits the progress event of its entry when the
    entry has an id, and nothing otherwise, whatever happens after. *)
Lemma item_emitted E limit videoRenderers videos i w :
  emitted (snd (item E limit videoRenderers videos i w))
  = (emitted w
       ++ (if has_id videoRenderers i
           then [progress_at limit (Z.of_nat i + 1)] else []))%list.
Proof.
  unfold item, has_id. cbv zeta.
  destruct (truthy (oget (default VUndef (videoRenderers !! i)) "videoId")).
  - change (negb true) with false. cbv iota.
    apply send_then_quiet.
    apply quiet_sbind; [apply quiet_lift|]. intros u.
    apply quiet_sbind; [apply quiet_with_item|]. intros d. apply quiet_ret.
  - simpl. rewrite List.app_nil_r. reflexivity.
Qed.

Lemma sorted_between_weaken lo lo' hi cs :
  lo' <= lo -> sorted_between lo hi cs -> sorted_between lo' hi cs.
Proof. destruct cs as [|c cs]; simpl; [tauto|]. intros H [H1 H2]. split; [lia|exact H2]. Qed.

Lemma sorted_between_increasing lo hi cs : sorted_between lo hi cs -> increasing cs.
Proof.
  revert lo. induction cs as [|c cs IH]; intros lo; simpl; [tauto|].
  intros [_ H]. destruct cs as [|c' cs]; [exact I|].
  split; [simpl in H; lia|]. apply (IH c). exact H.
Qed.

Lemma sorted_between_bounds lo hi cs :
  sorted_between lo hi cs -> Forall (fun c => lo < c <= hi) cs.
Proof.
  revert lo. induction cs as [|c cs IH]; intros lo; simpl; [constructor|].
  intros [Hc H]. constructor; [exact Hc|].
  eapply Forall_impl; [apply (IH c); exact H|]. simpl. intros x Hx. lia.
Qed.

(** A position within the turns of the loop is below the limit. *)
Lemma within_turns limit cs :
  Forall (fun c => 0 < c <= Z.of_nat (turns limit)) cs ->
  Forall (fun c => 1 <= c /\ lt (Int (c - 1)) limit = true) cs.
Proof.
  intros H. eapply Forall_impl; [exact H|]. simpl. intros c Hc.
  split; [lia|]. replace (c - 1) with (Z.of_nat (Z.to_nat (c - 1))) by lia.
  apply turns_below. lia.
Qed.

(** The loop over the positions [a, a+1, ..., a+n-1]: what it adds to the
    stream is the progress events of positions that have an id, in order,
    up to where it stopped. *)
Lemma items_emitted E limit videoRenderers n : forall a videos w,
  exists cs,
    emitted (snd (items E limit videoRenderers (seq a n) videos w))
    = (emitted w ++ List.map (progress_at limit) cs)%list
    /\ sorted_between (Z.of_nat a) (Z.of_nat (a + n)) cs
    /\ Forall (fun c => has_id videoRenderers (Z.to_nat (c - 1)) = true) cs
    /\ ((forall i, (a <= i < a + n)%nat -> has_id videoRenderers i = true) ->
        steps_by_one cs /\ (forall c, head cs = Some c -> c = Z.of_nat a + 1)).
Proof.
  induction n as [|n IH]; intros a videos w.
  - exists []. simpl. rewrite List.app_nil_r. repeat split; auto. discriminate.
  - simpl seq. cbn [items]. unfold sbind at 1.
    pose proof (item_emitted E limit videoRenderers videos a w) as Hitem.
    destruct (item E limit videoRenderers videos a w) as [[videos'|m] w1];
      simpl in Hitem.
    + destruct (IH (S a) videos' w1) as (cs & Hcs & Hsorted & Hids & Hstep).
      destruct (has_id videoRenderers a) eqn:Hid.
      * exists ((Z.of_nat a + 1) :: cs). split; [|split; [|split]].
        -- rewrite Hcs, Hitem, <- List.app_assoc. reflexivity.
        -- simpl. split; [lia|].
           replace (Z.of_nat a + 1) with (Z.of_nat (S a)) by lia.
           replace (a + S n)%nat with (S a + n)%nat by lia. exact Hsorted.
        -- constructor; [|exact Hids].
           replace (Z.to_nat (Z.of_nat a + 1 - 1)) with a by lia. exact Hid.
        -- intros Hall. split; [|intros c Hc; inversion Hc; reflexivity].
           destruct Hstep as [Hs Hhead]; [intros i Hi; apply Hall; lia|].
           destruct cs as [|c cs]; [exact I|]. simpl. split; [|exact Hs].
           rewrite (Hhead c eq_refl). lia.
      * exists cs. split; [|split; [|split]].
        -- rewrite Hcs, Hitem, List.app_nil_r. reflexivity.
        -- replace (a + S n)%nat with (S a + n)%nat by lia.
           apply (sorted_between_weaken (Z.of_nat (S a))); [lia|exact Hsorted].
        -- exact Hids.
        -- intros Hall. rewrite Hall in Hid by lia. discriminate.
    + destruct (has_id videoRenderers a) eqn:Hid.
      * exists [Z.of_nat a + 1]. split; [|split; [|split]].
        -- exact Hitem.
        -- simpl. split; [lia|exact I].
        -- constructor; [|constructor].
           replace (Z.to_nat (Z.of_nat a + 1 - 1)) with a by lia. exact Hid.
        -- intros _. split; [exact I|]. intros c Hc. inversion Hc. reflexivity.
      * exists []. split; [|split; [|split]].
        -- exact Hitem.
        -- exact I.
        -- constructor.
        -- intros Hall. rewrite Hall in Hid by lia. discriminate.
Qed.

(** The body of the [try] is the stages before the loop, then the loop,
    then the done event. *)
Lemma run_stages E url maxVideos w :
  run E url maxVideos w
  = match locate E url with
    | Throw m => (Throw m, w)
    | Ok videoRenderers =>
        let limit := limit E (List.length videoRenderers) maxVideos in
        sbind (items E limit videoRenderers (seq 0 (turns limit)) [])
              (fun videos => send (Done videos)) w
    end.
Proof.
  unfold run, locate, sbind, lift, bind.
  destruct (channel_url url) as [channelUrl|m]; [|reflexivity].
  destruct (fetch E channelUrl) as [pageResponse|m]; [|reflexivity].
  destruct (page_ok pageResponse); simpl; [|reflexivity].
  destruct (page_text pageResponse) as [html|m]; [|reflexivity].
  destruct (extract E html) as [ytData|m]; [|reflexivity].
  destruct (navigate ytData) as [videoRenderers|m]; reflexivity.
Qed.

(** C2, amended.  Every stream ends with its one terminal event; before
    it come only progress events, whose [total] is the limit fixed before
    the loop and whose percent is [Math.round] of the binary64 value of
    [(current / total) * 100]; [current] is [i + 1] for the position [i]
    of the entry being started, which is below the limit, so it increases
    strictly, and by exactly one when no entry below the limit lacks an
    id; a failure of fetch, extract or navigate leaves a single error
    event. *)
Theorem event_stream E body files0 w :
  handler E body files0 = EventStream w -> stream_shape E body w.
Proof.
  unfold handler. destruct (truthy (get body "url")); simpl; [|discriminate].
  intros H. inversion H as [Hw]. clear H. unfold try_catch.
  rewrite run_stages. unfold stream_shape. cbv zeta.
  destruct (locate E (get body "url")) as [videoRenderers|m].
  - split; [discriminate|]. intros vrs Hvrs. inversion Hvrs; subst vrs. clear Hvrs.
    set (limit := limit E (List.length videoRenderers) (maxVideos_of body)).
    set (w0 := {| emitted := []; files := files0 |}).
    destruct (items_emitted E limit videoRenderers (turns limit) 0 [] w0)
      as (cs & Hcs & Hsorted & Hids & Hstep).
    change (visited limit) with (turns limit).
    assert (Hbelow : Forall (fun c => 1 <= c /\ lt (Int (c - 1)) limit = true) cs).
    { apply within_turns. eapply Forall_impl;
        [exact (sorted_between_bounds _ _ _ Hsorted)|]. simpl. intros c Hc. lia. }
    unfold sbind.
    destruct (items E limit videoRenderers (seq 0 (turns limit)) [] w0)
      as [[videos|m] w1]; simpl in Hcs.
    + exists cs, (Done videos). simpl. rewrite Hcs.
      split; [reflexivity|]. split; [reflexivity|].
      split; [exact Hsorted|].
      split; [exact (sorted_between_increasing _ _ _ Hsorted)|].
      split; [exact Hbelow|]. split; [exact Hids|].
      intros Hall. apply Hstep. intros i Hi. apply Hall. lia.
    + exists cs, (Error m). simpl. rewrite Hcs.
      split; [reflexivity|]. split; [reflexivity|].
      split; [exact Hsorted|].
      split; [exact (sorted_between_increasing _ _ _ Hsorted)|].
      split; [exact Hbelow|]. split; [exact Hids|].
      intros Hall. apply Hstep. intros i Hi. apply Hall. lia.
  - split; [|discriminate]. intros m' Hm. inversion Hm; subst. reflexivity.
Qed.

Lemma event_stream_witness :
  stream_shape (Sample.serving Sample.three_entries) Sample.demo_request Sample.demo_world.
Proof.
  apply (event_stream (Sample.serving Sample.three_entries) Sample.demo_request ∅
                      Sample.demo_world).
  vm_compute. reflexivity.
Defined.

(** Three of five entries, every one with an id: progress 1, 2, 3 with
    percent 33, 67, 100, then done with three records. *)
Example three_of_five :
  match handler (Sample.serving Sample.five_entries) Sample.demo_request ∅ with
  | EventStream w =>
      match emitted w with
      | [ Progress 1 (Int 3) (Int 33); Progress 2 (Int 3) (Int 67);
          Progress 3 (Int 3) (Int 100); Done videos ] =>
          List.map video_id videos = [ VStr "a"; VStr "b"; VStr "c" ]
      | _ => False
      end
  | BadRequest => False
  end.
Proof. vm_compute. reflexivity. Qed.

(** A request for two and a half videos of five: the loop runs while [i]
    is below 2.5, three times; the third event is 3 of 2.5 at 120
    percent, and done holds three records. *)
Example three_of_two_and_a_half :
  match handler (Sample.serving Sample.five_entries)
          (Sample.request "https://www.youtube.com/@demo" (VNum (Frac 2 1))) ∅ with
  | EventStream w =>
      match emitted w with
      | [ Progress 1 (Frac 2 1) (Int 40); Progress 2 (Frac 2 1) (Int 80);
          Progress 3 (Frac 2 1) (Int 120); Done videos ] =>
          List.map video_id videos = [ VStr "a"; VStr "b"; VStr "c" ]
      | _ => False
      end
  | BadRequest => False
  end.
Proof. vm_compute. reflexivity. Qed.

(** The page is asked for at the channel's videos tab: slashes at the
    end of the URL are dropped and [/videos] is added unless it is there;
    a URL that is no string has no [replace]. *)
Example channel_url_samples :
  channel_url (VStr "https://www.youtube.com/@demo")
  = Ok "https://www.youtube.com/@demo/videos"
  /\ channel_url (VStr "https://www.youtube.com/@demo///")
     = Ok "https://www.youtube.com/@demo/videos"
  /\ channel_url (VStr "https://www.youtube.com/@demo/videos/")
     = Ok "https://www.youtube.com/@demo/videos"
  /\ channel_url (VNum (Int 5)) = TypeError.
Proof. vm_compute. repeat split; reflexivity. Qed.

(** A page that answers 404: one error event with the status, and
    nothing else. *)
Example page_not_found :
  let S := Sample.serving Sample.three_entries in
  let E := {| StringToNumber := StringToNumber S;
              JSON_parse := JSON_parse S;
              fetch := fun _ => Ok {| page_ok := false; page_status := 404;
                                      page_text := Ok "" |};
              getInfo := getInfo S;
              tmp_path := tmp_path S;
              execFile := execFile S |} in
  handler E Sample.demo_request ∅
  = EventStream {| emitted := [ Error "Failed to fetch channel page: HTTP 404" ];
                   files := ∅ |}.
Proof. vm_compute. reflexivity. Qed.

(** The thumbnail is the last of the list. *)
Example last_thumbnail_samples :
  last_thumbnail_url (VArr [ Sample.obj1 "url" (VStr "small");
                             Sample.obj1 "url" (VStr "large") ]) = Ok (VStr "large")
  /\ last_thumbnail_url VUndef = Ok VUndef
  /\ last_thumbnail_url (VArr []) = Ok VUndef
  /\ last_thumbnail_url (VNum (Int 1)) = TypeError.
Proof. vm_compute. repeat split; reflexivity. Qed.

(** A missing [url] is refused before any event is written. *)
Example no_url_no_stream :
  handler (Sample.serving Sample.five_entries) (VObj [ ("maxVideos", VNum (Int 3)) ]) ∅
  = BadRequest.
Proof. reflexivity. Qed.

(** C2, as stated, fails: the second of three entries has no id, and the
    stream is progress 1 of 3, progress 3 of 3, done: [current] goes from
    1 to 3. *)
Lemma current_skips_entry_without_id :
  Ingest.handler (Sample.serving Sample.three_entries) Sample.demo_request ∅
  = EventStream Sample.demo_world
  /\ List.map is_terminal (emitted Sample.demo_world) = [false; false; true]
  /\ firstn 2 (emitted Sample.demo_world)
     = [Progress 1 (Int 3) (Int 33); Progress 3 (Int 3) (Int 100)]
  /\ currents (emitted Sample.demo_world) = [1; 3]
  /\ ~ steps_by_one (currents (emitted Sample.demo_world)).
Proof.
  split; [vm_compute; reflexivity|].
  split; [vm_compute; reflexivity|].
  split; [vm_compute; reflexivity|].
  split; [vm_compute; reflexivity|].
  vm_compute. intros [H _]. discriminate.
Qed.

(** *** Numeric fields of a record *)

(** [parseInt] reads a whole number or nothing. *)
Lemma parseInt10_whole v : forall k e, parseInt10 v <> Frac k e.
Proof.
  intros k e. unfold parseInt10.
  destruct (drop_spaces (ToString v)) as [|c s]; [simpl; discriminate|].
  repeat match goal with
         | |- context [match ?x with _ => _ end] => destruct x; try discriminate
         end.
Qed.

(** Path 2 of the comment count stores integers only. *)
Lemma scan_panels_count panels : forall st,
  comment_count (vd (snd (scan_panels panels st))) = comment_count (vd st)
  \/ exists z, comment_count (vd (snd (scan_panels panels st))) = VNum (Int z).
Proof.
  induction panels as [|panel rest IH]; intros st; simpl; [left; reflexivity|].
  destruct (truthy _); [|apply IH].
  unfold sbind, lift. destruct (without_commas _) as [stripped|m]; simpl;
    [|left; reflexivity].
  destruct (parseInt10 (VStr stripped)) as [|z|k e] eqn:Hn; simpl; [apply IH| |].
  - right. exists z. reflexivity.
  - exfalso. exact (parseInt10_whole _ _ _ Hn).
Qed.

Lemma parseInt_of_formatted_count :
  parseInt10 (VStr "1,234") = Int 1
  /\ parseInt10 (VStr (Str.remove_commas "1,234")) = Int 1234
  /\ parseInt10 (VStr "N/A") = NaN
  /\ parseInt10 (VNum NaN) = NaN.
Proof. repeat split; reflexivity. Qed.

(** The panel path strips the separators and keeps integers only. *)
Example counts_from_panels :
  let st := snd (enrich_block (Sample.looking_up Sample.info_panels None None)
                              (VStr "a") (VStr "") (VStr "") (Sample.start "a" ∅)) in
  view_count (vd st) = VNum (Int 1500)
  /\ like_count (vd st) = VNum (Int 0)
  /\ comment_count (vd st) = VNum (Int 1234).
Proof. vm_compute. repeat split; reflexivity. Qed.

(** C3 on the code: lines 404, 405 and 411 store what [parseInt] returns
    unchecked.  A view count that is not numeric and a like count of NaN
    are stored as NaN, and the comment count on the player response is
    read without stripping the separators: 1,234 is stored as 1. *)
Theorem unchecked_parseInt_stores_NaN :
  let st := snd (enrich_block (Sample.looking_up Sample.info_unparseable None None)
                              (VStr "a") (VStr "") (VStr "") (Sample.start "a" ∅)) in
  view_count (vd st) = VNum NaN
  /\ like_count (vd st) = VNum NaN
  /\ comment_count (vd st) = VNum (Int 1)
  /\ ~ int_or_null (view_count (vd st)).
Proof.
  vm_compute. repeat split; try reflexivity.
  intros [H|[z H]]; discriminate.
Qed.

(** *** The transcript step *)

(** The step never aborts the item. *)
Lemma transcript_block_returns E videoId st :
  fst (transcript_block E videoId st) = Ok tt.
Proof.
  unfold transcript_block, try_catch.
  destruct (sbind _ _ st) as [[[]|m] st']; reflexivity.
Qed.

(** The step in cases.  The command is run with the 20000 ms timeout and
    the fixed flags; then, by what it left at the expected path:
    - no file, a file that does not parse, or a parsed file whose shape
      makes the text pipeline throw: the record is untouched, and a file
      that was there stays there;
    - a file that parses: the text, when not empty, becomes the
      transcript, and the file is deleted. *)
Lemma transcript_block_cases E videoId st :
  let tmpBase := tmp_path E ("yt_sub_" ++ ToString videoId) in
  let subFile := tmpBase ++ ".en.json3" in
  let fs1 := execFile E "yt-dlp" (yt_dlp_args tmpBase videoId) 20000 (fs st) in
  snd (transcript_block E videoId st)
  = match fs1 !! subFile with
    | None => {| vd := vd st; fs := fs1 |}
    | Some raw =>
        match JSON_parse E raw with
        | None => {| vd := vd st; fs := fs1 |}
        | Some json =>
            match caption_text json with
            | Throw _ => {| vd := vd st; fs := fs1 |}
            | Ok text =>
                {| vd := if String.eqb text "" then vd st
                         else set_transcript text (vd st);
                   fs := delete subFile fs1 |}
            end
        end
    end.
Proof.
  cbv zeta. unfold transcript_block, try_catch, sbind, modify, gets, lift, assign, ret.
  cbn [fs vd].
  destruct (_ !! _) as [raw|]; [|reflexivity].
  destruct (JSON_parse E raw) as [json|]; [|reflexivity].
  destruct (caption_text json) as [text|m]; [|reflexivity].
  destruct (String.eqb text ""); reflexivity.
Qed.

Lemma length_take n s : (String.length (Str.take n s) <= n)%nat.
Proof.
  unfold Str.take. revert s. induction n as [|n IH]; intros [|c s]; simpl; try lia.
  specialize (IH s). lia.
Qed.

(** A transcript is at most 5000 characters long. *)
Lemma caption_text_length json text :
  caption_text json = Ok text -> (String.length text <= 5000)%nat.
Proof.
  unfold caption_text, bind.
  destruct (sget json "events") as [events|]; [|discriminate].
  destruct (array_or_empty events) as [l|]; [|discriminate].
  destruct (mapM _ l) as [segs|]; [|discriminate].
  intros H. inversion H. apply length_take.
Qed.

(** The text of the sample captions. *)
Example caption_text_sample : caption_text Sample.captions = Ok "Hello world".
Proof. vm_compute. reflexivity. Qed.

(** A file that parses: the transcript is stored and the file deleted. *)
Example transcript_stored_and_file_deleted :
  let E := Sample.looking_up Sample.info_plain (Some "captions") (Some Sample.captions) in
  let st := snd (transcript_block E (VStr "a") (Sample.start "a" ∅)) in
  transcript (vd st) = "Hello world"
  /\ fs st !! "/tmp/yt_sub_a.en.json3" = None.
Proof. vm_compute. split; reflexivity. Qed.

(** No file: an empty transcript. *)
Example transcript_empty_without_file :
  let E := Sample.looking_up Sample.info_plain None None in
  let st := snd (transcript_block E (VStr "a") (Sample.start "a" ∅)) in
  transcript (vd st) = "" /\ fs st = ∅.
Proof. vm_compute. split; reflexivity. Qed.

(** C8 on the code: [unlinkSync] stands after the parse inside the [try],
    so a subtitle file that does not parse (here one cut short) leaves an
    empty transcript, does not abort the item, and stays on disk. *)
Theorem unparsed_subtitle_file_is_left_behind :
  let E := Sample.looking_up Sample.info_plain (Some "{") None in
  let r := transcript_block E (VStr "a") (Sample.start "a" ∅) in
  fst r = Ok tt
  /\ transcript (vd (snd r)) = ""
  /\ fs (snd r) !! "/tmp/yt_sub_a.en.json3" = Some "{".
Proof. vm_compute. repeat split; reflexivity. Qed.

End IngestFacts.

(* ===================================================================== *)
(** ** Properties of the function-calling loop *)
(* ===================================================================== *)

Module GeminiFacts.
Import JS Gemini.

(** One round of the loop under observation, when the response in hand
    carries a call: the tool is executed once, its record pushed, the
    sanitized result sent, and the loop goes on with the answer. *)
Lemma round_logged {St} (E : env St) budget r c s log :
  always_calls E -> tools_return E -> has_call r ->
  exists name args v s1 r1 s2 t1,
    executeFn E name args s = (Ok v, s1)
    /\ sendMessage E (function_response name (resultForGemini v)) s1 = (Ok r1, s2)
    /\ has_call r1 /\ text r1 = Ok t1
    /\ rounds E (S budget) r c s = rounds E budget r1 (collect name args v c) s2
    /\ rounds (logged E) (S budget) r c (s, log)
       = rounds (logged E) budget r1 (collect name args v c)
           (s2, (log ++ [ Executed name args (Ok v);
                          Sent (function_response name (resultForGemini v)) (Ok r1) ])%list).
Proof.
  intros Hcalls Htools (parts & p & Hparts & Hfind).
  set (name := get (get p "functionCall") "name").
  set (args := get (get p "functionCall") "args").
  destruct (Htools name args s) as (v & s1 & Hexec).
  destruct (Hcalls (function_response name (resultForGemini v)) s1)
    as (r1 & s2 & t1 & Hsend & Hcall1 & Htext1).
  exists name, args, v, s1, r1, s2, t1.
  split; [exact Hexec|]. split; [exact Hsend|]. split; [exact Hcall1|].
  split; [exact Htext1|]. split.
  - cbn [rounds]. unfold sbind, lift. rewrite Hparts, Hfind.
    fold name args. rewrite Hexec, Hsend. reflexivity.
  - cbn [rounds]. unfold sbind, lift. rewrite Hparts, Hfind.
    fold name args. cbn [logged executeFn sendMessage fst snd].
    rewrite Hexec. cbn [fst snd]. rewrite Hsend. cbn [fst snd].
    rewrite <- List.app_assoc. reflexivity.
Qed.

(** [budget] rounds with a model that always calls: all of them run. *)
Lemma rounds_logged {St} (E : env St) budget :
  always_calls E -> tools_return E ->
  forall r c s log t,
    has_call r -> text r = Ok t ->
    exists r' c' s' added t',
      rounds E budget r c s = (Ok (r', c'), s')
      /\ rounds (logged E) budget r c (s, log) = (Ok (r', c'), (s', (log ++ added)%list))
      /\ List.length (List.filter is_executed added) = budget
      /\ List.length added = (2 * budget)%nat
      /\ toolCalls c' = (toolCalls c ++ records added)%list
      /\ List.length (records added) = budget
      /\ text r' = Ok t'
      /\ (budget <> O -> exists m, last added = Some (Sent m (Ok r'))).
Proof.
  intros Hcalls Htools. induction budget as [|budget IH]; intros r c s log t Hcall Htext.
  - exists r, c, s, [], t. cbn [rounds]. unfold ret. rewrite !List.app_nil_r.
    repeat split; auto. intros H. contradiction.
  - destruct (round_logged E budget r c s log Hcalls Htools Hcall)
      as (name & args & v & s1 & r1 & s2 & t1 & Hexec & Hsend & Hcall1 & Htext1 & Hplain & Hlog).
    destruct (IH r1 (collect name args v c) s2
                 (log ++ [ Executed name args (Ok v);
                           Sent (function_response name (resultForGemini v)) (Ok r1) ])%list
                 t1 Hcall1 Htext1)
      as (r' & c' & s' & added & t' & Hp & Hl & Hn & Hlen & Hcalls' & Hrec & Htext' & Hlast).
    exists r', c', s',
      ([ Executed name args (Ok v);
         Sent (function_response name (resultForGemini v)) (Ok r1) ] ++ added)%list, t'.
    split; [rewrite Hplain; exact Hp|].
    split; [rewrite Hlog, Hl, <- List.app_assoc; reflexivity|].
    split; [simpl; rewrite Hn; reflexivity|].
    split; [simpl; rewrite Hlen; lia|].
    split; [rewrite Hcalls'; simpl; rewrite <- List.app_assoc; reflexivity|].
    split; [simpl; rewrite Hrec; reflexivity|].
    split; [exact Htext'|].
    intros _. destruct budget as [|budget].
    + cbn [rounds] in Hp. unfold ret in Hp. inversion Hp; subst.
      destruct added; [|simpl in Hlen; discriminate].
      eexists. reflexivity.
    + destruct Hlast as (m & Hm); [discriminate|]. exists m.
      rewrite last_app, Hm. reflexivity.
Qed.

(** C4.  With a model that answers every message with a function call
    and tools that resolve, the loop executes the callback exactly eight
    times (the log of the observed run holds eight executions, each
    followed by the send of its sanitized result), then returns without a
    throw: the text is that of the response to the eighth result, and the
    tool-call list holds the eight records in order. *)
Theorem eight_rounds_then_text {St} (E : env St) newMessage csvHeaders imageParts
  t0 m0 s0 :
  always_calls E -> tools_return E ->
  textContent csvHeaders newMessage = Ok t0 ->
  msgParts imageParts t0 = Ok m0 ->
  exists ans s' log m9 r9,
    chatWithTools E newMessage csvHeaders imageParts s0 = (Ok ans, s')
    /\ chatWithTools (logged E) newMessage csvHeaders imageParts (s0, [])
       = (Ok ans, (s', log))
    /\ List.length (List.filter is_executed log) = 8%nat
    /\ List.length log = 17%nat
    /\ last log = Some (Sent m9 (Ok r9))
    /\ text r9 = Ok (answer_text ans)
    /\ answer_toolCalls ans = records log
    /\ List.length (answer_toolCalls ans) = 8%nat.
Proof.
  intros Hcalls Htools Htext Hparts.
  destruct (Hcalls m0 s0) as (r & s1 & t & Hsend & Hcall & Hrtext).
  destruct (rounds_logged E 8 Hcalls Htools r
              {| charts := []; toolCalls := []; videoCards := [] |}
              s1 [Sent m0 (Ok r)] t Hcall Hrtext)
    as (r' & c' & s' & added & t' & Hp & Hl & Hn & Hlen & Hcalls' & Hrec & Htext' & Hlast).
  destruct Hlast as (m9 & Hm9); [discriminate|].
  exists {| answer_text := t'; answer_charts := charts c';
            answer_toolCalls := toolCalls c'; answer_videoCards := videoCards c' |},
    s', ([Sent m0 (Ok r)] ++ added)%list, m9, r'.
  split; [|split].
  - unfold chatWithTools, sbind, lift. rewrite Htext, Hparts, Hsend, Hp.
    cbn [fst snd]. rewrite Htext'. reflexivity.
  - unfold chatWithTools, sbind, lift. rewrite Htext, Hparts.
    cbn [logged sendMessage fst snd]. rewrite Hsend. cbn [List.app].
    rewrite Hl. cbn [fst snd]. rewrite Htext'. reflexivity.
  - cbn [answer_text answer_toolCalls].
    split; [simpl; exact Hn|].
    split; [simpl; rewrite Hlen; reflexivity|].
    split; [rewrite last_app, Hm9; reflexivity|].
    split; [exact Htext'|].
    split; [rewrite Hcalls'; reflexivity|].
    rewrite Hcalls'. simpl. exact Hrec.
Qed.

Lemma eight_rounds_then_text_witness :
  exists ans s' log m9 r9,
    chatWithTools Sample.insistent "play the first video" VNull [] 0%nat = (Ok ans, s')
    /\ chatWithTools (logged Sample.insistent) "play the first video" VNull [] (0%nat, [])
       = (Ok ans, (s', log))
    /\ List.length (List.filter is_executed log) = 8%nat
    /\ List.length log = 17%nat
    /\ last log = Some (Sent m9 (Ok r9))
    /\ text r9 = Ok (answer_text ans)
    /\ answer_toolCalls ans = records log
    /\ List.length (answer_toolCalls ans) = 8%nat.
Proof.
  apply (eight_rounds_then_text Sample.insistent "play the first video" VNull []
           "play the first video"
           (VArr [ VObj [ ("text", VStr "play the first video") ] ]) 0%nat).
  - intros m s. do 3 eexists. split; [reflexivity|]. split; [|reflexivity].
    do 2 eexists. split; reflexivity.
  - intros name args s. do 2 eexists. reflexivity.
  - reflexivity.
  - reflexivity.
Defined.

(** The insistent conversation, evaluated: nine messages, eight cards,
    and the ninth reply as the text. *)
Example insistent_conversation :
  let r := chatWithTools Sample.insistent "play the first video" VNull [] 0%nat in
  snd r = 9%nat
  /\ (answer_text <$> fst r) = Ok "reply 9"
  /\ (List.length <$> (answer_toolCalls <$> fst r)) = Ok 8%nat
  /\ (List.length <$> (answer_videoCards <$> fst r)) = Ok 8%nat.
Proof. vm_compute. repeat split; reflexivity. Qed.

(** *** What goes back to the model *)

(** The conditional chain of lines 205-211 computes the sanitized form,
    and nothing else is one. *)
Lemma resultForGemini_sanitized toolResult :
  sanitized toolResult (resultForGemini toolResult).
Proof.
  unfold resultForGemini.
  destruct (truthy (oget toolResult "_imageType")) eqn:Himage;
    [apply image_result; exact Himage|].
  destruct (truthy (oget toolResult "_chartType")) eqn:Hchart;
    [apply chart_result; assumption|].
  destruct (truthy (oget toolResult "_videoType")) eqn:Hvideo;
    [apply video_result; assumption|apply plain_result; assumption].
Qed.

Lemma sanitized_unique toolResult payload :
  sanitized toolResult payload -> payload = resultForGemini toolResult.
Proof.
  unfold resultForGemini.
  intros [Himage|Himage Hchart|Himage Hchart Hvideo|Himage Hchart Hvideo];
    unfold marked in *; rewrite ?Himage, ?Hchart, ?Hvideo; reflexivity.
Qed.

(** Whatever the model and the tools do, each result the loop got from a
    tool is answered with its sanitized form. *)
Lemma rounds_send_sanitized {St} (E : env St) budget : forall r c s log,
  exists added,
    snd (snd (rounds (logged E) budget r c (s, log))) = (log ++ added)%list
    /\ sanitized_replies added.
Proof.
  induction budget as [|budget IH]; intros r c s log.
  - exists []. cbn [rounds]. unfold ret. simpl. rewrite List.app_nil_r. split; [reflexivity|exact I].
  - cbn [rounds]. unfold sbind, lift.
    destruct (parts_of r) as [parts|m].
    2: { exists []. simpl. rewrite List.app_nil_r. split; [reflexivity|exact I]. }
    destruct (find_functionCall parts) as [[p|]|m].
    2,3: exists []; simpl; rewrite List.app_nil_r; split; [reflexivity|exact I].
    set (name := get (get p "functionCall") "name").
    set (args := get (get p "functionCall") "args").
    cbn [logged executeFn sendMessage fst snd].
    destruct (executeFn E name args s) as [[v|m] s1]; cbn [fst snd].
    2: { exists [Executed name args (Throw m)]. split; [reflexivity|exact I]. }
    assert (Hsent : exists payload,
               sanitized v payload
               /\ function_response name (resultForGemini v)
                  = VArr [ VObj [ ("functionResponse",
                                   VObj [ ("name", name);
                                          ("response",
                                           VObj [ ("result", payload) ]) ]) ] ])
      by (exists (resultForGemini v); split;
          [apply resultForGemini_sanitized|reflexivity]).
    destruct (sendMessage E (function_response name (resultForGemini v)) s1)
      as [[r1|m] s2]; cbn [fst snd].
    2: { exists [ Executed name args (Ok v);
                  Sent (function_response name (resultForGemini v)) (Throw m) ].
         split; [rewrite <- List.app_assoc; reflexivity|].
         cbn [sanitized_replies]. split; [exact Hsent|exact I]. }
    destruct (IH r1 (collect name args v c) s2
                 ((log ++ [Executed name args (Ok v)])
                    ++ [Sent (function_response name (resultForGemini v)) (Ok r1)])%list)
      as (added & Hadded & Hsan).
    exists ([ Executed name args (Ok v);
              Sent (function_response name (resultForGemini v)) (Ok r1) ] ++ added)%list.
    split.
    + rewrite Hadded, <- !List.app_assoc. reflexivity.
    + cbn [List.app sanitized_replies]. split; [exact Hsent|exact Hsan].
Qed.

(** C5, as stated, fails: a marker that is present with a falsy value
    does not count.  A result that has [_chartType] (the empty string)
    and a [data] array is passed on as it is, the array included, and
    that is what the model is sent. *)
Lemma falsy_marker_is_sent_raw :
  let toolResult := Fixtures.untyped_chart in
  get toolResult "_chartType" = VStr ""
  /\ get toolResult "data" = VArr [ VNum (Int 1); VNum (Int 2) ]
  /\ resultForGemini toolResult = toolResult
  /\ get (resultForGemini toolResult) "dataPoints" = VUndef
  /\ snd (snd (rounds (logged Fixtures.untyped_charts) 1 (Sample.calling_response 1)
                 {| charts := []; toolCalls := []; videoCards := [] |} (1%nat, [])))
     = [ Executed (VStr "play_video") (Sample.obj1 "ordinal" (VNum (Int 1)))
           (Ok toolResult);
         Sent (VArr [ VObj [ ("functionResponse",
                              VObj [ ("name", VStr "play_video");
                                     ("response",
                                      VObj [ ("result", toolResult) ]) ]) ] ])
              (Ok (Sample.calling_response 2)) ].
Proof. vm_compute. repeat split; reflexivity. Qed.

(** C5, amended.  In every run, each result the loop got from a tool is
    answered with one function response, named after the tool, whose
    result is the sanitized form of the raw result; that form is decided
    by the markers alone, a marker counting when its value is truthy and
    the markers being read in the order image, chart, video:
    - an image result gives success, imageGenerated, prompt and mimeType,
      and nothing else;
    - a chart result gives success, chartGenerated, the chart type and
      [dataPoints], the length of the [data] array, and no [data];
    - a video result gives success, videoFound, title and url;
    - a result none of whose markers counts is returned as it is. *)
Theorem sanitized_by_marker toolResult :
  (forall St (E : env St) budget r c s log,
      exists added,
        snd (snd (rounds (logged E) budget r c (s, log))) = (log ++ added)%list
        /\ sanitized_replies added)
  /\ sanitized toolResult (resultForGemini toolResult)
  /\ (forall payload, sanitized toolResult payload ->
                      payload = resultForGemini toolResult)
  /\ (marked "_imageType" toolResult = true ->
      resultForGemini toolResult
      = VObj [ ("success", VBool true); ("imageGenerated", VBool true);
               ("prompt", get toolResult "prompt");
               ("mimeType", get toolResult "mimeType") ])
  /\ (marked "_imageType" toolResult = false ->
      marked "_chartType" toolResult = true ->
      get (resultForGemini toolResult) "data" = VUndef
      /\ forall series,
           get toolResult "data" = VArr series ->
           resultForGemini toolResult
           = VObj [ ("success", VBool true); ("chartGenerated", VBool true);
                    ("chartType", get toolResult "_chartType");
                    ("dataPoints", VNum (Int (Z.of_nat (List.length series)))) ])
  /\ (marked "_imageType" toolResult = false ->
      marked "_chartType" toolResult = false ->
      marked "_videoType" toolResult = true ->
      resultForGemini toolResult
      = VObj [ ("success", VBool true); ("videoFound", VBool true);
               ("title", get toolResult "title"); ("url", get toolResult "url") ])
  /\ (marked "_imageType" toolResult = false ->
      marked "_chartType" toolResult = false ->
      marked "_videoType" toolResult = false ->
      resultForGemini toolResult = toolResult).
Proof.
  split; [intros St E budget; apply rounds_send_sanitized|].
  split; [apply resultForGemini_sanitized|].
  split; [apply sanitized_unique|].
  unfold marked, resultForGemini.
  split; [intros ->; reflexivity|].
  split.
  { intros -> Hchart. rewrite Hchart. split; [reflexivity|].
    intros series ->. reflexivity. }
  split; [intros -> -> ->; reflexivity|].
  intros -> -> ->. reflexivity.
Qed.

(** The three kinds on results of the shapes the tools build. *)
Example sanitized_chart :
  resultForGemini
    (VObj [ ("_chartType", VStr "scatter");
            ("data", VArr [ VObj [ ("x", VNum (Int 1)); ("y", VNum (Int 2)) ];
                            VObj [ ("x", VNum (Int 3)); ("y", VNum (Int 4)) ] ]);
            ("metric", VStr "view_count") ])
  = VObj [ ("success", VBool true); ("chartGenerated", VBool true);
           ("chartType", VStr "scatter"); ("dataPoints", VNum (Int 2)) ].
Proof. reflexivity. Qed.

Example sanitized_image :
  resultForGemini
    (VObj [ ("_imageType", VStr "generated"); ("data", VStr "iVBORw0KGgo");
            ("mimeType", VStr "image/png"); ("prompt", VStr "a red fox") ])
  = VObj [ ("success", VBool true); ("imageGenerated", VBool true);
           ("prompt", VStr "a red fox"); ("mimeType", VStr "image/png") ].
Proof. reflexivity. Qed.

Example sanitized_video :
  resultForGemini Sample.card
  = VObj [ ("success", VBool true); ("videoFound", VBool true);
           ("title", VStr "T"); ("url", VStr "https://www.youtube.com/watch?v=a") ].
Proof. reflexivity. Qed.

Example sanitized_plain :
  resultForGemini (VObj [ ("field", VStr "view_count"); ("count", VNum (Int 12)) ])
  = VObj [ ("field", VStr "view_count"); ("count", VNum (Int 12)) ].
Proof. reflexivity. Qed.

End GeminiFacts.

(* ===================================================================== *)
(** ** Properties of the JSON tool executor *)
(* ===================================================================== *)

Module JsonToolsFacts.
Import JS JsonTools.

(** C9.  Without data (null, undefined or an empty array) every call
    returns the no-data error object, whatever the tool name and the
    arguments; with a non-empty data array a tool name that the switch
    has no case for returns an error object that names it.  Neither
    throws. *)
Theorem executeJsonTool_guards E toolName args :
  executeJsonTool E toolName args VNull
  = Ok (VObj [ ("error", VStr "No JSON data loaded.") ])
  /\ executeJsonTool E toolName args VUndef
     = Ok (VObj [ ("error", VStr "No JSON data loaded.") ])
  /\ executeJsonTool E toolName args (VArr [])
     = Ok (VObj [ ("error", VStr "No JSON data loaded.") ])
  /\ (forall first rest,
        known_tool toolName = false ->
        executeJsonTool E toolName args (VArr (first :: rest))
        = Ok (VObj [ ("error", VStr ("Unknown JSON tool: " ++ ToString toolName)) ])).
Proof.
  split; [reflexivity|]. split; [reflexivity|]. split; [reflexivity|].
  intros first rest Hunknown. unfold known_tool in Hunknown.
  apply orb_false_elim in Hunknown as [Hunknown Hplay].
  apply orb_false_elim in Hunknown as [Hstats Hplot].
  unfold executeJsonTool. rewrite Hstats, Hplot, Hplay. reflexivity.
Qed.

Example generateImage_is_unknown_here :
  executeJsonTool Sample.tools (VStr "generateImage") (VObj []) (VArr Sample.two_videos)
  = Ok (VObj [ ("error", VStr "Unknown JSON tool: generateImage") ]).
Proof. reflexivity. Qed.

(** *** play_video *)














Lemma get_not_undef_object v k : get v k <> VUndef -> nullish v = false.
Proof. destruct v; simpl; try congruence. Qed.





(** The selections on the two sample videos. *)
Example play_video_samples :
  let run := fun args =>
    executeJsonTool Sample.tools (VStr "play_video") args (VArr Sample.two_videos) in
  let a := Ok (card_of (Sample.video "a" "Black holes" 10)) in
  let b := Ok (card_of (Sample.video "b" "Climate" 25)) in
  run (Sample.obj1 "criteria" (VStr "Most viewed")) = b
  /\ run (Sample.obj1 "criteria" (VStr "least-played")) = a
  /\ run (Sample.obj1 "ordinal" (VNum (Int 2))) = b
  /\ run (Sample.obj1 "ordinal" (VNum (Int 7))) = a
  /\ run (Sample.obj1 "ordinal" (VNum (Int 0))) = a
  /\ run (Sample.obj1 "query" (VStr "CLIMATE")) = b
  /\ run (Sample.obj1 "query" (VStr "zebra")) = a
  /\ run (VObj []) = a
  /\ run VNull = TypeError
  /\ run (Sample.obj1 "criteria" (VNum (Int 5))) = TypeError.
Proof. vm_compute. repeat split; reflexivity. Qed.

(** The least viewed is found wherever it stands, and the dot of the
    patterns matches no line feed: a criteria broken over two lines is
    not recognized, and the first video is played. *)
Example play_video_least_and_lines :
  let a := Sample.video "a" "Black holes" 10 in
  let b := Sample.video "b" "Climate" 25 in
  executeJsonTool Sample.tools (VStr "play_video")
    (Sample.obj1 "criteria" (VStr "least viewed")) (VArr [ b; a ])
  = Ok (card_of a)
  /\ executeJsonTool Sample.tools (VStr "play_video")
       (Sample.obj1 "criteria" (VStr ("most" ++ String "010" "viewed"))) (VArr [ a; b ])
     = Ok (card_of a)
  /\ executeJsonTool Sample.tools (VStr "play_video")
       (Sample.obj1 "criteria" (VStr "most-viewed")) (VArr [ a; b ])
     = Ok (card_of b).
Proof. vm_compute. repeat split; reflexivity. Qed.

End JsonToolsFacts.

(* ===================================================================== *)
(** ** Properties of the chart series *)
(* ===================================================================== *)

Module PlotFacts.
Import JS JsonTools Lang Plot.

(** *** Callbacks over a list *)

Lemma filterM_inv {A} (p : A -> outcome bool) (q : A -> bool) (P : A -> Prop) l :
  (forall a b, p a = Ok b -> P a /\ b = q a) ->
  forall r, filterM p l = Ok r -> Forall P l /\ r = List.filter q l.
Proof.
  intros Hp. induction l as [|a l IH]; simpl; intros r H.
  - inversion H. split; [constructor|reflexivity].
  - unfold bind in H. destruct (p a) as [b|m] eqn:Hb; [|discriminate].
    destruct (filterM p l) as [rest|m]; [|discriminate].
    destruct (Hp a b Hb) as [Ha ->]. destruct (IH rest eq_refl) as [Hl ->].
    inversion H. split; [constructor; assumption|reflexivity].
Qed.


Lemma mapM_inv {A B} (f : A -> outcome B) l : forall bs,
  mapM f l = Ok bs -> Forall2 (fun a b => f a = Ok b) l bs.
Proof.
  induction l as [|a l IH]; simpl; intros bs H.
  - inversion H. constructor.
  - unfold bind in H. destruct (f a) as [b|m] eqn:Hb; [|discriminate].
    destruct (mapM f l) as [rest|m]; [|discriminate].
    inversion H. constructor; [exact Hb|apply IH; reflexivity].
Qed.


(** *** The sort *)

Lemma insert_perm compare x l : insert compare x l ≡ₚ x :: l.
Proof.
  induction l as [|y l IH]; simpl; [reflexivity|].
  destruct (positive (compare y x)); [reflexivity|].
  rewrite IH. apply Permutation_swap.
Qed.

Lemma fold_insert_perm compare l : forall acc,
  fold_left (fun acc x => insert compare x acc) l acc ≡ₚ (l ++ acc)%list.
Proof.
  induction l as [|x l IH]; intros acc; simpl; [reflexivity|].
  rewrite IH, insert_perm. symmetry. apply Permutation_middle.
Qed.

(** The sorted copy holds the same elements, each as often. *)
Lemma sort_with_perm compare l : sort_with compare l ≡ₚ l.
Proof. unfold sort_with. rewrite fold_insert_perm, List.app_nil_r. reflexivity. Qed.

(** A comparison that subtracts integer keys sorts by them, smallest
    first, the elements it is defined on. *)
Section Ordered.

Variable compare : value -> value -> num.
Variable key : value -> Z.
Variable dom : value -> Prop.
Hypothesis compare_key :
  forall a b, dom a -> dom b -> compare a b = Int (key a - key b).

Lemma insert_sorted x l :
  dom x -> Forall dom l ->
  StronglySorted (fun a b => key a <= key b) l -> StronglySorted (fun a b => key a <= key b) (insert compare x l).
Proof.
  intros Hx Hl Hs. induction Hs as [|y l Hs IH Hy]; simpl.
  - repeat constructor.
  - inversion Hl as [|? ? Hdy Hdl]; subst.
    rewrite (compare_key y x Hdy Hx). simpl.
    destruct (Z.ltb_spec 0 (key y - key x)) as [Hlt|Hge].
    + constructor; [constructor; assumption|].
      constructor; [simpl; lia|].
      eapply Forall_impl; [exact Hy|]. simpl. intros; lia.
    + constructor; [apply IH; assumption|].
      apply List.Forall_forall. intros z Hz.
      apply Permutation_in with (l' := x :: l) in Hz; [|apply insert_perm].
      destruct Hz as [<-|Hz]; [simpl; lia|].
      apply (proj1 (List.Forall_forall _ _) Hy). exact Hz.
Qed.

Lemma fold_insert_sorted l : forall acc,
  Forall dom l -> Forall dom acc -> StronglySorted (fun a b => key a <= key b) acc ->
  StronglySorted (fun a b => key a <= key b) (fold_left (fun acc x => insert compare x acc) l acc).
Proof.
  induction l as [|x l IH]; intros acc Hl Hacc Hs; simpl; [exact Hs|].
  inversion Hl; subst. apply IH; [assumption| |apply insert_sorted; assumption].
  apply List.Forall_forall. intros z Hz.
  apply Permutation_in with (l' := x :: acc) in Hz; [|apply insert_perm].
  destruct Hz as [<-|Hz]; [assumption|].
  apply (proj1 (List.Forall_forall _ _) Hacc). exact Hz.
Qed.

Lemma sort_with_sorted l :
  Forall dom l -> StronglySorted (fun a b => key a <= key b) (sort_with compare l).
Proof. intros Hl. apply fold_insert_sorted; [exact Hl|constructor|constructor]. Qed.

End Ordered.

Lemma sorted_impl {A} (R S : A -> A -> Prop) l :
  (forall a b, R a b -> S a b) -> StronglySorted R l -> StronglySorted S l.
Proof.
  intros HRS. induction 1 as [|a l _ IH Ha]; constructor; [exact IH|].
  eapply Forall_impl; [exact Ha|]. intros b. apply HRS.
Qed.

(** *** What the filters keep *)

Lemma has_metric_inv metric v b :
  has_metric metric v = Ok b ->
  nullish v = false /\ b = negb (nullish (get_at v metric)).
Proof.
  unfold has_metric, sget_at, bind. destruct (nullish v); [discriminate|].
  intros H. inversion H. auto.
Qed.

Lemma valid_videos metric l r :
  filter (has_metric metric) (VArr l) = Ok r ->
  Forall (fun v => nullish v = false) l /\ r = with_metric metric l.
Proof. apply filterM_inv. apply has_metric_inv. Qed.

Lemma defined_elements l :
  Forall (fun v => nullish v = false) l ->
  List.filter (fun v => negb (is_undefined v)) l = l
  /\ List.filter is_undefined l = []
  /\ existsb nullish l = false.
Proof.
  induction 1 as [|v l Hv _ (IH1 & IH2 & IH3)]; simpl; [auto|].
  destruct v; simpl in Hv |- *; try discriminate; rewrite ?IH1, ?IH2, ?IH3; auto.
Qed.

Lemma sorted_copy_defined compare l :
  Forall (fun v => nullish v = false) l ->
  sorted_copy compare (VArr l) = Ok (sort_with compare l).
Proof.
  intros Hl. unfold sorted_copy. simpl.
  destruct (defined_elements l Hl) as (-> & -> & ->).
  rewrite andb_false_r, List.app_nil_r. reflexivity.
Qed.

Lemma Forall_filter {A} (P : A -> Prop) (q : A -> bool) l :
  Forall P l -> Forall P (List.filter q l).
Proof.
  induction 1 as [|a l Ha _ IH]; simpl; [constructor|].
  destruct (q a); [constructor; assumption|assumption].
Qed.

Lemma executeJsonTool_plot E histogram args first rest :
  executeJsonTool (with_plot E histogram) (VStr "plot_metric_vs_time") args
    (VArr (first :: rest))
  = plot_metric_vs_time E histogram args (VArr (first :: rest)).
Proof. reflexivity. Qed.

Lemma by_metric_desc_key E metric a b :
  (exists z, Number E (get_at a metric) = Int z) ->
  (exists z, Number E (get_at b metric) = Int z) ->
  by_metric_desc E metric a b
  = Int (- metric_value E metric a - - metric_value E metric b).
Proof.
  intros [x Hx] [y Hy]. unfold by_metric_desc, metric_value.
  rewrite Hx, Hy. simpl. f_equal. lia.
Qed.

Lemma bar_inv E metric v b :
  (exists z, Number E (get_at v metric) = Int z) ->
  bar E metric v = Ok b ->
  get b "value" = VNum (Int (metric_value E metric v))
  /\ get b "fullTitle" = or_else (get v "title") (VStr "").
Proof.
  intros [z Hz]. unfold bar, bind, metric_value.
  destruct (label _) as [text|m]; [|discriminate].
  intros H. inversion H. rewrite Hz. split; reflexivity.
Qed.

Lemma slice_upto_nat {A} (k : nat) (l : list A) :
  slice_upto (Int (Z.of_nat k)) l = firstn k l.
Proof.
  unfold slice_upto. destruct (Z.ltb_spec (Z.of_nat k) 0); [lia|].
  rewrite Nat2Z.id. reflexivity.
Qed.

Lemma asked_slice {A} E limit k (l : list A) :
  asked limit k ->
  slice_upto (Number E (or_else limit (VNum (Int 15)))) l = firstn k l.
Proof.
  intros [[Hfalsy ->]|[-> Hk]]; unfold or_else.
  - rewrite Hfalsy. reflexivity.
  - simpl truthy. destruct (Z.eqb_spec (Z.of_nat k) 0); [lia|]. simpl.
    apply slice_upto_nat.
Qed.

(** X1.  The ranking chart shows the videos with the highest metric.
    When every video that carries the metric has an integer for it, the
    bars of a ranking are the first [k] of those videos put in
    descending order of the metric ([k] is the limit asked for, 15 when
    none is): bar by bar the value is the metric of the video and the
    full title is its title.  The result is an error object exactly when
    no video carries the metric. *)
Theorem ranking_shows_the_top E histogram args l k chart :
  get args "chart_type" = VStr "ranking" ->
  numeric E (get args "metric") l ->
  asked (get args "limit") k ->
  executeJsonTool (with_plot E histogram) (VStr "plot_metric_vs_time") args (VArr l)
  = Ok chart ->
  let metric := get args "metric" in
  (with_metric metric l = [] /\ is_error chart)
  \/ (with_metric metric l <> [] /\ ~ is_error chart)
     /\ exists ranked bars,
       ranked ≡ₚ with_metric metric l
       /\ StronglySorted
            (fun a b => metric_value E metric b <= metric_value E metric a) ranked
       /\ chart = VObj [ ("_chartType", VStr "ranking"); ("data", VArr bars);
                         ("metric", metric) ]
       /\ Forall2 (fun v b =>
                     get b "value" = VNum (Int (metric_value E metric v))
                     /\ get b "fullTitle" = or_else (get v "title") (VStr ""))
                  (firstn k ranked) bars.
Proof.
  intros Htype Hnum Hasked Hrun metric.
  destruct l as [|first rest].
  { left. split; [reflexivity|]. inversion Hrun. eexists. reflexivity. }
  rewrite executeJsonTool_plot in Hrun. unfold plot_metric_vs_time in Hrun.
  assert (Hargs : nullish args = false)
    by (apply (JsonToolsFacts.get_not_undef_object _ "chart_type"); congruence).
  unfold sget in Hrun. rewrite Hargs, Htype in Hrun. simpl in Hrun.
  fold metric in Hrun, Hnum. unfold ranking, bind in Hrun.
  destruct (filter _ _) as [validVideos|m] eqn:Hvalid; [|discriminate].
  apply valid_videos in Hvalid as [Hdefined ->].
  destruct (with_metric metric (first :: rest)) as [|v valid] eqn:Hwith.
  { left. split; [reflexivity|]. inversion Hrun. eexists. reflexivity. }
  right.
  assert (Hsome : with_metric metric (first :: rest) <> [])
    by (rewrite Hwith; discriminate).
  rewrite <- Hwith in *. clear Hwith.
  assert (Hkept : Forall (fun v => nullish v = false) (with_metric metric (first :: rest)))
    by (apply Forall_filter; exact Hdefined).
  rewrite (sorted_copy_defined _ _ Hkept) in Hrun.
  rewrite (asked_slice _ _ _ _ Hasked) in Hrun.
  destruct (mapM _ _) as [bars|m] eqn:Hbars; [|discriminate].
  inversion Hrun; subst chart; clear Hrun.
  split; [split; [exact Hsome|intros [message Hm]; discriminate]|].
  exists (sort_with (by_metric_desc E metric) (with_metric metric (first :: rest))), bars.
  split; [apply sort_with_perm|].
  split; [|split; [reflexivity|]].
  - eapply sorted_impl;
      [|apply (sort_with_sorted _ (fun v => - metric_value E metric v)
                 (fun v => exists z, Number E (get_at v metric) = Int z));
        [intros a b; apply by_metric_desc_key|exact Hnum]].
    simpl. intros. lia.
  - apply mapM_inv in Hbars.
    assert (Hdom : Forall (fun v => exists z, Number E (get_at v metric) = Int z)
                     (firstn k (sort_with (by_metric_desc E metric)
                                  (with_metric metric (first :: rest))))).
    { apply Forall_take. rewrite sort_with_perm. exact Hnum. }
    revert Hdom. induction Hbars as [|a b l bs Hab _ IH]; intros Hdom; constructor.
    + inversion Hdom; subst. apply bar_inv; assumption.
    + inversion Hdom; subst. apply IH. assumption.
Qed.

(** *** The time series *)

Lemma has_dated_inv metric v b :
  has_dated metric v = Ok b ->
  nullish v = false
  /\ b = (negb (nullish (get_at v metric)) && truthy (get v "release_date"))%bool.
Proof.
  unfold has_dated, sget_at, bind. destruct (nullish v); [discriminate|].
  destruct (nullish (get_at v metric)); intros H; inversion H; auto.
Qed.

Lemma dated_videos metric l r :
  filter (has_dated metric) (VArr l) = Ok r ->
  Forall (fun v => nullish v = false) l /\ r = dated metric l.
Proof. apply filterM_inv. apply has_dated_inv. Qed.

Lemma by_date_asc_key E a b :
  (exists z, Date_value E (get a "release_date") = Int z) ->
  (exists z, Date_value E (get b "release_date") = Int z) ->
  by_date_asc E a b
  = Int (time_of E (get a "release_date") - time_of E (get b "release_date")).
Proof.
  intros [x Hx] [y Hy]. unfold by_date_asc, by_date_desc, time_of.
  rewrite Hx, Hy. reflexivity.
Qed.

Lemma timeseries_inv E chartType message metric limit l chart :
  readable_dates E metric l ->
  timeseries E chartType message metric limit (VArr l) = Ok chart ->
  chart = error_object message
  \/ exists ordered,
       ordered ≡ₚ dated metric l
       /\ StronglySorted
            (fun a b => time_of E (get a "release_date")
                        <= time_of E (get b "release_date")) ordered
       /\ first_limit E limit ordered <> []
       /\ chart = chart_of chartType
                    (List.map (dated_point E metric) (first_limit E limit ordered))
                    [ ("metric", metric) ].
Proof.
  intros Hdates. unfold timeseries, bind.
  destruct (filter _ _) as [kept|m] eqn:Hkept; [|discriminate].
  apply dated_videos in Hkept as [Hdefined ->].
  rewrite sorted_copy_defined by (apply Forall_filter; exact Hdefined).
  destruct (first_limit _ _ _) as [|v sliced] eqn:Hsliced; intros H; inversion H.
  - left. reflexivity.
  - right. exists (sort_with (by_date_asc E) (dated metric l)).
    split; [apply sort_with_perm|]. split; [|split].
    + apply (sort_with_sorted _ (fun v => time_of E (get v "release_date"))
               (fun v => exists z, Date_value E (get v "release_date") = Int z));
        [intros a b; apply by_date_asc_key|exact Hdates].
    + rewrite Hsliced. discriminate.
    + rewrite Hsliced. reflexivity.
Qed.

(** X2.  A time series is never empty and runs in date order.  For a
    request that is not for a scatter plot, a histogram or a ranking, and
    videos whose release dates the engine can read, the executor returns
    an error object or a chart of type timeseries_line (when that was
    asked for) or timeseries (for every other type).  The points of the
    chart are the first videos, up to the limit, of the videos that carry
    the metric and a release date put in ascending date order, and there
    is at least one point. *)
Theorem timeseries_in_date_order E histogram args l chart :
  wants_series args = true ->
  readable_dates E (get args "metric") l ->
  executeJsonTool (with_plot E histogram) (VStr "plot_metric_vs_time") args (VArr l)
  = Ok chart ->
  let metric := get args "metric" in
  is_error chart
  \/ exists ordered,
       ordered ≡ₚ dated metric l
       /\ StronglySorted
            (fun a b => time_of E (get a "release_date")
                        <= time_of E (get b "release_date")) ordered
       /\ first_limit E (get args "limit") ordered <> []
       /\ chart = chart_of
                    (if is_str (requested args) "timeseries_line"
                     then "timeseries_line" else "timeseries")
                    (List.map (dated_point E metric)
                       (first_limit E (get args "limit") ordered))
                    [ ("metric", metric) ].
Proof.
  intros Hseries Hdates Hrun metric.
  destruct l as [|first rest].
  { left. inversion Hrun. eexists. reflexivity. }
  rewrite executeJsonTool_plot in Hrun. unfold plot_metric_vs_time, bind, sget in Hrun.
  destruct (nullish args); [discriminate|].
  unfold wants_series in Hseries. apply negb_true_iff in Hseries.
  apply orb_false_elim in Hseries as [Hseries Hranking].
  apply orb_false_elim in Hseries as [Hscatter Hhistogram].
  unfold requested in *. rewrite Hscatter, Hhistogram, Hranking in Hrun.
  destruct (is_str _ "timeseries_line");
    apply timeseries_inv in Hrun as [->|Hchart]; try exact Hdates;
    solve [left; eexists; reflexivity | right; exact Hchart].
Qed.

(** *** Every branch but the histogram *)

Lemma executeJsonTool_plot_inv E histogram args data chart :
  executeJsonTool (with_plot E histogram) (VStr "plot_metric_vs_time") args data
  = Ok chart ->
  is_error chart \/ plot_metric_vs_time E histogram args data = Ok chart.
Proof.
  unfold executeJsonTool. destruct (negb _).
  - intros H. inversion H. left. eexists. reflexivity.
  - intros H. right. exact H.
Qed.

Lemma timeseries_points E chartType message metric limit data chart :
  timeseries E chartType message metric limit data = Ok chart ->
  chart = error_object message
  \/ exists points,
       points <> [] /\ chart = chart_of chartType points [ ("metric", metric) ].
Proof.
  unfold timeseries, bind.
  destruct (filter _ _) as [kept|m]; [|discriminate].
  destruct (sorted_copy _ _) as [validVideos|m]; [|discriminate].
  destruct (first_limit _ _ _) as [|v sliced]; intros H; inversion H.
  - left. reflexivity.
  - right. eexists. split; [|reflexivity]. discriminate.
Qed.

(** The shapes a result can have, branch by branch. *)
Lemma plot_inv E histogram args data chart :
  is_str (requested args) "histogram" = false ->
  plot_metric_vs_time E histogram args data = Ok chart ->
  is_error chart
  \/ exists points,
       (is_str (requested args) "scatter" = true
        /\ exists yField,
             chart = chart_of "scatter" points
                       [ ("metric", get args "metric"); ("yMetric", yField) ])
       \/ (is_str (requested args) "scatter" = false
           /\ is_str (requested args) "ranking" = true
           /\ chart = chart_of "ranking" points [ ("metric", get args "metric") ])
       \/ (is_str (requested args) "scatter" = false
           /\ is_str (requested args) "ranking" = false
           /\ points <> []
           /\ chart = chart_of
                        (if is_str (requested args) "timeseries_line"
                         then "timeseries_line" else "timeseries")
                        points [ ("metric", get args "metric") ]).
Proof.
  intros Hhistogram. unfold plot_metric_vs_time, bind, sget.
  destruct (nullish args); [discriminate|]. fold (requested args).
  rewrite Hhistogram.
  destruct (is_str (requested args) "scatter") eqn:Hscatter.
  { unfold scatter, bind. destruct (filter _ _) as [[|v valid]|m]; intros H; inversion H.
    - left. eexists. reflexivity.
    - right. eexists. left. split; [reflexivity|]. eexists. reflexivity. }
  destruct (is_str (requested args) "ranking") eqn:Hranking.
  { unfold ranking, bind. destruct (filter _ _) as [[|v valid]|m]; [| |discriminate].
    - intros H. inversion H. left. eexists. reflexivity.
    - destruct (sorted_copy _ _) as [sorted|m]; [|discriminate].
      destruct (mapM _ _) as [bars|m]; intros H; inversion H.
      right. exists bars. right. left. auto. }
  destruct (is_str (requested args) "timeseries_line");
    intros H; apply timeseries_points in H as [->|(points & Hne & ->)];
    solve [left; eexists; reflexivity
          | right; exists points; right; right; auto].
Qed.






(** X4.  What the tool loop does with a plot result.  An error object is
    sent back to the model as it is and is not added to the charts.  A
    chart is added to the charts, and the model is told only its type and
    the number of its points. *)
Theorem plot_reply_to_model E histogram args data chart name c :
  is_str (requested args) "histogram" = false ->
  executeJsonTool (with_plot E histogram) (VStr "plot_metric_vs_time") args data
  = Ok chart ->
  (is_error chart
   /\ Gemini.resultForGemini chart = chart
   /\ Gemini.charts (Gemini.collect name args chart c) = Gemini.charts c)
  \/ exists points,
       get chart "data" = VArr points
       /\ Gemini.resultForGemini chart
          = Gemini.chart_payload (get chart "_chartType")
              (VNum (Int (Z.of_nat (List.length points))))
       /\ Gemini.charts (Gemini.collect name args chart c)
          = (Gemini.charts c ++ [chart])%list.
Proof.
  intros Hhistogram Hrun.
  assert (Herr : is_error chart ->
                 is_error chart
                 /\ Gemini.resultForGemini chart = chart
                 /\ Gemini.charts (Gemini.collect name args chart c) = Gemini.charts c).
  { intros [message ->]. split; [eexists; reflexivity|]. split; reflexivity. }
  apply executeJsonTool_plot_inv in Hrun as [Herror|Hrun]; [left; auto|].
  apply plot_inv in Hrun as [Herror|(points & Hcase)];
    [left; auto|right; exists points|exact Hhistogram].
  destruct Hcase as [(Hs & yField & ->)|[(Hs & Hr & ->)|(Hs & Hr & Hne & ->)]].
  - split; [reflexivity|]. split; reflexivity.
  - split; [reflexivity|]. split; reflexivity.
  - destruct (is_str _ "timeseries_line"); (split; [reflexivity|]); split; reflexivity.
Qed.

(** *** When the case throws *)

















(** *** The theorems on the sample library *)

Lemma ranking_shows_the_top_witness :
  numeric Fixtures.by_year (VStr "view_count") Fixtures.library
  /\ ((with_metric (VStr "view_count") Fixtures.library = []
       /\ is_error Fixtures.ranking_chart)
      \/ (with_metric (VStr "view_count") Fixtures.library <> []
          /\ ~ is_error Fixtures.ranking_chart)
         /\ exists ranked bars,
           ranked ≡ₚ with_metric (VStr "view_count") Fixtures.library
           /\ StronglySorted
                (fun a b => metric_value Fixtures.by_year (VStr "view_count") b
                            <= metric_value Fixtures.by_year (VStr "view_count") a)
                ranked
           /\ Fixtures.ranking_chart
              = VObj [ ("_chartType", VStr "ranking"); ("data", VArr bars);
                       ("metric", VStr "view_count") ]
           /\ Forall2 (fun v b =>
                         get b "value"
                         = VNum (Int (metric_value Fixtures.by_year
                                        (VStr "view_count") v))
                         /\ get b "fullTitle" = or_else (get v "title") (VStr ""))
                      (firstn 15 ranked) bars).
Proof.
  assert (H : numeric Fixtures.by_year (VStr "view_count") Fixtures.library)
    by (repeat constructor; eexists; reflexivity).
  split; [exact H|].
  apply (ranking_shows_the_top Fixtures.by_year Fixtures.no_histogram
           Fixtures.ranking_args Fixtures.library 15 Fixtures.ranking_chart).
  - reflexivity.
  - exact H.
  - left. split; reflexivity.
  - reflexivity.
Defined.

Lemma timeseries_in_date_order_witness :
  readable_dates Fixtures.by_year (VStr "view_count") Fixtures.library
  /\ (is_error Fixtures.series_chart
      \/ exists ordered,
           ordered ≡ₚ dated (VStr "view_count") Fixtures.library
           /\ StronglySorted
                (fun a b => time_of Fixtures.by_year (get a "release_date")
                            <= time_of Fixtures.by_year (get b "release_date"))
                ordered
           /\ first_limit Fixtures.by_year VUndef ordered <> []
           /\ Fixtures.series_chart
              = chart_of "timeseries"
                  (List.map (dated_point Fixtures.by_year (VStr "view_count"))
                     (first_limit Fixtures.by_year VUndef ordered))
                  [ ("metric", VStr "view_count") ]).
Proof.
  assert (H : readable_dates Fixtures.by_year (VStr "view_count") Fixtures.library)
    by (repeat constructor; eexists; reflexivity).
  split; [exact H|].
  apply (timeseries_in_date_order Fixtures.by_year Fixtures.no_histogram
           Fixtures.series_args Fixtures.library Fixtures.series_chart).
  - reflexivity.
  - exact H.
  - reflexivity.
Defined.


Lemma plot_reply_to_model_witness :
  (is_error Fixtures.series_chart
   /\ Gemini.resultForGemini Fixtures.series_chart = Fixtures.series_chart
   /\ Gemini.charts
        (Gemini.collect (VStr "plot_metric_vs_time") Fixtures.series_args
           Fixtures.series_chart
           {| Gemini.charts := []; Gemini.toolCalls := []; Gemini.videoCards := [] |})
      = [])
  \/ exists points,
       get Fixtures.series_chart "data" = VArr points
       /\ Gemini.resultForGemini Fixtures.series_chart
          = Gemini.chart_payload (get Fixtures.series_chart "_chartType")
              (VNum (Int (Z.of_nat (List.length points))))
       /\ Gemini.charts
            (Gemini.collect (VStr "plot_metric_vs_time") Fixtures.series_args
               Fixtures.series_chart
               {| Gemini.charts := []; Gemini.toolCalls := [];
                  Gemini.videoCards := [] |})
          = ([] ++ [Fixtures.series_chart])%list.
Proof.
  apply (plot_reply_to_model Fixtures.by_year Fixtures.no_histogram
           Fixtures.series_args (VArr Fixtures.library) Fixtures.series_chart).
  - reflexivity.
  - reflexivity.
Defined.


(** A title that is a number stops the ranking, and only the ranking. *)
Example numeric_title_stops_the_ranking :
  let data := VArr [ VObj [ ("title", VNum (Int 7)); ("view_count", VNum (Int 1));
                            ("release_date", VStr "2020-01-01") ] ] in
  executeJsonTool (with_plot Fixtures.by_year Fixtures.no_histogram)
    (VStr "plot_metric_vs_time") Fixtures.ranking_args data = TypeError
  /\ exists chart,
       executeJsonTool (with_plot Fixtures.by_year Fixtures.no_histogram)
         (VStr "plot_metric_vs_time") Fixtures.series_args data = Ok chart.
Proof. split; [reflexivity|eexists; reflexivity]. Qed.

(** A scatter plot cut by a negative limit has no points: nothing is
    drawn for it, and the model is told a chart was generated. *)
Example scatter_without_points :
  let args := VObj [ ("metric", VStr "view_count"); ("chart_type", VStr "scatter");
                     ("y_metric", VStr "title"); ("limit", VNum (Int (-5))) ] in
  exists chart,
    executeJsonTool (with_plot Fixtures.by_year Fixtures.no_histogram)
      (VStr "plot_metric_vs_time") args (VArr Fixtures.library) = Ok chart
    /\ View.draw chart = Ok (View.Series None)
    /\ Gemini.resultForGemini chart
       = Gemini.chart_payload (VStr "scatter") (VNum (Int 0)).
Proof. eexists. split; [reflexivity|]. split; reflexivity. Qed.

(** A scatter plot of the views against themselves, with its points; and
    the errors of a metric no video carries, whose texts name the metric
    between double quotes. *)
Example scatter_and_errors :
  let run := fun args =>
    executeJsonTool (with_plot Fixtures.by_year Fixtures.no_histogram)
      (VStr "plot_metric_vs_time") (VObj args) (VArr Fixtures.library) in
  let q := String "034" "" in
  run [ ("metric", VStr "view_count"); ("chart_type", VStr "scatter");
        ("y_metric", VStr "view_count") ]
  = Ok (VObj [ ("_chartType", VStr "scatter");
               ("data", VArr [ VObj [ ("x", VNum (Int 10)); ("y", VNum (Int 10));
                                      ("label", VStr "Black holes") ];
                               VObj [ ("x", VNum (Int 25)); ("y", VNum (Int 25));
                                      ("label", VStr "Climate") ] ]);
               ("metric", VStr "view_count");
               ("yMetric", VStr "view_count") ])
  /\ run [ ("metric", VStr "likes"); ("chart_type", VStr "scatter") ]
     = Ok (VObj [ ("error", VStr ("No videos with both " ++ q ++ "likes" ++ q
                                    ++ " and " ++ q ++ "view_count" ++ q ++ ".")) ])
  /\ run [ ("metric", VStr "likes"); ("chart_type", VStr "ranking") ]
     = Ok (VObj [ ("error", VStr ("No videos with " ++ q ++ "likes" ++ q ++ " data.")) ])
  /\ run [ ("metric", VStr "likes"); ("chart_type", VStr "timeseries_line") ]
     = Ok (VObj [ ("error", VStr ("No videos with both " ++ q ++ "likes" ++ q
                                    ++ " and " ++ q ++ "release_date" ++ q ++ ".")) ])
  /\ run [ ("metric", VStr "likes") ]
     = Ok (VObj [ ("error", VStr ("No videos with both " ++ q ++ "likes" ++ q
                                    ++ " and " ++ q ++ "release_date" ++ q
                                    ++ ". Try a different metric.")) ]).
Proof. vm_compute. repeat split; reflexivity. Qed.

(** A title of more than 38 characters is cut in the label of its bar,
    and kept whole beside it. *)
Example long_title_is_cut :
  let title := "The quick brown fox jumps over the lazy dog" in
  executeJsonTool (with_plot Fixtures.by_year Fixtures.no_histogram)
    (VStr "plot_metric_vs_time") Fixtures.ranking_args
    (VArr [ Fixtures.release "a" title 10 "2021-03-01" ])
  = Ok (VObj [ ("_chartType", VStr "ranking");
               ("data", VArr [ VObj [ ("label",
                                       VStr "The quick brown fox jumps over the laz…");
                                      ("value", VNum (Int 10));
                                      ("fullTitle", VStr title) ] ]);
               ("metric", VStr "view_count") ]).
Proof. vm_compute. reflexivity. Qed.

End PlotFacts.

(* ===================================================================== *)
(** ** Properties of the download form and its reader *)
(* ===================================================================== *)

Module DownloadFacts.
Import JS Download.

Local Arguments String.append !_ _ / : simpl nomatch.

(** *** The form *)

(** [parseInt] reads a whole number or nothing. *)
Lemma parseInt_whole v : Lang.parseInt v = NaN \/ exists z, Lang.parseInt v = Int z.
Proof.
  assert (Hread : forall r, Lang.number_read r = NaN \/ exists z, Lang.number_read r = Int z)
    by (intros [z|]; simpl; eauto).
  assert (Hunsigned : forall s, Lang.unsigned s = NaN \/ exists z, Lang.unsigned s = Int z).
  { intros s. unfold Lang.unsigned.
    destruct (Str.strip_prefix "0x" s); [apply Hread|].
    destruct (Str.strip_prefix "0X" s); apply Hread. }
  assert (Hnegate : forall s, Lang.negate (Lang.unsigned s) = NaN
                              \/ exists z, Lang.negate (Lang.unsigned s) = Int z).
  { intros s. destruct (Hunsigned s) as [->|[z ->]]; simpl; eauto. }
  unfold Lang.parseInt.
  destruct (drop_spaces (ToString v)) as [|c s]; [apply Hunsigned|].
  repeat match goal with
         | |- context [match ?x with _ => _ end] => destruct x
         end; solve [apply Hunsigned | apply Hnegate].
Qed.

Lemma onChange_bounds typed : exists n, onChange typed = Int n /\ 1 <= n <= 100.
Proof.
  unfold onChange.
  assert (Hor : exists z, num_or (Lang.parseInt (VStr typed)) 10 = Int z).
  { destruct (parseInt_whole (VStr typed)) as [->|[z ->]]; simpl; [eauto|].
    destruct (z =? 0)%Z; eauto. }
  destruct Hor as [z ->].
  rewrite IngestFacts.Math_max_Int, IngestFacts.Math_min_Int.
  eexists. split; [reflexivity|lia].
Qed.

Lemma maxVideos_after_bounds edits :
  exists n, maxVideos_after edits = Int n /\ 1 <= n <= 100.
Proof.
  unfold maxVideos_after. destruct edits as [|typed edits] using rev_ind; simpl;
    [exists 10; split; [reflexivity|lia]|].
  rewrite fold_left_app. simpl. apply onChange_bounds.
Qed.

(** X6.  What the form can ask for.  Whatever is typed into the number
    input, [maxVideos] stays a whole number within 1 and 100; a request
    is posted only with a URL that is not blank; so the endpoint never
    answers such a request with 400, and the limit it computes is the
    smaller of the number of videos found and [maxVideos], which is the
    limit clamped to 1..100 although the endpoint itself has no upper
    bound. *)
Theorem form_request_is_served E edits f b files0 available :
  maxVideos f = maxVideos_after edits ->
  body f = Some b ->
  exists n,
    maxVideos f = Int n
    /\ 1 <= n <= 100
    /\ (exists w, Ingest.handler E b files0 = Ingest.EventStream w)
    /\ Ingest.limit E available (Ingest.maxVideos_of b)
       = Int (Z.min (Z.of_nat available) n)
    /\ Ingest.limit E available (Ingest.maxVideos_of b)
       = Ingest.spec_limit available (Int n).
Proof.
  intros Hstate Hbody.
  destruct (maxVideos_after_bounds edits) as (n & Hn & Hbounds).
  rewrite <- Hstate in Hn.
  exists n. split; [exact Hn|]. split; [exact Hbounds|].
  unfold body in Hbody.
  destruct (truthy (VStr (Str.trim (url f)))) eqn:Hurl; [|discriminate].
  destruct (downloading f); [discriminate|]. simpl in Hbody.
  inversion Hbody; subst b. clear Hbody. rewrite Hn.
  split; [|split].
  - unfold Ingest.handler.
    change (get (VObj [ ("url", VStr (Str.trim (url f)));
                        ("maxVideos", VNum (Int n)) ]) "url")
      with (VStr (Str.trim (url f))).
    rewrite Hurl. eexists. reflexivity.
  - unfold Ingest.limit.
    change (Ingest.Number E (Ingest.maxVideos_of _)) with (Int n).
    unfold num_or. destruct (Z.eqb_spec n 0); [lia|].
    rewrite IngestFacts.Math_max_Int, IngestFacts.Math_min_Int. f_equal. lia.
  - unfold Ingest.limit, Ingest.spec_limit, Ingest.clamp.
    change (Ingest.Number E (Ingest.maxVideos_of _)) with (Int n).
    unfold num_or. destruct (Z.eqb_spec n 0); [lia|].
    repeat rewrite ?IngestFacts.Math_max_Int, ?IngestFacts.Math_min_Int.
    f_equal. lia.
Qed.

(** *** Lines and chunks *)

Lemma append_assoc (a b c : string) : (a ++ b) ++ c = a ++ (b ++ c).
Proof. induction a as [|x a IH]; simpl; [reflexivity|]. rewrite IH. reflexivity. Qed.

Lemma append_nil_r (a : string) : a ++ "" = a.
Proof. induction a as [|x a IH]; simpl; [reflexivity|]. rewrite IH. reflexivity. Qed.

Lemma concat_cons x xs : String.concat "" (x :: xs) = x ++ String.concat "" xs.
Proof.
  destruct xs as [|y xs]; [symmetry; apply append_nil_r|reflexivity].
Qed.

Lemma split_newline_nonempty s : Lang.split_newline s <> [].
Proof.
  destruct s as [|c s]; simpl; [discriminate|].
  destruct (Ascii.eqb c "010"); [discriminate|].
  destruct (Lang.split_newline s); discriminate.
Qed.

Lemma last_app_nonempty {A} (l1 l2 : list A) d :
  l2 <> [] -> List.last (l1 ++ l2) d = List.last l2 d.
Proof.
  intros Hne. induction l1 as [|x l1 IH]; [reflexivity|].
  simpl. destruct (l1 ++ l2)%list eqn:Happ; [|exact IH].
  apply app_eq_nil in Happ as [_ ->]. contradiction.
Qed.

(** Splitting a text in two pieces and then at the line feeds: the last
    part of the first piece continues into the second. *)
Lemma split_newline_app a b :
  Lang.split_newline (a ++ b)
  = (removelast (Lang.split_newline a)
       ++ Lang.split_newline (List.last (Lang.split_newline a) "" ++ b))%list.
Proof.
  induction a as [|c a IH]; [reflexivity|].
  simpl. destruct (Ascii.eqb c "010") eqn:Hc.
  - rewrite IH. pose proof (split_newline_nonempty a) as Hne.
    destruct (Lang.split_newline a) as [|t ts]; [contradiction|]. reflexivity.
  - rewrite IH. pose proof (split_newline_nonempty a) as Hne.
    destruct (Lang.split_newline a) as [|t [|t2 ts]]; [contradiction| |reflexivity].
    simpl. rewrite Hc. reflexivity.
Qed.

Lemma on_chunk_app C r x y :
  on_chunk C (on_chunk C r x) y = on_chunk C r (x ++ y).
Proof.
  unfold on_chunk. cbn [buffer shown].
  rewrite <- (append_assoc (buffer r) x y), (split_newline_app (buffer r ++ x) y).
  pose proof (split_newline_nonempty
                (List.last (Lang.split_newline (buffer r ++ x)) "" ++ y)) as Hne.
  rewrite last_app_nonempty by exact Hne.
  rewrite removelast_app by exact Hne.
  rewrite fold_left_app. reflexivity.
Qed.

Lemma read_from C chunks : forall r,
  on_chunk C r "" = r ->
  fold_left (on_chunk C) chunks r = on_chunk C r (String.concat "" chunks).
Proof.
  induction chunks as [|x chunks IH]; intros r Hr; [symmetry; exact Hr|].
  cbn [fold_left]. rewrite IH by (rewrite on_chunk_app, append_nil_r; reflexivity).
  rewrite on_chunk_app.
  destruct chunks as [|y chunks]; [|reflexivity].
  simpl. rewrite append_nil_r. reflexivity.
Qed.

Lemma read_as_one_chunk C chunks :
  read C chunks
  = on_chunk C {| buffer := ""; shown := cleared |} (String.concat "" chunks).
Proof. unfold read. apply read_from. reflexivity. Qed.

(** X7.  The reader does not depend on how the stream is cut.  Whatever
    the chunks the response body arrives in, the view and the pending
    buffer after the last chunk are those of reading the whole text as
    one chunk. *)
Theorem read_whatever_the_chunks C chunks :
  read C chunks = read C [ String.concat "" chunks ].
Proof.
  unfold read. rewrite read_from by reflexivity. reflexivity.
Qed.

(** *** The stream of the endpoint, read by the component *)

(** A run ends with its one terminal event, after progress events. *)
Lemma handler_ends E body files0 w :
  Ingest.handler E body files0 = Ingest.EventStream w ->
  exists ps t,
    Ingest.emitted w = (ps ++ [t])%list
    /\ Forall (fun e => Ingest.is_terminal e = false) ps
    /\ Ingest.is_terminal t = true.
Proof.
  unfold Ingest.handler. destruct (truthy (get body "url")); simpl; [|discriminate].
  intros H. inversion H as [Hw]. clear H. unfold try_catch.
  rewrite IngestFacts.run_stages.
  destruct (Ingest.locate E (get body "url")) as [videoRenderers|m].
  - set (limit := Ingest.limit E (List.length videoRenderers) (Ingest.maxVideos_of body)).
    set (w0 := {| Ingest.emitted := []; Ingest.files := files0 |}).
    destruct (IngestFacts.items_emitted E limit videoRenderers (Ingest.turns limit)
                0 [] w0) as (cs & Hcs & _).
    assert (Hps : Forall (fun e => Ingest.is_terminal e = false)
                    (List.map (Ingest.progress_at limit) cs)).
    { apply List.Forall_forall. intros e He. apply in_map_iff in He as (c & <- & _).
      reflexivity. }
    unfold sbind.
    destruct (Ingest.items E limit videoRenderers (seq 0 (Ingest.turns limit)) [] w0)
      as [[videos|m] w1]; simpl in Hcs; simpl; rewrite Hcs; eauto.
  - exists [], (Ingest.Error m). simpl. auto.
Qed.

Lemma split_newline_line l rest :
  no_newline l = true ->
  Lang.split_newline (l ++ newline ++ rest) = l :: Lang.split_newline rest.
Proof.
  induction l as [|c l IH]; simpl; [reflexivity|].
  destruct (Ascii.eqb c "010"); simpl; [discriminate|].
  intros Hl. change (String "010" rest) with (newline ++ rest).
  rewrite (IH Hl). reflexivity.
Qed.

Lemma no_newline_app a b :
  no_newline a = true -> no_newline b = true -> no_newline (a ++ b) = true.
Proof.
  induction a as [|c a IH]; simpl; [auto|].
  destruct (Ascii.eqb c "010"); simpl; [discriminate|]. exact IH.
Qed.

(** The lines of a stream: for each event its data line and an empty
    line; nothing is left after the last line feed. *)
Lemma split_newline_stream stringify events :
  Forall (fun e => no_newline (stringify (payload e)) = true) events ->
  Lang.split_newline (stream stringify events)
  = (List.concat (List.map (fun e => [ ("data: " ++ stringify (payload e))%string; "" ])
                          events)
       ++ [ "" ])%list.
Proof.
  unfold stream.
  induction 1 as [|e events He _ IH]; [reflexivity|].
  cbn [List.map List.concat].
  replace (String.concat "" (frame stringify e :: List.map (frame stringify) events))
    with (("data: " ++ stringify (payload e)) ++ newline ++ newline
            ++ String.concat "" (List.map (frame stringify) events)).
  - rewrite split_newline_line by (apply no_newline_app; [reflexivity|exact He]).
    change (newline ++ String.concat "" (List.map (frame stringify) events))
      with ("" ++ newline ++ String.concat "" (List.map (frame stringify) events)).
    rewrite (split_newline_line "" _ eq_refl), IH. reflexivity.
  - rewrite concat_cons. unfold frame. rewrite !append_assoc. reflexivity.
Qed.

(** What a data line does to the view when the reader reads it back. *)
Lemma on_line_carried C stringify e v :
  JSON_parse C (stringify (payload e)) = Some (Lang.json_image (payload e)) ->
  snd (on_line C ("data: " ++ stringify (payload e)) v)
  = match e with
    | Ingest.Progress current total pct =>
        {| progress := progress_of (VNum (Int current)) (Lang.json_image (VNum total))
                                   (Lang.json_image (VNum pct));
           videos := videos v; error := error v |}
    | Ingest.Done vs =>
        {| progress := progress_of (VNum (Int (Z.of_nat (List.length vs))))
                                   (VNum (Int (Z.of_nat (List.length vs))))
                                   (VNum (Int 100));
           videos := Lang.json_image (VArr (List.map record_of vs));
           error := error v |}
    | Ingest.Error message =>
        {| progress := progress v; videos := videos v; error := VStr message |}
    end.
Proof.
  intros Hparse. unfold on_line.
  replace (Str.strip_prefix "data: " ("data: " ++ stringify (payload e)))
    with (Some (stringify (payload e)))
    by (symmetry; apply IngestFacts.strip_prefix_spec; reflexivity).
  rewrite Hparse. destruct e as [current total pct|vs|message].
  - destruct total, pct; reflexivity.
  - unfold try_catch, sbind, lift, on_event. cbn [payload Lang.json_image omap].
    simpl. rewrite !length_map. reflexivity.
  - reflexivity.
Qed.

Lemma empty_line C v : snd (on_line C "" v) = v.
Proof. reflexivity. Qed.

Lemma read_stream C stringify events : forall v,
  carried C stringify events ->
  fold_left (fun v line => snd (on_line C line v))
    (List.concat (List.map (fun e => [ ("data: " ++ stringify (payload e))%string; "" ])
                          events))
    v
  = fold_left (fun v e => snd (on_line C ("data: " ++ stringify (payload e)) v))
      events v.
Proof.
  induction events as [|e events IH]; intros v Hc; [reflexivity|].
  inversion Hc; subst. cbn [List.map List.concat fold_left app].
  rewrite empty_line. apply IH. assumption.
Qed.

Lemma progress_keeps C stringify ps : forall v,
  carried C stringify ps ->
  Forall (fun e => Ingest.is_terminal e = false) ps ->
  let v' := fold_left (fun v e => snd (on_line C ("data: " ++ stringify (payload e)) v))
              ps v in
  videos v' = videos v /\ error v' = error v.
Proof.
  induction ps as [|e ps IH]; intros v Hc Hps; [split; reflexivity|].
  inversion Hc as [|? ? [_ Hparse] Hc']; subst. inversion Hps as [|? ? He Hps']; subst.
  cbn [fold_left].
  destruct (IH (snd (on_line C ("data: " ++ stringify (payload e)) v)) Hc' Hps')
    as [Hv He'].
  cbv zeta. rewrite Hv, He'. rewrite (on_line_carried _ _ _ _ Hparse).
  destruct e; try discriminate. split; reflexivity.
Qed.

(** X8.  The component shows what the endpoint sent.  When the
    serialiser writes each event of a run on one line and the browser
    reads that line back, then however the response is cut into chunks,
    at the end of the stream nothing is left in the buffer, and the view
    is that of the terminal event of the run: after done, the videos as
    they were serialised, with the progress at their number out of their
    number and 100 percent, and no error; after error, its message and no
    videos. *)
Theorem client_shows_what_the_server_sent E C stringify body files0 w chunks :
  Ingest.handler E body files0 = Ingest.EventStream w ->
  carried C stringify (Ingest.emitted w) ->
  String.concat "" chunks = stream stringify (Ingest.emitted w) ->
  buffer (read C chunks) = ""
  /\ exists ps t,
       Ingest.emitted w = (ps ++ [t])%list
       /\ final_view t (shown (read C chunks)).
Proof.
  intros Hrun Hc Hchunks.
  rewrite read_as_one_chunk, Hchunks.
  unfold on_chunk. cbn [buffer shown]. change ("" ++ ?s) with s.
  rewrite split_newline_stream
    by (eapply Forall_impl; [exact Hc|]; intros e [He _]; exact He).
  rewrite last_last, removelast_last. split; [reflexivity|].
  rewrite (read_stream _ _ _ _ Hc).
  destruct (handler_ends _ _ _ _ Hrun) as (ps & t & Hw & Hps & Ht).
  exists ps, t. split; [exact Hw|].
  rewrite Hw in Hc |- *. apply Forall_app in Hc as [Hcps Hct].
  rewrite fold_left_app. cbn [fold_left].
  destruct (progress_keeps C stringify ps cleared Hcps Hps) as [Hv He].
  inversion Hct as [|? ? [_ Hparse] _]; subst.
  rewrite (on_line_carried _ _ _ _ Hparse).
  destruct t as [current total pct|vs|message]; [discriminate| |];
    cbn [final_view videos progress error].
  - rewrite He. auto.
  - rewrite Hv. auto.
Qed.

(** *** The theorems on the demo request *)

Lemma form_request_is_served_witness :
  exists n,
    Download.maxVideos Fixtures.demo_form = Int n
    /\ 1 <= n <= 100
    /\ (exists w,
          Ingest.handler (Sample.serving Sample.three_entries) Fixtures.demo_body ∅
          = Ingest.EventStream w)
    /\ Ingest.limit (Sample.serving Sample.three_entries) 3
         (Ingest.maxVideos_of Fixtures.demo_body)
       = Int (Z.min (Z.of_nat 3) n)
    /\ Ingest.limit (Sample.serving Sample.three_entries) 3
         (Ingest.maxVideos_of Fixtures.demo_body)
       = Ingest.spec_limit 3 (Int n).
Proof.
  apply (form_request_is_served (Sample.serving Sample.three_entries)
           [ "5"; "500" ] Fixtures.demo_form Fixtures.demo_body ∅ 3).
  - reflexivity.
  - reflexivity.
Defined.

Lemma client_shows_what_the_server_sent_witness :
  buffer (read (Fixtures.reading_back Sample.render (Ingest.emitted Sample.demo_world))
               Fixtures.demo_chunks) = ""
  /\ exists ps t,
       Ingest.emitted Sample.demo_world = (ps ++ [t])%list
       /\ final_view t
            (shown (read (Fixtures.reading_back Sample.render
                            (Ingest.emitted Sample.demo_world))
                         Fixtures.demo_chunks)).
Proof.
  apply (client_shows_what_the_server_sent (Sample.serving Sample.three_entries)
           (Fixtures.reading_back Sample.render (Ingest.emitted Sample.demo_world))
           Sample.render Sample.demo_request ∅ Sample.demo_world Fixtures.demo_chunks).
  - vm_compute. reflexivity.
  - unfold carried.
    let l := eval vm_compute in (Ingest.emitted Sample.demo_world) in
    change (Ingest.emitted Sample.demo_world) with l.
    repeat (constructor; [split; vm_compute; reflexivity|]). constructor.
  - vm_compute. reflexivity.
Defined.

(** The demo stream ends with done for two videos: the view shows them
    and full progress. *)
Example demo_view :
  let v := shown (read (Fixtures.reading_back Sample.render
                          (Ingest.emitted Sample.demo_world))
                       Fixtures.demo_chunks) in
  progress v = progress_of (VNum (Int 2)) (VNum (Int 2)) (VNum (Int 100))
  /\ oget (videos v) "length" = VNum (Int 2)
  /\ error v = VStr "".
Proof. vm_compute. repeat split; reflexivity. Qed.

(** A done event without videos clears the list and leaves the progress
    where it was: the read of [length] throws after [setVideos] ran. *)
Example done_without_videos :
  snd (on_event (VObj [ ("type", VStr "done") ])
         {| progress := progress_of (VNum (Int 1)) (VNum (Int 3)) (VNum (Int 33));
            videos := VArr [ VStr "kept" ]; error := VStr "" |})
  = {| progress := progress_of (VNum (Int 1)) (VNum (Int 3)) (VNum (Int 33));
       videos := VUndef; error := VStr "" |}.
Proof. reflexivity. Qed.

(** The first frame of the demo stream, as the sample serialiser writes
    it. *)
Example first_frame :
  let q := String "034" "" in
  Str.starts_with
    ("data: {" ++ q ++ "type" ++ q ++ ":" ++ q ++ "progress" ++ q ++ ","
       ++ q ++ "current" ++ q ++ ":1," ++ q ++ "total" ++ q ++ ":3,"
       ++ q ++ "percent" ++ q ++ ":33}" ++ newline ++ newline)
    Fixtures.demo_stream = true.
Proof. vm_compute. reflexivity. Qed.

End DownloadFacts.

(* ===================================================================== *)
(** ** Properties of the chat's own tool calls *)
(* ===================================================================== *)

Module ChatFacts.
Import JS JsonTools Regex Chat.

(** *** The matcher *)





(** *** detectPlayVideoArgs *)


(** *** The play_video fallback *)








(** X10.  The executor understands what the detector says.  A criteria
    the detector puts in the arguments is never empty and matches one of
    the executor's patterns, and the executor resolves it by the sort the
    criteria names (most viewed by descending view count, latest by
    descending date, and so on), never by its default branch; an ordinal
    the detector puts in the arguments is 1, 2 or 3, and the executor
    takes the video at that position, or the first video when the list
    is shorter or the entry is falsy. *)
Theorem detected_arguments_are_understood E text args :
  detectPlayVideoArgs text = Ok args ->
  (forall c, get args "criteria" = VStr c ->
     c <> "" /\ recognized (lower c) = true
     /\ exists compare,
          In (c, compare) (criteria_order E)
          /\ forall data,
               select_video E (get args "query") (get args "ordinal")
                 (get args "criteria") data
               = first_sorted compare data)
  /\ (forall z, get args "ordinal" = VNum (Int z) ->
        (z = 1 \/ z = 2 \/ z = 3)
        /\ forall l,
             select_video E (get args "query") (get args "ordinal")
               (get args "criteria") (VArr l)
             = Ok (or_else (default VUndef (l !! Z.to_nat (z - 1)))
                           (default VUndef (l !! 0%nat)))).
Proof.
  unfold detectPlayVideoArgs.
  repeat match goal with
         | |- context [if ?b then Ok (only "criteria" (VStr ?k)) else _] =>
             destruct b;
             [intros H; inversion H; subst args; clear H; split;
              [intros c Hc; inversion Hc; subst c; clear Hc;
               split; [discriminate|]; split; [vm_compute; reflexivity|];
               eexists; split; [|intros data; reflexivity];
               unfold criteria_order; simpl; tauto
              |intros z Hz; discriminate]|]
         | |- context [if ?b then Ok (only "ordinal" _) else _] =>
             destruct b;
             [intros H; inversion H; subst args; clear H; split;
              [intros c Hc; discriminate
              |intros z Hz; inversion Hz; subst z; clear Hz;
               split; [tauto|]; intros l; reflexivity]|]
         end.
  destruct (exec true query_pattern text) as [[rest [q|]]|]; intros H; inversion H;
    split; intros ? Hx; discriminate.
Qed.

(** *** The query *)

Lemma run_to_the_end cs : forall s prev cap,
  run cs prev s cap
    (fun p s' c => matches false EndOfInput p s' c (fun _ s'' _ => Some s''))
  = if all_in cs s then Some "" else None.
Proof.
  induction s as [|x s IH]; intros prev cap; [reflexivity|].
  cbn [run all_in]. destruct (in_set cs x) eqn:Hx.
  - rewrite IH. destruct s as [|y s]; [reflexivity|].
    cbn [andb]. destruct (all_in cs (String y s)); reflexivity.
  - destruct s; reflexivity.
Qed.

Lemma matches_closing_marks prev s :
  matches false closing_marks prev s None (fun _ s' _ => Some s')
  = if all_in (OneOf "?!.") s then Some "" else None.
Proof. apply run_to_the_end. Qed.

Lemma all_in_head cs x s : all_in cs (String x s) = true -> in_set cs x = true.
Proof.
  cbn [all_in]. destruct s; [auto|]. intros H. apply andb_prop in H. tauto.
Qed.

Lemma all_in_cons cs x s :
  in_set cs x = true -> s = "" \/ all_in cs s = true -> all_in cs (String x s) = true.
Proof.
  intros Hx [->|Hs]; cbn [all_in]; [exact Hx|].
  destruct s; [exact Hx|]. rewrite Hx, Hs. reflexivity.
Qed.

Lemma remove_marks_empty : forall s prev,
  remove_from false closing_marks prev s = "" ->
  s = "" \/ all_in (OneOf "?!.") s = true.
Proof.
  intros [|x s] prev; [auto|]. cbn [remove_from].
  rewrite matches_closing_marks.
  destruct (all_in (OneOf "?!.") (String x s)); [auto|discriminate].
Qed.

(** What is left after the closing marks are removed does not end with
    one. *)
Lemma remove_marks_last : forall s prev c,
  last_char (remove_from false closing_marks prev s) = Some c ->
  mem c "?!." = false.
Proof.
  induction s as [|x s IH]; intros prev c.
  - cbn [remove_from]. rewrite matches_closing_marks. discriminate.
  - cbn [remove_from]. rewrite matches_closing_marks.
    destruct (all_in (OneOf "?!.") (String x s)) eqn:Hall; [discriminate|].
    cbn [last_char].
    destruct (remove_from false closing_marks (Some x) s) as [|y r] eqn:Hr.
    + intros H. inversion H; subst c.
      destruct (mem x "?!.") eqn:Hx; [|reflexivity].
      rewrite (all_in_cons (OneOf "?!.") x s Hx (remove_marks_empty _ _ Hr)) in Hall.
      discriminate.
    + rewrite <- Hr. apply IH.
Qed.

(** It starts as the text started. *)
Lemma remove_marks_head s prev c r :
  remove_from false closing_marks prev s = String c r -> exists s', s = String c s'.
Proof.
  destruct s as [|x s]; cbn [remove_from]; rewrite matches_closing_marks.
  - discriminate.
  - destruct (all_in _ _); [discriminate|]. intros H. inversion H. eauto.
Qed.

Lemma drop_spaces_head s c r : drop_spaces s = String c r -> is_space c = false.
Proof.
  induction s as [|x s IH]; simpl; [discriminate|].
  destruct (is_space x) eqn:Hx; [exact IH|]. intros H. inversion H; subst. exact Hx.
Qed.

Lemma trim_head s c r : Str.trim s = String c r -> is_space c = false.
Proof.
  unfold Str.trim. destruct (drop_spaces s) as [|x t] eqn:Ht; simpl; [discriminate|].
  destruct (is_space x && _)%bool; [discriminate|].
  intros H. inversion H; subst. eapply drop_spaces_head. exact Ht.
Qed.

(** X11.  What the detector hands over as a query.  The query is the
    captured text without the white space around it and then without the
    question marks, exclamation marks and full stops at its end: it does
    not start with white space and does not end with one of the three
    marks.  (White space that stood before the marks stays at its end.) *)
Theorem detected_query_is_cleaned text args q :
  detectPlayVideoArgs text = Ok args ->
  get args "query" = VStr q ->
  (forall c, last_char q = Some c -> mem c "?!." = false)
  /\ (forall c q', q = String c q' -> is_space c = false).
Proof.
  unfold detectPlayVideoArgs.
  repeat match goal with
         | |- context [if ?b then Ok (only _ _) else _] =>
             destruct b; [intros H; inversion H; subst args; discriminate|]
         end.
  destruct (exec true query_pattern text) as [[rest [captured|]]|];
    intros H; inversion H; subst args; clear H; [|discriminate].
  intros Hq. inversion Hq; subst q. clear Hq. unfold cleaned, remove. split.
  - apply remove_marks_last.
  - intros c q' Hc. apply remove_marks_head in Hc as [s' Hs'].
    eapply trim_head. exact Hs'.
Qed.

(** *** The tool callback *)

(** X12.  The default branch of the executor is out of the chat's reach.
    The callback hands a call to executeJsonTool exactly when the tool
    name is one the switch has a case for, so the unknown-tool error is
    never produced from the chat; and every tool declared to the model
    with loaded JSON is handed to executeJsonTool. *)
Theorem dispatched_tools_have_a_case toolName :
  (dispatch toolName = ToExecuteJsonTool <-> known_tool toolName = true)
  /\ (forall name, In name JSON_DATA_TOOL_NAMES ->
                   dispatch (VStr name) = ToExecuteJsonTool).
Proof.
  split.
  - unfold dispatch, known_tool, View.includes, JSON_TOOL_NAMES. cbn [existsb].
    destruct toolName as [| |b|n|s|l|ps]; cbn [is_str orb];
      try (split; discriminate).
    destruct (String.eqb_spec s "generateImage") as [->|Hg]; [split; discriminate|].
    destruct (String.eqb s "compute_stats_json"); [split; reflexivity|].
    destruct (String.eqb s "plot_metric_vs_time"); [split; reflexivity|].
    destruct (String.eqb s "play_video"); [split; reflexivity|].
    cbn [orb]. split; discriminate.
  - intros name Hin. vm_compute in Hin.
    destruct Hin as [<-|[<-|[<-|[]]]]; reflexivity.
Qed.

(** *** The video a criteria settles on *)




(** *** The theorems on sample messages *)



Lemma detected_arguments_are_understood_witness :
  "most viewed" <> ""
  /\ recognized (lower "most viewed") = true
  /\ exists compare,
       In ("most viewed", compare) (criteria_order Sample.tools)
       /\ forall data,
            select_video Sample.tools
              (get (only "criteria" (VStr "most viewed")) "query")
              (get (only "criteria" (VStr "most viewed")) "ordinal")
              (get (only "criteria" (VStr "most viewed")) "criteria") data
            = first_sorted compare data.
Proof.
  apply (proj1 (detected_arguments_are_understood Sample.tools
                  "play the most viewed video"
                  (only "criteria" (VStr "most viewed")) eq_refl)).
  reflexivity.
Defined.

Lemma detected_query_is_cleaned_witness :
  (forall c, last_char "cats " = Some c -> mem c "?!." = false)
  /\ (forall c q', "cats " = String c q' -> is_space c = false).
Proof.
  apply (detected_query_is_cleaned "Play me the video called  cats ."
           (only "query" (VStr "cats ")) "cats ").
  - vm_compute. reflexivity.
  - reflexivity.
Defined.

(** The detector has no pattern for two criteria the executor knows: a
    message about the least commented video becomes a title search, which
    ends at the first video. *)
Example least_commented_is_searched_by_title :
  detectPlayVideoArgs "play the least commented video"
  = Ok (only "query" (VStr "least commented video"))
  /\ recognized (lower "least commented") = true
  /\ executeJsonTool Sample.tools (VStr "play_video")
       (only "query" (VStr "least commented video")) (VArr Sample.two_videos)
     = Ok (card_of (Sample.video "a" "Black holes" 10)).
Proof. vm_compute. repeat split; reflexivity. Qed.

(** The word need not stand alone for the detector, as it must for the
    fallback to run. *)
Example detector_samples :
  detectPlayVideoArgs "display it" = Ok (only "query" (VStr "it"))
  /\ test true play_words "display it" = false
  /\ detectPlayVideoArgs "open video #2" = Ok (only "ordinal" (VNum (Int 2)))
  /\ detectPlayVideoArgs "play the 1st one" = Ok (only "query" (VStr "1st one"))
  /\ detectPlayVideoArgs "watch the video about Black Holes?!"
     = Ok (only "query" (VStr "Black Holes"))
  /\ detectPlayVideoArgs "play" = Ok (VObj [])
  /\ detectStatsField "dislikes and likes" = "view_count"
  /\ detectStatsField "average likes" = "like_count".
Proof. vm_compute. repeat split; reflexivity. Qed.

End ChatFacts.

(* ===================================================================== *)
(** ** The file name of a saved image *)
(* ===================================================================== *)

Module SaveFacts.
Import JS JsonTools Regex Save.

Lemma plain_not_hyphen c : plain c = true -> Ascii.eqb c "-" = false.
Proof.
  intros H. destruct (Ascii.eqb_spec c "-") as [->|]; [|reflexivity].
  vm_compute in H. discriminate.
Qed.

Lemma hyphens_chars s : forall inside,
  all_chars slug_char (hyphens inside s) = true.
Proof.
  induction s as [|c s IH]; intros inside; [reflexivity|].
  cbn [hyphens]. destruct (plain c) eqn:Hc.
  - cbn [all_chars]. unfold slug_char at 1. rewrite Hc, IH. reflexivity.
  - destruct inside; [apply IH|]. cbn [all_chars]. rewrite IH. reflexivity.
Qed.

Lemma hyphens_spaced s : forall inside,
  spaced (hyphens inside s) = true
  /\ (inside = true -> begins (hyphens inside s) = false).
Proof.
  induction s as [|c s IH]; intros inside; [split; reflexivity|].
  cbn [hyphens]. destruct (plain c) eqn:Hc.
  - cbn [spaced begins]. rewrite (plain_not_hyphen c Hc).
    split; [exact (proj1 (IH false))|reflexivity].
  - destruct inside; [apply IH|].
    destruct (IH true) as [Hs Hb]. cbn [spaced]. rewrite Hs, (Hb eq_refl).
    split; [reflexivity|discriminate].
Qed.

Lemma take_cons n c s : Str.take (S n) (String c s) = String c (Str.take n s).
Proof. reflexivity. Qed.

Lemma take_chars p s : forall n,
  all_chars p s = true -> all_chars p (Str.take n s) = true.
Proof.
  induction s as [|c s IH]; intros n H; [destruct n; reflexivity|].
  destruct n as [|n]; [reflexivity|]. rewrite take_cons.
  cbn [all_chars] in *. apply andb_prop in H. destruct H as [Hc Hs].
  rewrite Hc, (IH n Hs). reflexivity.
Qed.

Lemma take_begins n s : begins (Str.take n s) = true -> begins s = true.
Proof. destruct s as [|c s], n as [|n]; try discriminate. rewrite take_cons. tauto. Qed.

Lemma take_spaced s : forall n, spaced s = true -> spaced (Str.take n s) = true.
Proof.
  induction s as [|c s IH]; intros n H; [destruct n; reflexivity|].
  destruct n as [|n]; [reflexivity|]. rewrite take_cons.
  cbn [spaced] in *. apply andb_prop in H. destruct H as [Hc Hs].
  rewrite (IH n Hs), andb_true_r.
  destruct (Ascii.eqb c "-"); [|reflexivity]. cbn [andb negb] in *.
  destruct (begins (Str.take n s)) eqn:Hb; [|reflexivity].
  rewrite (take_begins n s Hb) in Hc. discriminate.
Qed.

(** [replace(/-$/, '')] leaves a text alone but for a hyphen that ends it. *)
Lemma remove_closing_hyphen prev c s :
  remove_from false closing_hyphen prev (String c s)
  = match s with
    | EmptyString => if Ascii.eqb c "-" then EmptyString else String c EmptyString
    | _ => String c (remove_from false closing_hyphen (Some c) s)
    end.
Proof.
  cbn [remove_from closing_hyphen matches same]. rewrite Ascii.eqb_sym.
  destruct (Ascii.eqb c "-"); destruct s; reflexivity.
Qed.

Lemma remove_closing_length s : forall prev,
  (String.length (remove_from false closing_hyphen prev s) <= String.length s)%nat.
Proof.
  induction s as [|c s IH]; intros prev; [apply Nat.le_refl|].
  rewrite remove_closing_hyphen. destruct s as [|c' s].
  - destruct (Ascii.eqb c "-"); simpl; lia.
  - specialize (IH (Some c)). cbn [String.length] in *. lia.
Qed.

Lemma remove_closing_chars p s : forall prev,
  all_chars p s = true ->
  all_chars p (remove_from false closing_hyphen prev s) = true.
Proof.
  induction s as [|c s IH]; intros prev H; [reflexivity|].
  rewrite remove_closing_hyphen. destruct s as [|c' s].
  - destruct (Ascii.eqb c "-"); [reflexivity|exact H].
  - cbn [all_chars] in H. apply andb_prop in H. destruct H as [Hc Hs].
    cbn [all_chars]. rewrite Hc, (IH (Some c) Hs). reflexivity.
Qed.

Lemma remove_closing_begins s : forall prev,
  begins (remove_from false closing_hyphen prev s) = true -> begins s = true.
Proof.
  destruct s as [|c s]; intros prev; [discriminate|].
  rewrite remove_closing_hyphen. destruct s as [|c' s].
  - destruct (Ascii.eqb c "-") eqn:Hc; [discriminate|]. cbn [begins]. congruence.
  - tauto.
Qed.

Lemma remove_closing_spaced s : forall prev,
  spaced s = true ->
  spaced (remove_from false closing_hyphen prev s) = true
  /\ Chat.last_char (remove_from false closing_hyphen prev s) <> Some "-"%char.
Proof.
  induction s as [|c s IH]; intros prev H; [split; [reflexivity|discriminate]|].
  rewrite remove_closing_hyphen. destruct s as [|c' s].
  - destruct (Ascii.eqb_spec c "-") as [->|Hc]; [split; [reflexivity|discriminate]|].
    split; [exact H|]. cbn [Chat.last_char]. congruence.
  - cbn [spaced] in H. apply andb_prop in H. destruct H as [Hc Hs].
    destruct (IH (Some c) Hs) as [IHs IHl].
    remember (remove_from false closing_hyphen (Some c) (String c' s)) as r eqn:Hr.
    symmetry in Hr. split.
    + cbn [spaced]. rewrite IHs, andb_true_r.
      destruct (Ascii.eqb c "-"); [|reflexivity]. cbn [andb negb] in *.
      destruct (begins r) eqn:Hb; [|reflexivity].
      rewrite <- Hr in Hb. apply remove_closing_begins in Hb.
      rewrite Hb in Hc. discriminate.
    + destruct r as [|x r']; [|exact IHl].
      cbn [Chat.last_char]. intros Heq. inversion Heq. subst c.
      rewrite remove_closing_hyphen in Hr.
      destruct s as [|c'' s]; [|discriminate].
      destruct (Ascii.eqb_spec c' "-") as [->|]; [|discriminate].
      discriminate.
Qed.

(** X20.  The slug of a saved image's file name.  For a prompt that is a
    text, the slug is computed, has at most 40 characters, each a lower
    case letter, a digit or a hyphen, has no hyphen after a hyphen, and
    does not end with a hyphen; it can begin with one, and it can be
    empty. *)
Theorem slug_of_a_prompt chart p :
  get chart "prompt" = VStr p ->
  exists s,
    slug chart = Ok s
    /\ (String.length s <= 40)%nat
    /\ all_chars slug_char s = true
    /\ spaced s = true
    /\ Chat.last_char s <> Some "-"%char.
Proof.
  intros Hp. unfold slug. rewrite Hp.
  set (text := or_else (VStr p) (VStr "generated-image")).
  assert (exists l, text = VStr l) as [l Hl].
  { unfold text, or_else. destruct (truthy (VStr p)); eexists; reflexivity. }
  rewrite Hl. cbn [toLowerCase bind]. eexists. split; [reflexivity|].
  unfold remove.
  set (t := Str.take 40 (hyphens false (lower l))).
  assert (Hchars : all_chars slug_char t = true)
    by (apply take_chars, hyphens_chars).
  assert (Hspaced : spaced t = true)
    by (apply take_spaced, hyphens_spaced).
  destruct (remove_closing_spaced t None Hspaced) as [Hs Hlast].
  split; [|split; [|split]].
  - etransitivity; [apply remove_closing_length|]. apply IngestFacts.length_take.
  - apply remove_closing_chars. exact Hchars.
  - exact Hs.
  - exact Hlast.
Qed.

Lemma slug_of_a_prompt_witness :
  exists s,
    slug Fixtures.painted = Ok s
    /\ (String.length s <= 40)%nat
    /\ all_chars slug_char s = true
    /\ spaced s = true
    /\ Chat.last_char s <> Some "-"%char.
Proof.
  apply (slug_of_a_prompt Fixtures.painted "A cat, on a mat!").
  reflexivity.
Defined.

(** Spaces and marks collapse to single hyphens and the closing one goes;
    a prompt of marks alone leaves nothing before the dot; a long prompt
    is cut at 40, and the hyphen that the cut leaves last is removed; an
    empty prompt gives the default name. *)
Example download_samples :
  download Fixtures.painted = Ok "a-cat-on-a-mat.png"
  /\ download (VObj [ ("prompt", VStr "!!!"); ("mimeType", VStr "image/jpeg") ])
     = Ok ".jpeg"
  /\ download (VObj [ ("prompt", VStr " Sunset over the sea, with forty characters and more") ])
     = Ok "-sunset-over-the-sea-with-forty-characte.png"
  /\ download (VObj [ ("prompt", VStr "twenty characters of text with thirty-nine and") ])
     = Ok "twenty-characters-of-text-with-thirty-ni.png"
  /\ download (VObj [ ("prompt", VStr "a picture of thirty-nine characters iss. cut short") ])
     = Ok "a-picture-of-thirty-nine-characters-iss.png"
  /\ download (VObj [ ("prompt", VStr ""); ("mimeType", VStr "image/") ])
     = Ok "generated-image.png"
  /\ download (VObj [ ("prompt", VNum (Int 7)) ]) = Throw "TypeError".
Proof. repeat split; vm_compute; reflexivity. Qed.

End SaveFacts.

(* ===================================================================== *)
(** ** Properties of image generation *)
(* ===================================================================== *)

Module ImageFacts.
Import JS Image.

Lemma find_first_hit p l v :
  JsonTools.find_first p l = Ok v -> truthy v = true -> p v = Ok true.
Proof.
  induction l as [|x l IH]; simpl.
  - intros H. inversion H; subst. discriminate.
  - unfold bind. destruct (p x) as [[|]|m] eqn:Hp; try discriminate.
    + intros H. inversion H; subst. auto.
    + exact IH.
Qed.

Lemma is_image_part_hit p :
  is_image_part p = Ok true ->
  exists mimeType,
    get (get p "inlineData") "mimeType" = VStr mimeType
    /\ Str.starts_with "image/" mimeType = true.
Proof.
  unfold is_image_part, sget, bind. destruct (nullish p); [discriminate|].
  unfold oget. destruct (nullish (get p "inlineData")); [discriminate|].
  destruct (get (get p "inlineData") "mimeType") as [| |b|n|s|l|ps];
    try discriminate.
  intros H. injection H as H. exists s. split; [reflexivity|exact H].
Qed.

(** What the endpoint answers: 400 without a prompt, 500 with an error
    text, or 200 with an image type and the data. *)
Lemma handler_replies E body :
  let r := handler E body in
  (status r = 400 /\ truthy (get body "prompt") = false)
  \/ (status r = 500 /\ exists message, json r = VObj [ ("error", message) ])
  \/ (status r = 200
      /\ truthy (get body "prompt") = true
      /\ exists mimeType data,
           json r = VObj [ ("mimeType", VStr mimeType); ("data", data) ]
           /\ Str.starts_with "image/" mimeType = true).
Proof.
  unfold handler. destruct (truthy (get body "prompt")) eqn:Hprompt; simpl;
    [|left; auto].
  right. destruct (respond E _ _) as [r|m] eqn:Hrespond; [|left; simpl; eauto].
  unfold respond, bind in Hrespond.
  destruct (map_arr _ _) as [anchors|m]; [|discriminate].
  destruct (generateContent E _) as [result|m]; [|discriminate].
  destruct (sget result "candidates") as [candidates|m]; [|discriminate].
  destruct (JsonTools.find is_image_part _) as [imagePart|m] eqn:Hfind; [|discriminate].
  destruct (truthy imagePart) eqn:Himage; simpl in Hrespond.
  - inversion Hrespond; subst r. right. simpl. split; [reflexivity|]. split; [reflexivity|].
    unfold JsonTools.find in Hfind.
    destruct (or_else _ _) as [| |b|n|s|l|ps]; try discriminate.
    apply find_first_hit in Hfind; [|exact Himage].
    apply is_image_part_hit in Hfind as (mimeType & Hm & Hstarts).
    rewrite Hm. eauto.
  - destruct (JsonTools.find has_text _) as [textPart|m]; [|discriminate].
    inversion Hrespond; subst r. left. simpl. eauto.
Qed.

(** X13.  What generateImage returns is an image.  When the call through
    the endpoint returns, the request reached the handler, and the result
    carries the marker, the prompt it was called with, and a MIME type
    that starts with image/, as the endpoint picked the part by that
    test; the prompt was truthy; the message view draws the result as a
    generated image; and the tool loop adds it to the charts and tells
    the model the prompt and the type, not the data.  When it throws,
    either the request did not reach the handler (the network failed, or
    the body parser refused a body above its limit and the answer was not
    JSON), or the handler answered 400 or 500 and the message is the
    error text of that answer. *)
Theorem generated_image_is_an_image R E prompt anchors :
  let body := VObj [ ("prompt", prompt); ("anchorImages", anchors) ] in
  (forall r name args c,
     generateImage (served R E) prompt anchors = Ok r ->
     carried R body = Ok tt
     /\ too_large R body = false
     /\ exists mimeType data,
       r = VObj [ ("_imageType", VStr "generated"); ("mimeType", VStr mimeType);
                  ("data", data); ("prompt", prompt) ]
       /\ Str.starts_with "image/" mimeType = true
       /\ truthy (get (Lang.json_image body) "prompt") = true
       /\ View.draw r = Ok View.GeneratedImage
       /\ Gemini.resultForGemini r
          = VObj [ ("success", VBool true); ("imageGenerated", VBool true);
                   ("prompt", prompt); ("mimeType", VStr mimeType) ]
       /\ Gemini.charts (Gemini.collect name args r c) = (Gemini.charts c ++ [r])%list)
  /\ (forall message,
        generateImage (served R E) prompt anchors = Throw message ->
        carried R body = Throw message
        \/ (carried R body = Ok tt /\ too_large R body = true
            /\ message = "SyntaxError")
        \/ (carried R body = Ok tt /\ too_large R body = false
            /\ let answer := handler E (Lang.json_image body) in
               (status answer = 400 \/ status answer = 500)
               /\ message
                  = ToString (or_else (get (Lang.json_image (json answer)) "error")
                                      (VStr "Image generation failed")))).
Proof.
  intros body. unfold generateImage, served, too_large. fold body.
  change (10 * 1024 * 1024)%Z with 10485760%Z.
  destruct (carried R body) as [[]|m0]; cbn [bind].
  2: { split; [intros r name args c H; discriminate|].
       intros message H. inversion H. left. reflexivity. }
  destruct (10485760 <? Z.of_nat (String.length (JSON_stringify R body)))%Z;
    cbn [bind].
  { split; [intros r name args c H; discriminate|].
    intros message H. inversion H. right. left. auto. }
  cbn [fst snd].
  pose proof (handler_replies E (Lang.json_image body)) as Hreply. cbv zeta in Hreply.
  destruct Hreply as [[Hs Hp]|[[Hs [e He]]|(Hs & Hp & mimeType & data & Hjson & Hstarts)]];
    rewrite Hs; cbn [Z.leb Z.ltb Z.compare Pos.compare Pos.compare_cont andb negb].
  - split; [intros r name args c; unfold sget, bind;
            destruct (nullish _); discriminate|].
    intros message. unfold sget, bind.
    destruct (nullish (Lang.json_image _)) eqn:Hn.
    + unfold handler in Hn. rewrite Hp in Hn. discriminate.
    + intros H. inversion H. right. right.
      split; [reflexivity|]. split; [reflexivity|].
      split; [left; reflexivity|reflexivity].
  - split; [intros r name args c; unfold sget, bind;
            destruct (nullish _); discriminate|].
    intros message. unfold sget, bind.
    destruct (nullish (Lang.json_image _)) eqn:Hn.
    + rewrite He in Hn. destruct e; discriminate.
    + intros H. inversion H. right. right.
      split; [reflexivity|]. split; [reflexivity|].
      split; [right; reflexivity|reflexivity].
  - split; [|intros message; rewrite Hjson; destruct data; discriminate].
    intros r name args c. rewrite Hjson.
    assert (Hread : exists data',
              sget (Lang.json_image (VObj [ ("mimeType", VStr mimeType); ("data", data) ]))
                   "mimeType" = Ok (VStr mimeType)
              /\ get (Lang.json_image (VObj [ ("mimeType", VStr mimeType); ("data", data) ]))
                     "data" = data').
    { destruct data; eexists; split; reflexivity. }
    destruct Hread as (data' & -> & ->). cbn [bind].
    intros H. inversion H; subst r.
    split; [reflexivity|]. split; [reflexivity|].
    exists mimeType, data'.
    split; [reflexivity|]. split; [exact Hstarts|]. split; [exact Hp|].
    split; [reflexivity|]. split; reflexivity.
Qed.

(** A picture comes back as an image; words alone come back as the text
    of the exception; an empty prompt is refused before the model is
    asked; and when the server cannot be reached the exception is that
    of [fetch]. *)
Example generateImage_samples :
  generateImage (served Fixtures.road Fixtures.painter) (VStr "a cat") (VArr [])
  = Ok (VObj [ ("_imageType", VStr "generated"); ("mimeType", VStr "image/png");
               ("data", VStr "iVBOR"); ("prompt", VStr "a cat") ])
  /\ generateImage (served Fixtures.road Fixtures.talker) (VStr "a cat") (VArr [])
     = Throw "I cannot draw that."
  /\ generateImage (served Fixtures.road Fixtures.painter) (VStr "") (VArr [])
     = Throw "prompt is required"
  /\ generateImage (served Fixtures.road Fixtures.painter) (VStr "a cat") (VArr [ VNull ])
     = Throw "TypeError"
  /\ generateImage (served Fixtures.no_road Fixtures.painter) (VStr "a cat") (VArr [])
     = Throw "Failed to fetch".
Proof. vm_compute. repeat split; reflexivity. Qed.

(** A model that answers with neither an image nor a text. *)
Example nothing_generated :
  let silent := {| generateContent := fun _ => Ok (Fixtures.candidate []) |} in
  handler silent (VObj [ ("prompt", VStr "a cat") ])
  = {| status := 500;
       json := VObj [ ("error",
                       VStr "No image was generated. Try a different prompt.") ] |}
  /\ generateImage (served Fixtures.road silent) (VStr "a cat") (VArr [])
     = Throw "No image was generated. Try a different prompt.".
Proof. vm_compute. split; reflexivity. Qed.

End ImageFacts.

(* ===================================================================== *)
(** ** Properties of the users, sessions and messages endpoints *)
(* ===================================================================== *)

Module ApiFacts.
Import JS Api.

(** *** Messages *)

Lemma assoc_set_prop k v ps : assoc k (set_prop k v ps) = Some v.
Proof.
  induction ps as [|[k' v'] ps IH]; simpl.
  - rewrite String.eqb_refl. reflexivity.
  - destruct (String.eqb_spec k k') as [->|Hk]; simpl.
    + rewrite String.eqb_refl. reflexivity.
    + destruct (String.eqb_spec k k'); [contradiction|]. exact IH.
Qed.

Lemma holds_document d id raw :
  holds d id raw ->
  exists ps, sessions d !! id = Some (VObj ps) /\ assoc "messages" ps = Some (VArr raw).
Proof.
  intros (doc & Hdoc & Hraw).
  destruct doc as [| |b|n|s|l|ps]; simpl in Hraw; try discriminate.
  exists ps. split; [exact Hdoc|].
  destruct (assoc "messages" ps) as [v|]; simpl in Hraw; [congruence|discriminate].
Qed.

Lemma listed_from_app id a : forall i b,
  listed_from id i (a ++ b)
  = let* xs := listed_from id i a in
    let* ys := listed_from id (i + List.length a) b in
    Ok (xs ++ ys)%list.
Proof.
  induction a as [|m a IH]; intros i b; simpl.
  - rewrite Nat.add_0_r. destruct (listed_from id i b); reflexivity.
  - destruct (listed id i m) as [x|e]; simpl; [|reflexivity].
    rewrite IH. replace (i + S (List.length a))%nat with (S i + List.length a)%nat by lia.
    destruct (listed_from id (S i) a) as [xs|e]; simpl; [|reflexivity].
    destruct (listed_from id _ b); reflexivity.
Qed.

Lemma post_message_accepted E now body d id ps raw :
  truthy (get body "session_id") = true ->
  truthy (get body "role") = true ->
  get body "content" <> VUndef ->
  ObjectId E (get body "session_id") = Ok id ->
  sessions d !! id = Some (VObj ps) ->
  assoc "messages" ps = Some (VArr raw) ->
  handle (post_message E now body) d
  = (ok_reply,
     {| users := users d;
        sessions := <[id := VObj (set_prop "messages"
                                    (VArr (raw ++ [ message_document now body ])%list)
                                    ps)]> (sessions d) |}).
Proof.
  intros Hid Hrole Hcontent Hoid Hdoc Hraw.
  unfold handle, post_message. rewrite Hid, Hrole.
  destruct (get body "content") eqn:Hc; try contradiction; cbn [negb orb is_undefined];
    unfold sbind, lift, push_message, pushed, ret; rewrite Hoid, Hdoc, Hraw; reflexivity.
Qed.

Lemma get_messages_listed E session_id d id doc raw :
  truthy session_id = true ->
  ObjectId E session_id = Ok id ->
  sessions d !! id = Some doc ->
  get doc "messages" = VArr raw ->
  handle (get_messages E session_id) d
  = match listed_from id 0 raw with
    | Ok msgs => ({| Image.status := 200; Image.json := VArr msgs |}, d)
    | Throw message => (refuse 500 message, d)
    end.
Proof.
  intros Hid Hoid Hdoc Hraw.
  assert (Hn : nullish doc = false) by (destruct doc; try discriminate; reflexivity).
  unfold handle, get_messages. rewrite Hid. cbn [negb].
  unfold sbind, lift, findOne_session, gets, ret. rewrite Hoid, Hdoc.
  change (default VNull (Some doc)) with doc.
  unfold oget. rewrite Hn, Hraw. cbn [or_else truthy].
  destruct (listed_from id 0 raw); reflexivity.
Qed.

(** X14.  A posted message is the last one listed.  For a session that
    exists and whose stored messages can be listed, POST /api/messages
    with a session id, a role and a content answers ok and appends one
    document to the session; GET /api/messages then answers the former
    list followed by the new message, whose id is the session id, a dash
    and its index, and whose role, content, charts, tool calls and video
    card are those posted (charts and tool calls only when not empty) and
    whose timestamp is the server's; or it answers 500 when the new
    message cannot be listed. *)
Theorem posted_message_is_listed E now body d id raw old :
  truthy (get body "session_id") = true ->
  truthy (get body "role") = true ->
  get body "content" <> VUndef ->
  ObjectId E (get body "session_id") = Ok id ->
  holds d id raw ->
  listed_from id 0 raw = Ok old ->
  exists d',
    handle (post_message E now body) d = (ok_reply, d')
    /\ holds d' id (raw ++ [ message_document now body ])
    /\ handle (get_messages E (get body "session_id")) d'
       = match listed id (List.length raw) (message_document now body) with
         | Ok x => ({| Image.status := 200; Image.json := VArr (old ++ [ x ]) |}, d')
         | Throw message => (refuse 500 message, d')
         end
    /\ forall x,
         listed id (List.length raw) (message_document now body) = Ok x ->
         get x "id" = VStr (id ++ "-" ++ nat_key (List.length raw))
         /\ get x "role" = get body "role"
         /\ get x "content" = get body "content"
         /\ get x "timestamp" = VStr now
         /\ get x "charts" = (if truthy (oget (get body "charts") "length")
                              then get body "charts" else VUndef)
         /\ get x "toolCalls" = (if truthy (oget (get body "toolCalls") "length")
                                 then get body "toolCalls" else VUndef)
         /\ get x "videoCard" = or_else (get body "videoCard") VUndef.
Proof.
  intros Hid Hrole Hcontent Hoid Hholds Hold.
  destruct (holds_document _ _ _ Hholds) as (ps & Hdoc & Hraw).
  eexists. split; [apply (post_message_accepted E now body d id ps raw); assumption|].
  assert (Hholds' : holds
            {| users := users d;
               sessions := <[id := VObj (set_prop "messages"
                                           (VArr (raw ++ [ message_document now body ]))
                                           ps)]> (sessions d) |}
            id (raw ++ [ message_document now body ])).
  { eexists. split; [apply lookup_insert_eq|]. simpl. rewrite assoc_set_prop. reflexivity. }
  split; [exact Hholds'|]. split.
  - destruct Hholds' as (doc' & Hdoc' & Hraw').
    rewrite (get_messages_listed E _ _ id doc' _ Hid Hoid Hdoc' Hraw').
    rewrite listed_from_app, Hold. cbn [bind plus listed_from].
    destruct (listed id (List.length raw) (message_document now body)); reflexivity.
  - intros x. unfold listed, bind, message_document.
    set (imageData := get body "imageData").
    set (charts := get body "charts").
    set (toolCalls := get body "toolCalls").
    set (videoCard := get body "videoCard").
    unfold sget. cbn [nullish].
    destruct (if truthy _ then _ else _) as [images|message]; [|discriminate].
    intros H. inversion H; subst x. clear H.
    split; [reflexivity|]. split; [reflexivity|]. split; [reflexivity|].
    split; [reflexivity|].
    unfold spread_when.
    destruct (truthy imageData), (truthy (oget charts "length")) eqn:Hc,
      (truthy (oget toolCalls "length")) eqn:Ht, (truthy videoCard) eqn:Hv;
      cbn; rewrite ?Hc, ?Ht; unfold or_else; rewrite ?Hv; cbn;
      repeat split; reflexivity.
Qed.

(** X15.  A message posted to a session that does not exist is answered
    ok and is lost: the database is unchanged, and the list of the
    session is empty.  Such is every session after its DELETE. *)
Theorem message_to_missing_session_is_lost E now body d id :
  truthy (get body "session_id") = true ->
  truthy (get body "role") = true ->
  get body "content" <> VUndef ->
  ObjectId E (get body "session_id") = Ok id ->
  sessions d !! id = None ->
  handle (post_message E now body) d = (ok_reply, d)
  /\ handle (get_messages E (get body "session_id")) d
     = ({| Image.status := 200; Image.json := VArr [] |}, d)
  /\ forall d0 text,
       ObjectId E (VStr text) = Ok id ->
       exists d1, handle (delete_session E text) d0 = (ok_reply, d1)
                  /\ sessions d1 !! id = None.
Proof.
  intros Hid Hrole Hcontent Hoid Hnone. split; [|split].
  - unfold handle, post_message. rewrite Hid, Hrole.
    destruct (get body "content") eqn:Hc; try contradiction; cbn [negb orb is_undefined];
      unfold sbind, lift, push_message, ret; rewrite Hoid, Hnone; reflexivity.
  - unfold handle, get_messages. rewrite Hid. cbn [negb].
    unfold sbind, lift, findOne_session, gets, ret. rewrite Hoid, Hnone. reflexivity.
  - intros d0 text Htext. eexists. split.
    + unfold handle, delete_session, sbind, lift, deleteOne_session, modify, ret.
      rewrite Htext. reflexivity.
    + apply lookup_delete_eq.
Qed.

Lemma image_of_raises img : Ingest.raises_only_TypeError (image_of img).
Proof.
  unfold image_of, sget, bind. destruct (nullish img); intros m H; [|discriminate].
  inversion H. reflexivity.
Qed.

Lemma map_null_image l : In VNull l -> mapM image_of l = TypeError.
Proof.
  induction l as [|x l IH]; [contradiction|].
  intros [->|Hin]; [reflexivity|]. simpl.
  destruct (image_of x) as [y|m] eqn:Hx; simpl.
  - rewrite (IH Hin). reflexivity.
  - rewrite (image_of_raises x m Hx). reflexivity.
Qed.

(** X16.  A null among the images of a posted message blocks the session.
    The message is accepted and stored, and from then on the list of the
    session is answered with 500, because each stored image is read for
    its data. *)
Theorem null_image_blocks_the_session E now body d id raw old images :
  truthy (get body "session_id") = true ->
  truthy (get body "role") = true ->
  get body "content" <> VUndef ->
  ObjectId E (get body "session_id") = Ok id ->
  holds d id raw ->
  listed_from id 0 raw = Ok old ->
  get body "imageData" = VArr images ->
  In VNull images ->
  exists d',
    handle (post_message E now body) d = (ok_reply, d')
    /\ holds d' id (raw ++ [ message_document now body ])
    /\ handle (get_messages E (get body "session_id")) d' = (refuse 500 "TypeError", d').
Proof.
  intros Hid Hrole Hcontent Hoid Hholds Hold Himages Hnull.
  destruct (holds_document _ _ _ Hholds) as (ps & Hdoc & Hraw).
  eexists. split; [apply (post_message_accepted E now body d id ps raw); assumption|].
  assert (Hholds' : holds
            {| users := users d;
               sessions := <[id := VObj (set_prop "messages"
                                           (VArr (raw ++ [ message_document now body ]))
                                           ps)]> (sessions d) |}
            id (raw ++ [ message_document now body ])).
  { eexists. split; [apply lookup_insert_eq|]. simpl. rewrite assoc_set_prop. reflexivity. }
  split; [exact Hholds'|].
  destruct Hholds' as (doc' & Hdoc' & Hraw').
  rewrite (get_messages_listed E _ _ id doc' _ Hid Hoid Hdoc' Hraw').
  rewrite listed_from_app, Hold. cbn [bind plus listed_from].
  assert (Hlisted : listed id (List.length raw) (message_document now body) = TypeError).
  { unfold listed, message_document. rewrite Himages.
    destruct images as [|img images]; [contradiction|].
    cbn.
    change (let* b := image_of img in
            let* bs := mapM image_of images in Ok (b :: bs))
      with (mapM image_of (img :: images)).
    rewrite (map_null_image (img :: images) Hnull).
    destruct (Z.of_nat (S (List.length images)) =? 0)%Z eqn:Hz;
      [apply Z.eqb_eq in Hz; lia|]. reflexivity. }
  rewrite Hlisted. reflexivity.
Qed.

(** *** Users *)

Lemma find_app_last {A} (f : A -> bool) l x :
  List.find f l = None -> List.find f (l ++ [ x ]) = if f x then Some x else None.
Proof.
  induction l as [|y l IH]; simpl; [reflexivity|].
  destruct (f y); [discriminate|]. exact IH.
Qed.

Lemma found_user_is_truthy name l u :
  List.find (fun u => is_str (get u "username") name) l = Some u -> truthy u = true.
Proof.
  intros H. apply find_some in H as [_ H].
  destruct u; simpl in H; try discriminate; reflexivity.
Qed.

Lemma login_accepts E body d name user :
  truthy (get body "username") = true ->
  truthy (get body "password") = true ->
  login_name (get body "username") = Ok name ->
  List.find (fun u => is_str (get u "username") name) (users d) = Some user ->
  compare E (get body "password") (get user "password") = Ok true ->
  handle (login E body) d
  = ({| Image.status := 200;
        Image.json :=
          VObj [ ("ok", VBool true);
                 ("username", VStr name);
                 ("firstName", or_else (get user "firstName") (VStr ""));
                 ("lastName", or_else (get user "lastName") (VStr "")) ] |},
     d).
Proof.
  intros Hu Hp Hname Hfind Hcompare.
  unfold handle, login. rewrite Hu, Hp. cbn [negb orb].
  unfold sbind, lift, findOne_user, gets, ret. rewrite Hname, Hfind.
  change (default VNull (Some user)) with user.
  rewrite (found_user_is_truthy _ _ _ Hfind). cbn [negb].
  rewrite Hcompare. reflexivity.
Qed.

Lemma register_accepted E now body d d' :
  handle (register E now body) d = (ok_reply, d') ->
  truthy (get body "password") = true
  /\ List.find (fun u => is_str (get u "username") (normalized (get body "username")))
               (users d) = None
  /\ exists hashed,
       hash E (get body "password") = Ok hashed
       /\ d' = {| users := (users d
                              ++ [ user_document (normalized (get body "username"))
                                     hashed now body ])%list;
                  sessions := sessions d |}.
Proof.
  unfold handle, register.
  destruct (truthy (get body "username")); [|discriminate].
  destruct (truthy (get body "password")); [|discriminate].
  cbn [negb orb].
  unfold sbind, findOne_user, gets, lift, insertOne_user, modify, ret.
  destruct (List.find _ (users d)) as [existing|] eqn:Hfind.
  { change (default VNull (Some existing)) with existing.
    rewrite (found_user_is_truthy _ _ _ Hfind). discriminate. }
  change (default VNull None) with VNull. cbn [truthy].
  destruct (hash E (get body "password")) as [hashed|m]; [|discriminate].
  intros H. inversion H. eauto.
Qed.

Lemma or_else_text t : or_else (VStr t) (VStr "") = VStr t.
Proof.
  unfold or_else. simpl. destruct (String.eqb_spec t "") as [->|_]; reflexivity.
Qed.

(** X17.  Who has registered can log in.  After POST /api/users answered
    ok, and with a bcrypt that accepts the password a hash was made from,
    POST /api/users/login with the same password answers ok for every
    spelling of the user name that differs from the registered one only
    in case and in the white space around it; the answer holds the
    normalised name and the trimmed first and last name. *)
Theorem registered_user_can_log_in E now body d d' spelling :
  sound_hash E ->
  handle (register E now body) d = (ok_reply, d') ->
  spelling <> "" ->
  JsonTools.lower (Str.trim spelling) = normalized (get body "username") ->
  handle (login E (VObj [ ("username", VStr spelling);
                          ("password", get body "password") ])) d'
  = ({| Image.status := 200;
        Image.json :=
          VObj [ ("ok", VBool true);
                 ("username", VStr (normalized (get body "username")));
                 ("firstName", VStr (if truthy (get body "firstName")
                                     then trimmed (get body "firstName") else ""));
                 ("lastName", VStr (if truthy (get body "lastName")
                                    then trimmed (get body "lastName") else "")) ] |},
     d').
Proof.
  intros Hsound Hregister Hspelling Hname.
  apply register_accepted in Hregister as (Hpassword & Hfind & hashed & Hhash & ->).
  rewrite (login_accepts E _ _ (normalized (get body "username"))
             (user_document (normalized (get body "username")) hashed now body)).
  - unfold user_document.
    change (get (VObj ?ps) "firstName") with (default VUndef (assoc "firstName" ps)).
    cbn [get assoc String.eqb Ascii.eqb Bool.eqb default].
    unfold id. destruct (truthy (get body "firstName")), (truthy (get body "lastName"));
      rewrite !or_else_text; reflexivity.
  - cbn. destruct (String.eqb_spec spelling ""); [contradiction|reflexivity].
  - exact Hpassword.
  - replace (login_name _) with (Ok (JsonTools.lower (Str.trim spelling)))
      by reflexivity.
    rewrite Hname. reflexivity.
  - cbn [users]. rewrite (find_app_last _ _ _ Hfind).
    unfold user_document at 1. cbn [get assoc String.eqb Ascii.eqb Bool.eqb default].
    unfold id. cbn [is_str]. rewrite String.eqb_refl. reflexivity.
  - cbn [get assoc String.eqb Ascii.eqb Bool.eqb default user_document]. unfold id.
    apply Hsound. exact Hhash.
Qed.

(** *** The theorems on a toy server *)

Lemma posted_message_is_listed_witness :
  holds Fixtures.one_session Fixtures.session_id []
  /\ exists d',
       handle (post_message Fixtures.toy_server "2026-01-02T00:00:00.000Z" Fixtures.hello)
         Fixtures.one_session = (ok_reply, d')
       /\ handle (get_messages Fixtures.toy_server (VStr Fixtures.session_id)) d'
          = ({| Image.status := 200;
                Image.json :=
                  VArr [ VObj [ ("id", VStr "0123456789abcdef01234567-0");
                                ("role", VStr "user"); ("content", VStr "hello");
                                ("timestamp", VStr "2026-01-02T00:00:00.000Z");
                                ("images", VUndef); ("charts", VUndef);
                                ("toolCalls", VUndef); ("videoCard", VUndef) ] ] |},
             d').
Proof.
  assert (H : holds Fixtures.one_session Fixtures.session_id []).
  { eexists. split; [vm_compute; reflexivity|reflexivity]. }
  split; [exact H|].
  destruct (posted_message_is_listed Fixtures.toy_server "2026-01-02T00:00:00.000Z"
              Fixtures.hello Fixtures.one_session Fixtures.session_id [] []
              eq_refl eq_refl ltac:(discriminate) eq_refl H eq_refl)
    as (d' & Hpost & _ & Hget & _).
  exists d'. split; [exact Hpost|]. exact Hget.
Defined.

Lemma message_to_missing_session_is_lost_witness :
  handle (post_message Fixtures.toy_server "2026-01-02T00:00:00.000Z" Fixtures.hello)
    Fixtures.empty_db
  = (ok_reply, Fixtures.empty_db)
  /\ handle (get_messages Fixtures.toy_server (VStr Fixtures.session_id)) Fixtures.empty_db
     = ({| Image.status := 200; Image.json := VArr [] |}, Fixtures.empty_db).
Proof.
  destruct (message_to_missing_session_is_lost Fixtures.toy_server
              "2026-01-02T00:00:00.000Z" Fixtures.hello Fixtures.empty_db
              Fixtures.session_id eq_refl eq_refl ltac:(discriminate) eq_refl eq_refl)
    as (Hpost & Hget & _).
  split; [exact Hpost|exact Hget].
Defined.

Lemma null_image_blocks_the_session_witness :
  exists d',
    handle (post_message Fixtures.toy_server "2026-01-02T00:00:00.000Z"
              Fixtures.with_null_image) Fixtures.one_session
    = (ok_reply, d')
    /\ handle (get_messages Fixtures.toy_server (VStr Fixtures.session_id)) d'
       = (refuse 500 "TypeError", d').
Proof.
  assert (H : holds Fixtures.one_session Fixtures.session_id []).
  { eexists. split; [vm_compute; reflexivity|reflexivity]. }
  destruct (null_image_blocks_the_session Fixtures.toy_server "2026-01-02T00:00:00.000Z"
              Fixtures.with_null_image Fixtures.one_session Fixtures.session_id [] []
              [ VNull ] eq_refl eq_refl ltac:(discriminate) eq_refl H eq_refl eq_refl
              ltac:(left; reflexivity))
    as (d' & Hpost & _ & Hget).
  exists d'. split; [exact Hpost|exact Hget].
Defined.

Lemma registered_user_can_log_in_witness :
  sound_hash Fixtures.toy_server
  /\ handle (login Fixtures.toy_server
               (VObj [ ("username", VStr "ADA"); ("password", VStr "secret") ]))
       Fixtures.registered
     = ({| Image.status := 200;
           Image.json := VObj [ ("ok", VBool true); ("username", VStr "ada");
                                ("firstName", VStr "Ada");
                                ("lastName", VStr "Lovelace") ] |},
        Fixtures.registered).
Proof.
  assert (H : sound_hash Fixtures.toy_server).
  { intros password hashed Hh. inversion Hh. simpl. rewrite String.eqb_refl. reflexivity. }
  split; [exact H|].
  apply (registered_user_can_log_in Fixtures.toy_server "2026-01-01T00:00:00.000Z"
           Fixtures.registration Fixtures.empty_db Fixtures.registered "ADA" H).
  - reflexivity.
  - discriminate.
  - reflexivity.
Defined.

(** A number can register as a user name, and cannot log in as a number:
    the login calls [trim] on the name itself. *)
Example numeric_username :
  let d := snd (handle (register Fixtures.toy_server "now"
                          (VObj [ ("username", VNum (Int 42));
                                  ("password", VStr "secret") ]))
                  Fixtures.empty_db) in
  fst (handle (register Fixtures.toy_server "now"
                 (VObj [ ("username", VNum (Int 42)); ("password", VStr "secret") ]))
         Fixtures.empty_db)
  = ok_reply
  /\ fst (handle (login Fixtures.toy_server
                    (VObj [ ("username", VNum (Int 42)); ("password", VStr "secret") ]))
            d)
     = refuse 500 "TypeError"
  /\ Image.status
       (fst (handle (login Fixtures.toy_server
                       (VObj [ ("username", VStr "42"); ("password", VStr "secret") ]))
               d))
     = 200.
Proof. vm_compute. repeat split; reflexivity. Qed.

(** The content of a message may be null or empty, but not absent. *)
Example content_must_be_present :
  let post := fun body =>
    fst (handle (post_message Fixtures.toy_server "now" (VObj body)) Fixtures.empty_db) in
  post [ ("session_id", VStr Fixtures.session_id); ("role", VStr "user") ]
  = {| Image.status := 400;
       Image.json := VObj [ ("error", VStr "session_id, role, content required") ] |}
  /\ post [ ("session_id", VStr Fixtures.session_id); ("role", VStr "user");
            ("content", VNull) ]
     = ok_reply
  /\ post [ ("session_id", VStr Fixtures.session_id); ("role", VStr "user");
            ("content", VStr "") ]
     = ok_reply.
Proof. vm_compute. repeat split; reflexivity. Qed.

End ApiFacts.

(* ===================================================================== *)
(** ** What the done event of the ingestion lists *)
(* ===================================================================== *)

Module ListingFacts.
Import JS Ingest Listing IngestFacts.

(** *** The enrichment leaves the id and the URL alone *)

Lemma keeps_ret {A} (a : A) : keeps (ret a).
Proof. intros st. reflexivity. Qed.

Lemma keeps_lift {A} (o : outcome A) : keeps (lift o).
Proof. intros st. reflexivity. Qed.

Lemma keeps_gets {A} (f : item_state -> A) : keeps (gets f).
Proof. intros st. reflexivity. Qed.

Lemma keeps_sbind {A B} (m : SE item_state A) (k : A -> SE item_state B) :
  keeps m -> (forall a, keeps (k a)) -> keeps (sbind m k).
Proof.
  intros Hm Hk st. unfold sbind. specialize (Hm st).
  destruct (m st) as [[a|e] st1]; simpl in Hm |- *; [|exact Hm].
  rewrite (Hk a st1). exact Hm.
Qed.

Lemma keeps_try_catch {A} (m : SE item_state A) (h : string -> SE item_state A) :
  keeps m -> (forall e, keeps (h e)) -> keeps (try_catch m h).
Proof.
  intros Hm Hh st. unfold try_catch. specialize (Hm st).
  destruct (m st) as [[a|e] st1]; simpl in Hm |- *; [exact Hm|].
  rewrite (Hh e st1). exact Hm.
Qed.

Lemma keeps_files (f : item_state -> gmap string string) :
  keeps (modify (fun st => {| vd := vd st; fs := f st |})).
Proof. intros st. reflexivity. Qed.

Lemma keeps_assign (f : videoData -> videoData) :
  (forall d, fixed (f d) = fixed d) -> keeps (assign f).
Proof. intros Hf st. apply Hf. Qed.

Lemma keeps_scan_panels panels : keeps (scan_panels panels).
Proof.
  induction panels as [|panel rest IH]; simpl; [apply keeps_ret|].
  destruct (truthy _); [|exact IH].
  apply keeps_sbind; [apply keeps_lift|]. intros stripped.
  destruct (negb _); [apply keeps_assign; intros d; reflexivity|exact IH].
Qed.

Lemma keeps_transcript_block E videoId : keeps (transcript_block E videoId).
Proof.
  unfold transcript_block.
  apply keeps_try_catch; [|intros e; apply keeps_ret].
  apply keeps_sbind; [apply keeps_files|intros _].
  apply keeps_sbind; [apply keeps_gets|intros found].
  destruct found as [raw|]; [|apply keeps_ret].
  apply keeps_sbind; [apply keeps_lift|intros json].
  apply keeps_sbind; [apply keeps_lift|intros text].
  apply keeps_sbind; [|intros _; apply keeps_files].
  destruct (negb _); [apply keeps_assign; intros d; reflexivity|apply keeps_ret].
Qed.

Lemma keeps_enrich_block E videoId title thumbnailUrl :
  keeps (enrich_block E videoId title thumbnailUrl).
Proof.
  unfold enrich_block.
  apply keeps_try_catch; [|intros e; apply keeps_ret].
  repeat first
    [ apply keeps_transcript_block
    | apply keeps_scan_panels
    | apply keeps_lift
    | apply keeps_assign; intros d; reflexivity
    | apply keeps_sbind; [|intros ?]
    | match goal with |- keeps (if ?b then _ else _) => destruct b end ].
Qed.

(** *** The loop and the records it collects *)

Lemma item_result E limit videoRenderers videos i w videos' :
  fst (item E limit videoRenderers videos i w) = Ok videos' ->
  exists new,
    videos' = (videos ++ new)%list
    /\ List.map video_id new = List.filter truthy [id_at videoRenderers i]
    /\ Forall of_entry new.
Proof.
  unfold item, id_at. cbv zeta. cbn [List.filter].
  destruct (truthy (oget (default VUndef (videoRenderers !! i)) "videoId")).
  - change (negb true) with false. cbv iota.
    unfold sbind at 1. unfold send at 1. unfold modify at 1. cbn [fst snd].
    unfold sbind at 1. unfold lift at 1.
    destruct (last_thumbnail_url _) as [u|m]; cbn [fst snd]; [|discriminate].
    unfold sbind at 1. unfold with_item.
    match goal with |- context [enrich_block ?E ?a ?b ?c ?st] =>
      pose proof (keeps_enrich_block E a b c st) as Hkeeps;
      destruct (enrich_block E a b c st) as [[r|e] st1]
    end; cbn [fst snd ret]; [|discriminate].
    intros H. inversion H. subst videos'. exists [vd st1].
    unfold fixed in Hkeeps. cbn [snd vd video_id video_url] in Hkeeps.
    inversion Hkeeps as [[Hid Hurl Hd Hp Hv]].
    split; [reflexivity|]. split; [cbn [List.map]; rewrite Hid; reflexivity|].
    constructor; [|constructor]. unfold of_entry. rewrite Hurl, Hid. reflexivity.
  - simpl. intros H. inversion H. exists []. rewrite List.app_nil_r.
    split; [reflexivity|]. split; [reflexivity|constructor].
Qed.

Lemma items_result E limit videoRenderers indices : forall videos w videos',
  fst (items E limit videoRenderers indices videos w) = Ok videos' ->
  exists new,
    videos' = (videos ++ new)%list
    /\ List.map video_id new
       = List.filter truthy (List.map (id_at videoRenderers) indices)
    /\ Forall of_entry new
    /\ emitted (snd (items E limit videoRenderers indices videos w))
       = (emitted w
            ++ List.map (fun i => progress_at limit (Z.of_nat i + 1))
                 (List.filter (has_id videoRenderers) indices))%list.
Proof.
  induction indices as [|i rest IH]; intros videos w videos'.
  - simpl. intros H. inversion H. exists []. rewrite !List.app_nil_r.
    repeat split. constructor.
  - cbn [items]. unfold sbind at 1 2.
    pose proof (item_emitted E limit videoRenderers videos i w) as Hemit.
    pose proof (item_result E limit videoRenderers videos i w) as Hres.
    destruct (item E limit videoRenderers videos i w) as [[videos1|m] w1];
      cbn [fst snd] in *; [|discriminate].
    intros Hrest.
    destruct (Hres videos1 eq_refl) as (new1 & -> & Hids1 & Hurl1).
    destruct (IH _ _ _ Hrest) as (new2 & -> & Hids2 & Hurl2 & Hemit2).
    exists (new1 ++ new2)%list. split; [rewrite <- List.app_assoc; reflexivity|].
    split; [|split].
    + rewrite List.map_app, Hids1, Hids2. cbn [List.map List.filter].
      destruct (truthy (id_at videoRenderers i)); reflexivity.
    + apply Forall_app. split; assumption.
    + rewrite Hemit2, Hemit. cbn [List.filter].
      destruct (has_id videoRenderers i); cbn [List.map].
      * rewrite <- List.app_assoc. reflexivity.
      * rewrite List.app_nil_r. reflexivity.
Qed.

Lemma id_at_nil i : id_at [] i = VUndef.
Proof. unfold id_at. rewrite lookup_nil. reflexivity. Qed.

(** Reading the ids by position is reading them off the first entries;
    a position past the end has no id. *)
Lemma ids_by_position videoRenderers : forall n,
  List.filter truthy (List.map (id_at videoRenderers) (seq 0 n))
  = ids_of (firstn n videoRenderers).
Proof.
  unfold ids_of.
  induction videoRenderers as [|vr rest IH]; intros n.
  - rewrite firstn_nil. cbn [List.map List.filter]. generalize 0%nat.
    induction n as [|n IHn]; intros a; [reflexivity|].
    cbn [seq List.map List.filter]. rewrite id_at_nil.
    change (truthy VUndef) with false. cbv iota. apply IHn.
  - destruct n as [|n]; [reflexivity|].
    cbn [seq firstn List.map List.filter].
    change (id_at (vr :: rest) 0) with (oget vr "videoId").
    rewrite <- List.seq_shift, List.map_map.
    change (fun x => id_at (vr :: rest) (S x)) with (id_at rest).
    rewrite IH. reflexivity.
Qed.

Lemma currents_of_progress limit cs t :
  is_terminal t = true ->
  currents (List.map (progress_at limit) cs ++ [t])%list = cs.
Proof.
  intros Ht. unfold currents. rewrite omap_app.
  replace (omap _ [t]) with (@nil Z)
    by (destruct t; [discriminate|reflexivity|reflexivity]).
  rewrite List.app_nil_r.
  induction cs as [|c cs IH]; [reflexivity|].
  cbn. f_equal. exact IH.
Qed.

(** X19. What the done event lists.  When the ingestion ends with a done
    event, the records of that event are, in order, those of the entries
    the loop has visited that have a [videoId]; the loop visits the
    positions below [limit], which are the first [limit] entries when
    [limit] is whole and one entry more when it lies between two whole
    numbers.  The ids are the ids of those entries, every record's URL is
    the watch URL of its id (the enrichment, whatever it fetched and
    wherever it failed, has not touched either field), and the progress
    events before it are those of the same entries, one per record. *)
Theorem done_lists_the_entries_with_an_id E body files0 w videoRenderers videos :
  handler E body files0 = EventStream w ->
  locate E (get body "url") = Ok videoRenderers ->
  In (Done videos) (emitted w) ->
  let limit := limit E (List.length videoRenderers) (maxVideos_of body) in
  (forall i, (i < visited limit)%nat <-> lt (Int (Z.of_nat i)) limit = true)
  /\ List.map video_id videos = ids_of (firstn (visited limit) videoRenderers)
  /\ Forall of_entry videos
  /\ currents (emitted w)
     = List.map (fun i => Z.of_nat i + 1)
         (List.filter (has_id videoRenderers) (seq 0 (visited limit)))
  /\ List.length (currents (emitted w)) = List.length videos.
Proof.
  unfold handler. destruct (truthy (get body "url")); simpl; [|discriminate].
  intros H Hlocate. inversion H as [Hw]. clear H. unfold try_catch.
  rewrite run_stages, Hlocate. cbv zeta.
  set (limit := limit E (List.length videoRenderers) (maxVideos_of body)).
  set (w0 := {| emitted := []; files := files0 |}).
  change (visited limit) with (turns limit).
  unfold sbind.
  pose proof (items_result E limit videoRenderers (seq 0 (turns limit)) [] w0)
    as Hres.
  pose proof (items_emitted E limit videoRenderers (turns limit) 0 [] w0)
    as (cs & Hcs & _).
  destruct (items E limit videoRenderers (seq 0 (turns limit)) [] w0)
    as [[videos0|m] w1]; cbn [fst snd] in *.
  - destruct (Hres videos0 eq_refl) as (new & -> & Hids & Hurl & Hemit).
    cbn [send modify snd emitted]. rewrite Hemit. change (emitted w0) with (@nil event). cbn [List.app].
    intros Hin. apply List.in_app_iff in Hin. destruct Hin as [Hin|Hin].
    + apply List.in_map_iff in Hin. destruct Hin as (i & Hi & _). discriminate.
    + destruct Hin as [Hin|[]]. inversion Hin. subst videos. cbn [List.app].
      split; [intros i; symmetry; apply turns_below|].
      split; [rewrite Hids; apply ids_by_position|]. split; [exact Hurl|].
      rewrite <- (List.map_map (fun i => Z.of_nat i + 1) (progress_at limit)).
      rewrite currents_of_progress by reflexivity.
      split; [reflexivity|].
      rewrite List.length_map, <- (List.length_map video_id new), Hids.
      unfold has_id, id_at. clear.
      induction (seq 0 (turns limit)) as [|i l IH]; [reflexivity|].
      simpl. destruct (truthy _); simpl; rewrite IH; reflexivity.
  - cbn [send modify snd emitted]. rewrite Hcs. change (emitted w0) with (@nil event). cbn [List.app].
    intros Hin. apply List.in_app_iff in Hin. destruct Hin as [Hin|Hin].
    + apply List.in_map_iff in Hin. destruct Hin as (i & Hi & _). discriminate.
    + destruct Hin as [Hin|[]]. discriminate.
Qed.

Lemma done_lists_the_entries_with_an_id_witness :
  let limit := limit (Sample.serving Sample.three_entries)
                 (List.length Fixtures.demo_renderers)
                 (maxVideos_of Sample.demo_request) in
  (forall i, (i < visited limit)%nat <-> lt (Int (Z.of_nat i)) limit = true)
  /\ List.map video_id Fixtures.demo_done
     = ids_of (firstn (visited limit) Fixtures.demo_renderers)
  /\ Forall of_entry Fixtures.demo_done
  /\ currents (emitted Sample.demo_world)
     = List.map (fun i => Z.of_nat i + 1)
         (List.filter (has_id Fixtures.demo_renderers) (seq 0 (visited limit)))
  /\ List.length (currents (emitted Sample.demo_world))
     = List.length Fixtures.demo_done.
Proof.
  apply (done_lists_the_entries_with_an_id
           (Sample.serving Sample.three_entries) Sample.demo_request ∅
           Sample.demo_world Fixtures.demo_renderers Fixtures.demo_done).
  - vm_compute. reflexivity.
  - vm_compute. reflexivity.
  - vm_compute. right. right. left. reflexivity.
Defined.

(** The page of three entries, the second without an id: the done event
    holds the records of the first and the third. *)
Example done_of_three_entries :
  last (emitted Sample.demo_world) = Some (Done Fixtures.demo_done)
  /\ ids_of Fixtures.demo_renderers = [ VStr "a"; VStr "c" ].
Proof. split; vm_compute; reflexivity. Qed.

End ListingFacts.
